(** * gwak.train.ssm: the S4D state-space layer and the S4 residual stack

    A shallow embedding of [src/gwak/train/ssm.py].  Floating-point tensors
    are idealised as tensors of real numbers ([R] of the Standard Library):
    rounding, overflow and NaN are outside this model, except for the
    underflow of [torch.exp], which [float32.exp] models because the sign
    of the poles' real part depends on it.  Tensors are nested
    lists, complex tensors are lists of [complex], Python dictionaries are
    [gmap]s, random draws are read from an explicit [Generator] that is
    threaded through construction and through the training-mode forward
    pass, and a raised Python exception is an [Err] result.  Tensor
    operations are modelled on operands of matching shapes; where torch
    would reject mismatched shapes the list operations truncate, and the
    theorems below state the shapes they assume. *)

From Stdlib Require Import Reals Lra Lia List ZArith.
From stdpp Require Import gmap strings.
Import ListNotations.
Open Scope R_scope.

(* ===================================================================== *)
(** * Complex numbers ([torch.cfloat] idealised)                          *)
(* ===================================================================== *)

Record complex : Type := Cplx { real : R; imag : R }.

Definition C0 : complex := Cplx 0 0.
Definition C1 : complex := Cplx 1 0.
(** Python's [1j]. *)
Definition Ci : complex := Cplx 0 1.
(** A real scalar or real tensor entry promoted to complex. *)
Definition RtoC (x : R) : complex := Cplx x 0.

Definition Cadd (z w : complex) : complex :=
  Cplx (real z + real w) (imag z + imag w).
Definition Csub (z w : complex) : complex :=
  Cplx (real z - real w) (imag z - imag w).
Definition Cmul (z w : complex) : complex :=
  Cplx (real z * real w - imag z * imag w)
       (real z * imag w + imag z * real w).
Definition Cconj (z : complex) : complex := Cplx (real z) (- imag z).
Definition Cnorm2 (z : complex) : R := real z * real z + imag z * imag z.
Definition Cdiv (z w : complex) : complex :=
  Cplx ((real z * real w + imag z * imag w) / Cnorm2 w)
       ((imag z * real w - real z * imag w) / Cnorm2 w).
(** [torch.exp] on a complex entry. *)
Definition Cexp (z : complex) : complex :=
  Cplx (exp (real z) * cos (imag z)) (exp (real z) * sin (imag z)).

(** [sum_{i < n} f i], the index form of a reduction. *)
Fixpoint Csum_n (f : nat -> complex) (n : nat) : complex :=
  match n with
  | O => C0
  | S k => Cadd (Csum_n f k) (f k)
  end.

Fixpoint Rsum_n (f : nat -> R) (n : nat) : R :=
  match n with
  | O => 0
  | S k => Rsum_n f k + f k
  end.

(** [torch.sum] over a rank-1 tensor. *)
Definition Csum (l : list complex) : complex := fold_right Cadd C0 l.
Definition Rsum (l : list R) : R := fold_right Rplus 0 l.

(* ===================================================================== *)
(** * Tensors                                                             *)
(* ===================================================================== *)

Abbreviation Tensor1 := (list R).
Abbreviation Tensor2 := (list (list R)).
Abbreviation Tensor3 := (list (list (list R))).
Abbreviation CTensor1 := (list complex).
Abbreviation CTensor2 := (list (list complex)).
Abbreviation CTensor3 := (list (list (list complex))).

(** Entry [(h, n)] of a rank-2 tensor, entry [(b, h, t)] of a rank-3 one. *)
Definition at2 (X : Tensor2) (h n : nat) : R := nth n (nth h X []) 0.
Definition Cat2 (X : CTensor2) (h n : nat) : complex := nth n (nth h X []) C0.
Definition at3 (X : Tensor3) (b h t : nat) : R :=
  nth t (nth h (nth b X []) []) 0.

(** [X] has shape [(H, L)]. *)
Definition shape2 {A : Type} (X : list (list A)) (H L : nat) : Prop :=
  Datatypes.length X = H /\ Forall (fun row => Datatypes.length row = L) X.
(** [X] has shape [(B, H, L)]. *)
Definition shape3 {A : Type} (X : list (list (list A))) (B H L : nat) : Prop :=
  Datatypes.length X = B /\ Forall (fun Xb => shape2 Xb H L) X.

(* ===================================================================== *)
(** * Exceptions, the random generator, and the monad threading both      *)
(* ===================================================================== *)

(** A raised [ValueError]: the message (a format string) and the value
    formatted into it. *)
Inductive Exception : Type :=
| ValueError (msg : string) (arg : option R).

Inductive Result (A : Type) : Type :=
| Ok (a : A)
| Err (e : Exception).
Arguments Ok {A} a.
Arguments Err {A} e.

Definition is_ok {A : Type} (r : Result A) : bool :=
  match r with Ok _ => true | Err _ => false end.

(** The state of torch's global random generator: the uniform samples
    [torch.rand] will return next and the normal samples [torch.randn] will
    return next. *)
Record Generator : Type := {
  uniform : nat -> R;
  normal : nat -> R
}.

(** [torch.rand] samples from [[0, 1)]. *)
Definition Generator_ok (g : Generator) : Prop :=
  forall i, 0 <= uniform g i < 1.

Definition M (A : Type) : Type := Generator -> Result (A * Generator).

Definition ret {A : Type} (a : A) : M A := fun g => Ok (a, g).

Definition bind {A B : Type} (m : M A) (k : A -> M B) : M B :=
  fun g =>
    match m g with
    | Ok (a, g') => k a g'
    | Err e => Err e
    end.

Definition raise {A : Type} (e : Exception) : M A := fun _ => Err e.

Notation "x <- m ;; k" := (bind m (fun x => k))
  (at level 100, m at next level, right associativity).

(* ===================================================================== *)
(** * The parts of Python and torch the module calls                      *)
(* ===================================================================== *)

Module math.

(** [math.log]: a [ValueError] outside the positive reals. *)
Definition log (x : R) : M R :=
  if Rlt_dec 0 x then ret (ln x)
  else raise (ValueError "math domain error" None).

Definition pi : R := PI.

End math.

(** Python's [min(a, b)]: [b] when [b < a], else [a]. *)
Definition py_min (a b : R) : R := if Rlt_dec b a then b else a.

Module torch.

(** A pointwise function over a rank-2 tensor. *)
Definition map2 {A B : Type} (f : A -> B) (X : list (list A))
  : list (list B) := map (map f) X.

(** A pointwise binary operation on two rank-2 tensors of one shape. *)
Definition zip2 {A B D : Type} (f : A -> B -> D)
  (X : list (list A)) (Y : list (list B)) : list (list D) :=
  zip_with (zip_with f) X Y.

(** [X op d.unsqueeze(-1)]: row [h] of [X] combined with the scalar [d[h]]. *)
Definition zip_rows {A B D : Type} (f : A -> B -> D)
  (X : list (list A)) (d : list B) : list (list D) :=
  zip_with (fun row x => map (fun a => f a x) row) X d.

(** The size of the second axis, read off the first row. *)
Definition dim1 {A : Type} (X : list (list A)) : nat :=
  match X with
  | [] => O
  | row :: _ => Datatypes.length row
  end.

(** The size of the third axis, read off the first batch element. *)
Definition dim2 {A : Type} (X : list (list (list A))) : nat :=
  match X with
  | [] => O
  | Xb :: _ => dim1 Xb
  end.

(** [X.transpose(-1, -2)] on a rank-2 tensor. *)
Definition transpose2 (X : Tensor2) : Tensor2 :=
  map (fun j => map (fun row => nth j row 0) X) (seq 0 (dim1 X)).

(** [X.transpose(-1, -2)] on a rank-3 tensor. *)
Definition transpose (X : Tensor3) : Tensor3 := map transpose2 X.

(** [torch.arange(n)], an integer tensor. *)
Definition arange (n : nat) : list nat := seq 0 n.

(** [torch.ones(H, N)]. *)
Definition ones (H N : nat) : Tensor2 := repeat (repeat 1 N) H.

(** [einops.repeat(x, "n -> h n", h=H)]. *)
Definition repeat_rows {A : Type} (x : list A) (H : nat) : list (list A) :=
  repeat x H.

(** A flat run of samples laid out as [(H, W)], row-major. *)
Definition reshape2 {A : Type} (H W : nat) (flat : nat -> A)
  : list (list A) :=
  map (fun h => map (fun w => flat (h * W + w)%nat) (seq 0 W)) (seq 0 H).

(** [torch.rand(n)]: the next [n] uniform samples. *)
Definition rand (n : nat) : M Tensor1 :=
  fun g =>
    Ok (map (uniform g) (seq 0 n),
        {| uniform := fun i => uniform g (n + i)%nat; normal := normal g |}).

(** [torch.rand(H, W)]. *)
Definition rand2 (H W : nat) : M Tensor2 :=
  fun g =>
    Ok (reshape2 H W (uniform g),
        {| uniform := fun i => uniform g (H * W + i)%nat;
           normal := normal g |}).

(** A flat run of samples laid out as [(B, H, W)], row-major. *)
Definition reshape3 {A : Type} (B H W : nat) (flat : nat -> A)
  : list (list (list A)) :=
  map (fun b => reshape2 H W (fun i => flat (b * (H * W) + i)%nat)) (seq 0 B).

(** [torch.rand(B, H, W)]. *)
Definition rand3 (B H W : nat) : M Tensor3 :=
  fun g =>
    Ok (reshape3 B H W (uniform g),
        {| uniform := fun i => uniform g (B * (H * W) + i)%nat;
           normal := normal g |}).

(** [torch.randn(n)]: the next [n] normal samples. *)
Definition randn (n : nat) : M Tensor1 :=
  fun g =>
    Ok (map (normal g) (seq 0 n),
        {| uniform := uniform g; normal := fun i => normal g (n + i)%nat |}).

(** [torch.randn(H, W, dtype=torch.cfloat)]: two samples per entry, each
    scaled by [1 / sqrt 2] so that the complex entry has unit variance. *)
Definition randn_cfloat (H W : nat) : M CTensor2 :=
  fun g =>
    Ok (reshape2 H W
          (fun i => Cplx (normal g (2 * i)%nat / sqrt 2)
                         (normal g (2 * i + 1)%nat / sqrt 2)),
        {| uniform := uniform g;
           normal := fun i => normal g (2 * (H * W) + i)%nat |}).

(** [torch.view_as_complex] on a real tensor whose last dimension is 2;
    the trailing pair is kept as a Rocq pair. *)
Definition view_as_complex (X : list (list (R * R))) : CTensor2 :=
  map2 (fun p => Cplx (fst p) (snd p)) X.

Definition view_as_real (X : CTensor2) : list (list (R * R)) :=
  map2 (fun z => (real z, imag z)) X.

(** [torch.einsum("hn, hnl -> hl", C, E)].  [L] is the size of the [l]
    axis of [E], which a nested list forgets when the [n] axis is empty. *)
Definition einsum_hn_hnl_hl (L : nat) (C : CTensor2) (E : CTensor3)
  : CTensor2 :=
  zip_with
    (fun c_h e_h =>
       map (fun l => Csum (zip_with (fun c e_hn => Cmul c (nth l e_hn C0))
                                    c_h e_h))
           (seq 0 L))
    C E.

(** ** [torch.fft] *)
Module fft.

(** [exp(2 pi i k / n)]. *)
Definition twiddle (n : nat) (k : Z) : complex :=
  Cplx (cos (2 * PI * IZR k / INR n)) (sin (2 * PI * IZR k / INR n)).

(** The signal trimmed or zero-padded to [n] samples. *)
Definition resize (n : nat) (x : Tensor1) : Tensor1 :=
  firstn n x ++ repeat 0 (n - Datatypes.length x).

Definition Cresize (n : nat) (X : CTensor1) : CTensor1 :=
  firstn n X ++ repeat C0 (n - Datatypes.length X).

(** Bin [j] of the length-[n] discrete Fourier transform of [x]. *)
Definition dft (n : nat) (x : Tensor1) (j : nat) : complex :=
  Csum (map (fun s =>
               Cmul (RtoC (nth s x 0))
                    (twiddle n (- (Z.of_nat j * Z.of_nat s))))
            (seq 0 n)).

(** [torch.fft.rfft(x, n=n)] along the last axis: the bins [0 .. n/2] of
    the discrete Fourier transform of the resized signal.  (torch rejects
    [n = 0]; [S4D.forward] passes [n = 2 * length].) *)
Definition rfft (x : Tensor1) (n : nat) : CTensor1 :=
  map (dft n (resize n x)) (seq 0 (n / 2 + 1)).

(** The full spectrum a one-sided Hermitian signal stands for. *)
Definition hermitian (n : nat) (X : CTensor1) (j : nat) : complex :=
  if (j <=? n / 2)%nat then nth j X C0 else Cconj (nth (n - j) X C0).

(** [torch.fft.irfft(X, n=n)] along the last axis: the real signal whose
    one-sided spectrum is [X], scaled by [1/n].  Taking the real part of
    the inverse transform of the Hermitian extension is what ignores the
    imaginary parts of the zero-frequency and Nyquist bins. *)
Definition irfft (X : CTensor1) (n : nat) : Tensor1 :=
  let Xp := Cresize (n / 2 + 1) X in
  map (fun t =>
         real (Cmul (RtoC (/ INR n))
                    (Csum (map (fun j =>
                                  Cmul (hermitian n Xp j)
                                       (twiddle n (Z.of_nat j * Z.of_nat t)))
                               (seq 0 n)))))
      (seq 0 n).

End fft.

End torch.

(* ===================================================================== *)
(** * Underflow of the float32 exponential                                *)
(* ===================================================================== *)

Module float32.

(** Half of the smallest positive float32, [2^-149]: under rounding to
    nearest, a positive result of at most this size becomes [0.0]. *)
Definition half_min_subnormal : R := / 2 ^ 150.

(** [torch.exp] on a float32 entry, as far as underflow goes: zero when
    the exact exponential is at most [half_min_subnormal], the exact
    exponential otherwise.  Rounding above the underflow point does not
    change the sign, and an overflow to [inf] is positive as the exact
    value is. *)
Definition exp (x : R) : R :=
  if Rle_dec (Rtrigo_def.exp x) half_min_subnormal then 0
  else Rtrigo_def.exp x.

(** The underflow point, [-150 * ln 2] (about [-103.97]). *)
Definition underflow_point : R := - (150 * ln 2).

End float32.

(* ===================================================================== *)
(** * Registration of tensors on a module                                 *)
(* ===================================================================== *)

(** A tensor attribute of an [nn.Module]: a buffer (not trained), or an
    [nn.Parameter], which may carry the [_optim] dictionary the optimizer
    set-up reads. *)
Inductive Registered (T : Type) : Type :=
| Buffer (tensor : T)
| Param (tensor : T) (_optim : option (gmap string R)).
Arguments Buffer {T} tensor.
Arguments Param {T} tensor _optim.

Definition tensor_of {T : Type} (r : Registered T) : T :=
  match r with
  | Buffer t => t
  | Param t _ => t
  end.

Definition is_buffer {T : Type} (r : Registered T) : bool :=
  match r with
  | Buffer _ => true
  | Param _ _ => false
  end.

Definition optim_of {T : Type} (r : Registered T) : option (gmap string R) :=
  match r with
  | Buffer _ => None
  | Param _ o => o
  end.

(* ===================================================================== *)
(** * The torch.nn modules the model is built from                        *)
(* ===================================================================== *)

Module nn.

(** A pointwise function over a rank-3 tensor. *)
Definition map3 {A B : Type} (f : A -> B) (X : list (list (list A)))
  : list (list (list B)) := map (torch.map2 f) X.

(** A function of the last axis, over the two leading axes. *)
Definition map3' {A B : Type} (f : list A -> list B)
  (X : list (list (list A))) : list (list (list B)) := map (map f) X.

(** A pointwise binary operation on two rank-3 tensors of one shape. *)
Definition zip3 {A B D : Type} (f : A -> B -> D)
  (X : list (list (list A))) (Y : list (list (list B)))
  : list (list (list D)) := zip_with (torch.zip2 f) X Y.

(** ** [torch.nn.Dropout1d] *)
Module Dropout1d.

Record t : Type := Build { p : R; training : bool }.

(** [torch.nn.modules.dropout._DropoutNd.__init__]: the library accepts
    the closed interval [[0, 1]]. *)
Definition __init__ (p : R) : M t :=
  if Rlt_dec p 0 then
    raise (ValueError "dropout probability has to be between 0 and 1, but got {p}"
                      (Some p))
  else if Rgt_dec p 1 then
    raise (ValueError "dropout probability has to be between 0 and 1, but got {p}"
                      (Some p))
  else ret {| p := p; training := true |}.

(** A Bernoulli sample with success probability [q], from a uniform one. *)
Definition keep (q u : R) : R := if Rlt_dec u q then 1 else 0.

(** In training mode whole channels [(b, c)] are zeroed with probability
    [p] and the rest scaled by [1 / (1 - p)]; otherwise the identity. *)
Definition forward (self : t) (X : Tensor3) : M Tensor3 :=
  if training self then
    if Req_dec_T (p self) 0 then ret X
    else if Req_dec_T (p self) 1 then ret (map3 (fun _ => 0) X)
    else
      u <- torch.rand2 (Datatypes.length X)
                       (torch.dim1 X) ;;
      ret (zip_with
             (torch.zip_rows
                (fun x u_bc => x * (keep (1 - p self) u_bc / (1 - p self))))
             X u)
  else ret X.

(** [nn.Module.train(mode)]. *)
Definition train (mode : bool) (self : t) : t :=
  {| p := p self; training := mode |}.

End Dropout1d.

(** ** [torch.nn.Linear] *)
Module Linear.

(** [weight] has shape [(out_features, in_features)]. *)
Record t : Type := Build { weight : Tensor2; bias : Tensor1 }.

(** The default initialisation: uniform in
    [(-1/sqrt(in_features), 1/sqrt(in_features))]. *)
Definition __init__ (in_features out_features : nat) : M t :=
  w <- torch.rand2 out_features in_features ;;
  b <- torch.rand out_features ;;
  let bound := 1 / sqrt (INR in_features) in
  ret {| weight := torch.map2 (fun u => (2 * u - 1) * bound) w;
         bias := map (fun u => (2 * u - 1) * bound) b |}.

(** [x @ weight.T + bias] on one feature vector. *)
Definition apply (self : t) (x : Tensor1) : Tensor1 :=
  zip_with (fun w_o b_o => Rsum (zip_with Rmult x w_o) + b_o)
           (weight self) (bias self).

(** On a [(B, d)] tensor and on a [(B, L, d)] tensor: the last axis. *)
Definition forward2 (self : t) (X : Tensor2) : Tensor2 := map (apply self) X.
Definition forward3 (self : t) (X : Tensor3) : Tensor3 :=
  map (map (apply self)) X.

End Linear.

(** ** [torch.nn.LayerNorm] over the last axis *)
Module LayerNorm.

Record t : Type := Build { weight : Tensor1; bias : Tensor1; eps : R }.

Definition __init__ (normalized_shape : nat) : t :=
  {| weight := repeat 1 normalized_shape;
     bias := repeat 0 normalized_shape;
     eps := 1e-5 |}.

Definition apply (self : t) (x : Tensor1) : Tensor1 :=
  let n := INR (Datatypes.length x) in
  let mean := Rsum x / n in
  let var := Rsum (map (fun v => (v - mean) * (v - mean)) x) / n in
  zip_with Rplus
    (zip_with (fun v w => (v - mean) / sqrt (var + eps self) * w)
              x (weight self))
    (bias self).

Definition forward (self : t) (X : Tensor3) : Tensor3 :=
  map (map (apply self)) X.

End LayerNorm.

(** ** [torch.nn.Conv1d] with [kernel_size=1] *)
Module Conv1d.

(** [weight] has shape [(out_channels, in_channels, 1)]. *)
Record t : Type := Build { weight : Tensor3; bias : Tensor1 }.

Definition __init__ (in_channels out_channels : nat) : M t :=
  w <- torch.rand2 out_channels in_channels ;;
  b <- torch.rand out_channels ;;
  let bound := 1 / sqrt (INR (in_channels * 1)) in
  ret {| weight := torch.map2 (fun u => [(2 * u - 1) * bound]) w;
         bias := map (fun u => (2 * u - 1) * bound) b |}.

(** One batch element [(in_channels, L)] to [(out_channels, L)]. *)
Definition apply (self : t) (Xb : Tensor2) : Tensor2 :=
  zip_with
    (fun w_o b_o =>
       map (fun t =>
              Rsum (zip_with (fun w_oh x_h => nth 0 w_oh 0 * nth t x_h 0)
                             w_o Xb) + b_o)
           (seq 0 (torch.dim1 Xb)))
    (weight self) (bias self).

Definition forward (self : t) (X : Tensor3) : Tensor3 := map (apply self) X.

End Conv1d.

Definition sigmoid (x : R) : R := 1 / (1 + exp (- x)).

(** [torch.nn.GLU(dim=-2)]: the channel axis is split in two halves and
    the second gates the first. *)
Definition GLU (X : Tensor3) : Tensor3 :=
  map (fun Xb =>
         let half := (Datatypes.length Xb / 2)%nat in
         torch.zip2 (fun a g => a * sigmoid g) (firstn half Xb) (skipn half Xb))
      X.

End nn.

(* ===================================================================== *)
(** * DropoutNd                                                           *)
(* ===================================================================== *)

Module DropoutNd.

Record t : Type := Build {
  p : R;
  tie : bool;
  transposed : bool;
  training : bool
}.

(** The attribute [binomial] is never read and is left out. *)
Definition __init__ (p : R) (tie transposed : bool) : M t :=
  if Rlt_dec p 0 then
    raise (ValueError "dropout probability has to be in [0, 1), but got {}"
                      (Some p))
  else if Rge_dec p 1 then
    raise (ValueError "dropout probability has to be in [0, 1), but got {}"
                      (Some p))
  else ret {| p := p; tie := tie; transposed := transposed;
              training := true |}.

(** One entry of the mask [torch.rand(mask_shape) < 1.0 - self.p], as the
    1.0 or 0.0 it multiplies by. *)
Definition mask (p u : R) : R := if Rlt_dec u (1 - p) then 1 else 0.

(** [forward] on a rank-3 tensor [(batch, dim, length)]. *)
Definition forward (self : t) (X : Tensor3) : M Tensor3 :=
  if training self then
    let X := if transposed self then X else torch.transpose X in
    X <- (if tie self then
            u <- torch.rand2 (Datatypes.length X) (torch.dim1 X) ;;
            ret (zip_with
                   (torch.zip_rows
                      (fun x u_bd => x * mask (p self) u_bd
                                     * (1 / (1 - p self))))
                   X u)
          else
            u <- torch.rand3 (Datatypes.length X) (torch.dim1 X)
                             (torch.dim2 X) ;;
            ret (nn.zip3
                   (fun x u_bdl => x * mask (p self) u_bdl
                                   * (1 / (1 - p self)))
                   X u)) ;;
    let X := if transposed self then X else torch.transpose X in
    ret X
  else ret X.

End DropoutNd.

(* ===================================================================== *)
(** * S4DKernel                                                           *)
(* ===================================================================== *)

Module S4DKernel.

(** The attributes [__init__] sets.  [C] holds [view_as_real] of the
    complex coupling; [length] is the buffer [arange(length)]. *)
Record t : Type := Build {
  C : Registered (list (list (R * R)));
  log_dt : Registered Tensor1;
  log_A_real : Registered Tensor2;
  A_imag : Registered Tensor2;
  length : Registered (list nat)
}.

(** [register(name, tensor, lr)]: the entry stored under the attribute
    [name].  [lr == 0.0] is false for [None]. *)
Definition register {T : Type} (tensor : T) (lr : option R)
  : Registered T :=
  match lr with
  | Some v =>
      if Req_dec_T v 0 then Buffer tensor
      else Param tensor
             (Some (<["lr" := v]> ({["weight_decay" := 0]} : gmap string R)))
  | None =>
      Param tensor (Some ({["weight_decay" := 0]} : gmap string R))
  end.

Definition __init__ (d_model length N : nat) (dt_min dt_max : R)
  (lr : option R) : M t :=
  (* generate dt *)
  let H := d_model in
  u <- torch.rand H ;;
  log_max <- math.log dt_max ;;
  log_min <- math.log dt_min ;;
  log_min' <- math.log dt_min ;;
  let log_dt := map (fun x => x * (log_max - log_min) + log_min') u in
  C <- torch.randn_cfloat H (N / 2) ;;
  let log_A_real :=
    torch.map2 ln (torch.map2 (Rmult 0.5) (torch.ones H (N / 2))) in
  let A_imag :=
    torch.map2 (fun k => math.pi * INR k)
               (torch.repeat_rows (torch.arange (N / 2)) H) in
  ret {| C := Param (torch.view_as_real C) None;
         log_dt := register log_dt lr;
         log_A_real := register log_A_real lr;
         A_imag := register A_imag lr;
         length := Buffer (torch.arange length) |}.

(** [A = -torch.exp(self.log_A_real) + 1j * self.A_imag], in exact
    arithmetic. *)
Definition poles (self : t) : CTensor2 :=
  torch.zip2 (fun lar ai => Cadd (RtoC (- exp lar)) (Cmul Ci (RtoC ai)))
             (tensor_of (log_A_real self)) (tensor_of (A_imag self)).

(** The same line with the float32 [torch.exp]: an entry of [log_A_real]
    below the underflow point gives a pole whose real part is zero. *)
Definition poles_float32 (self : t) : CTensor2 :=
  torch.zip2
    (fun lar ai => Cadd (RtoC (- float32.exp lar)) (Cmul Ci (RtoC ai)))
    (tensor_of (log_A_real self)) (tensor_of (A_imag self)).

Definition forward (self : t) : Tensor2 :=
  (* Materialize parameters *)
  let dt := map exp (tensor_of (log_dt self)) in
  let C := torch.view_as_complex (tensor_of (C self)) in
  let A := poles self in
  (* Vandermonde multiplication *)
  let dtA := torch.zip_rows (fun a d => Cmul a (RtoC d)) A dt in
  let K :=
    torch.map2
      (fun z => map (fun l => Cmul z (RtoC (INR l))) (tensor_of (length self)))
      dtA in
  let C :=
    torch.zip2 Cdiv
      (torch.zip2 (fun c z => Cmul c (Csub (Cexp z) (RtoC 1))) C dtA) A in
  let K :=
    torch.map2 (Rmult 2)
      (torch.map2 real
         (torch.einsum_hn_hnl_hl
            (Datatypes.length (tensor_of (length self)))
            C (torch.map2 (map Cexp) K))) in
  K.

End S4DKernel.

(** ** The kernel as the specification words it *)

Module KernelSpec.
Section WithParameters.
Variable log_dt : Tensor1.
Variable C : list (list (R * R)).
Variable log_A_real A_imag : Tensor2.

Definition dt (h : nat) : R := exp (nth h log_dt 0).
Definition A (h n : nat) : complex :=
  Cplx (- exp (at2 log_A_real h n)) (at2 A_imag h n).
Definition dtA (h n : nat) : complex := Cmul (A h n) (RtoC (dt h)).
Definition Cin (h n : nat) : complex :=
  let p := nth n (nth h C []) (0, 0) in Cplx (fst p) (snd p).
Definition C' (h n : nat) : complex :=
  Cdiv (Cmul (Cin h n) (Csub (Cexp (dtA h n)) C1)) (A h n).
Definition kernel (Nh : nat) (h t : nat) : R :=
  2 * real (Csum_n (fun n => Cmul (C' h n)
                               (Cexp (Cmul (dtA h n) (RtoC (INR t))))) Nh).
End WithParameters.
End KernelSpec.

(* ===================================================================== *)
(** * S4D                                                                 *)
(* ===================================================================== *)

Module S4D.

(** [activation] is [nn.GELU()], [dropout] is [torch.nn.Dropout1d(dropout)],
    [output_linear] is the [Conv1d] of the [Sequential]; its [GLU] has no
    state. *)
Record t : Type := Build {
  transposed : bool;
  D : Registered Tensor1;
  length : nat;
  kernel : S4DKernel.t;
  activation : R -> R;
  dropout : nn.Dropout1d.t;
  output_linear : nn.Conv1d.t
}.

(** [GELU] is the library's activation function [nn.GELU()], a parameter
    of the development. *)
Definition __init__ (GELU : R -> R) (d_model length d_state : nat)
  (dropout : R) (transposed : bool) (dt_min dt_max : R) (lr : option R)
  : M t :=
  D <- torch.randn d_model ;;
  (* SSM Kernel *)
  kernel <- S4DKernel.__init__ d_model length d_state dt_min dt_max lr ;;
  (* Pointwise *)
  dropout <- nn.Dropout1d.__init__ dropout ;;
  (* position-wise output transform to mix features *)
  conv <- nn.Conv1d.__init__ d_model (2 * d_model) ;;
  ret {| transposed := transposed;
         D := Param D None;
         length := length;
         kernel := kernel;
         activation := GELU;
         dropout := dropout;
         output_linear := conv |}.

(** The convolution stage: [rfft] of kernel and input with [n = 2 * length],
    the product per channel, [irfft], and the first [length] samples. *)
Definition convolution (length : nat) (k : Tensor2) (u : Tensor3) : Tensor3 :=
  let k_f := map (fun k_h => torch.fft.rfft k_h (2 * length)) k in
  let u_f := nn.map3' (fun u_bh => torch.fft.rfft u_bh (2 * length)) u in
  let y_f := map (fun u_f_b => torch.zip2 Cmul u_f_b k_f) u_f in
  nn.map3' (fun y_f_bh => firstn length (torch.fft.irfft y_f_bh (2 * length)))
           y_f.

(** [y + u * self.D.unsqueeze(-1)]. *)
Definition skip (D : Tensor1) (u y : Tensor3) : Tensor3 :=
  nn.zip3 Rplus y (map (fun u_b => torch.zip_rows Rmult u_b D) u).

(** Lines 181-189 of [forward]: convolution, then the skip term. *)
Definition convolution_skip (length : nat) (k : Tensor2) (D : Tensor1)
  (u : Tensor3) : Tensor3 :=
  skip D u (convolution length k u).

Definition forward (self : t) (u : Tensor3) : M (Tensor3 * option unit) :=
  let u := if transposed self then u else torch.transpose u in
  (* Compute SSM Kernel *)
  let k := S4DKernel.forward (kernel self) in
  (* Convolution *)
  let y := convolution (length self) k u in
  (* Compute D term in state space equation *)
  let y := skip (tensor_of (D self)) u y in
  y <- nn.Dropout1d.forward (dropout self) (nn.map3 (activation self) y) ;;
  let y := nn.GLU (nn.Conv1d.forward (output_linear self) y) in
  let y := if transposed self then y else torch.transpose y in
  (* Return a dummy state *)
  ret (y, None).

(** [nn.Module.train(mode)]: the flag of every submodule that reads it. *)
Definition train (mode : bool) (self : t) : t :=
  {| transposed := transposed self;
     D := D self;
     length := length self;
     kernel := kernel self;
     activation := activation self;
     dropout := nn.Dropout1d.train mode (dropout self);
     output_linear := output_linear self |}.

Definition training (self : t) : bool := nn.Dropout1d.training (dropout self).

End S4D.

(** ** The convolution as the specification words it *)

Module ConvSpec.

(** [y[b,h,t] = sum_{s=0}^{t} k[h,s] * u[b,h,t-s]]. *)
Definition direct (k : Tensor2) (u : Tensor3) (b h t : nat) : R :=
  Rsum_n (fun s => at2 k h s * at3 u b h (t - s)) (S t).

End ConvSpec.

(* ===================================================================== *)
(** * S4Model                                                             *)
(* ===================================================================== *)

Module S4Model.

Record t : Type := Build {
  prenorm : bool;
  encoder : nn.Linear.t;
  s4_layers : list S4D.t;
  norms : list nn.LayerNorm.t;
  dropouts : list nn.Dropout1d.t;
  decoder : nn.Linear.t
}.

(** The body of [for _ in range(n_layers)]: the three module lists, in the
    order the loop appends to them. *)
Fixpoint build_layers (GELU : R -> R) (n_layers : nat)
  (d_model length d_state : nat) (dropout : R) (dt_min dt_max : R)
  (lr : option R)
  : M (list S4D.t * list nn.LayerNorm.t * list nn.Dropout1d.t) :=
  match n_layers with
  | O => ret ([], [], [])
  | S n =>
      layer <- S4D.__init__ GELU d_model length d_state dropout true
                            dt_min dt_max lr ;;
      let norm := nn.LayerNorm.__init__ d_model in
      drop <- nn.Dropout1d.__init__ dropout ;;
      rest <- build_layers GELU n d_model length d_state dropout
                           dt_min dt_max lr ;;
      ret (layer :: fst (fst rest), norm :: snd (fst rest), drop :: snd rest)
  end.

Definition __init__ (GELU : R -> R) (d_input length d_output d_model
  d_state n_layers : nat) (dropout : R) (prenorm : bool) (dt_min dt_max : R)
  (lr : option R) : M t :=
  (* Linear encoder *)
  encoder <- nn.Linear.__init__ d_input d_model ;;
  (* Stack S4 layers as residual blocks *)
  let lr := match lr with
            | Some v => Some (py_min 0.001 v)
            | None => None
            end in
  layers <- build_layers GELU n_layers d_model length d_state dropout
                         dt_min dt_max lr ;;
  (* Linear decoder *)
  decoder <- nn.Linear.__init__ d_model d_output ;;
  ret {| prenorm := prenorm;
         encoder := encoder;
         s4_layers := fst (fst layers);
         norms := snd (fst layers);
         dropouts := snd layers;
         decoder := decoder |}.

(** [norm(z.transpose(-1, -2)).transpose(-1, -2)]. *)
Definition norm_channels (norm : nn.LayerNorm.t) (z : Tensor3) : Tensor3 :=
  torch.transpose (nn.LayerNorm.forward norm (torch.transpose z)).

(** The loop over [zip(self.s4_layers, self.norms, self.dropouts)]. *)
Fixpoint layers_loop (prenorm : bool)
  (layers : list (S4D.t * nn.LayerNorm.t * nn.Dropout1d.t)) (x : Tensor3)
  : M Tensor3 :=
  match layers with
  | [] => ret x
  | (layer, norm, dropout) :: rest =>
      let z := x in
      let z := if prenorm then norm_channels norm z else z in
      (* Apply S4 block: we ignore the state input and output *)
      r <- S4D.forward layer z ;;
      let z := fst r in
      (* Dropout on the output of the S4 block *)
      z <- nn.Dropout1d.forward dropout z ;;
      (* Residual connection *)
      let x := nn.zip3 Rplus z x in
      let x := if prenorm then x else norm_channels norm x in
      layers_loop prenorm rest x
  end.

(** [x.mean(dim=1)] on a [(B, L, d)] tensor. *)
Definition mean_dim1 (X : Tensor3) : Tensor2 :=
  map (fun Xb =>
         map (fun d => Rsum (map (fun row => nth d row 0) Xb)
                       / INR (Datatypes.length Xb))
             (seq 0 (torch.dim1 Xb)))
      X.

Definition forward (self : t) (x : Tensor3) : M Tensor2 :=
  let x := torch.transpose x in
  let x := nn.Linear.forward3 (encoder self) x in
  let x := torch.transpose x in
  x <- layers_loop (prenorm self)
         (combine (combine (s4_layers self) (norms self)) (dropouts self)) x ;;
  let x := torch.transpose x in
  (* Pooling: average pooling over the sequence length *)
  let x := mean_dim1 x in
  (* Decode the outputs *)
  ret (nn.Linear.forward2 (decoder self) x).

(** [nn.Module.train(mode)] and [nn.Module.eval()]. *)
Definition train (mode : bool) (self : t) : t :=
  {| prenorm := prenorm self;
     encoder := encoder self;
     s4_layers := map (S4D.train mode) (s4_layers self);
     norms := norms self;
     dropouts := map (nn.Dropout1d.train mode) (dropouts self);
     decoder := decoder self |}.

Definition eval (self : t) : t := train false self.

(** No dropout module of the model is in training mode. *)
Definition in_eval_mode (self : t) : bool :=
  forallb (fun layer => negb (S4D.training layer)) (s4_layers self)
  && forallb (fun d => negb (nn.Dropout1d.training d)) (dropouts self).

End S4Model.

(* ===================================================================== *)
(** * The results of construction, in closed form                        *)
(* ===================================================================== *)

(** What [S4DKernel.__init__] builds when it returns. *)
Definition kernel_built (d_model length N : nat) (dt_min dt_max : R)
  (lr : option R) (g : Generator) : S4DKernel.t :=
  {| S4DKernel.C :=
       Param (torch.view_as_real
                (torch.reshape2 d_model (N / 2)
                   (fun i => Cplx (normal g (2 * i)%nat / sqrt 2)
                                  (normal g (2 * i + 1)%nat / sqrt 2))))
             None;
     S4DKernel.log_dt :=
       S4DKernel.register
         (map (fun x => x * (ln dt_max - ln dt_min) + ln dt_min)
              (map (uniform g) (seq 0 d_model))) lr;
     S4DKernel.log_A_real :=
       S4DKernel.register
         (torch.map2 ln (torch.map2 (Rmult 0.5) (torch.ones d_model (N / 2))))
         lr;
     S4DKernel.A_imag :=
       S4DKernel.register
         (torch.map2 (fun k => math.pi * INR k)
            (torch.repeat_rows (torch.arange (N / 2)) d_model)) lr;
     S4DKernel.length := Buffer (torch.arange length) |}.

(* ===================================================================== *)
(** * Registration as the specification words it                          *)
(* ===================================================================== *)

Module RegistrationSpec.

(** A frozen buffer when the learning rate is exactly 0; otherwise a
    trainable parameter whose override record has [weight_decay] 0.0 and,
    when a learning rate was supplied, that learning rate. *)
Definition frozen_or_overridden {T : Type} (lr : option R)
  (r : Registered T) : Prop :=
  (lr = Some 0 /\ is_buffer r = true) \/
  (lr <> Some 0 /\ is_buffer r = false /\
   exists o : gmap string R,
     optim_of r = Some o /\
     o !! "weight_decay" = Some 0 /\
     o !! "lr" = lr).

(** A trainable parameter with no override record attached. *)
Definition plain_parameter {T : Type} (r : Registered T) : Prop :=
  is_buffer r = false /\ optim_of r = None.

End RegistrationSpec.

(* ===================================================================== *)
(** * Tensors of the constructed shapes                                   *)
(* ===================================================================== *)

(** The shapes [__init__] gives the tensors of each module; the optimizer
    changes their values, never their shapes. *)
Module Constructed.

Definition kernel (k : S4DKernel.t) (H L : nat) : Prop :=
  exists Nh,
    Datatypes.length (tensor_of (S4DKernel.log_dt k)) = H /\
    shape2 (tensor_of (S4DKernel.C k)) H Nh /\
    shape2 (tensor_of (S4DKernel.log_A_real k)) H Nh /\
    shape2 (tensor_of (S4DKernel.A_imag k)) H Nh /\
    tensor_of (S4DKernel.length k) = torch.arange L.

Definition conv1d (c : nn.Conv1d.t) (c_in c_out : nat) : Prop :=
  shape3 (nn.Conv1d.weight c) c_out c_in 1 /\
  Datatypes.length (nn.Conv1d.bias c) = c_out.

Definition layer (l : S4D.t) (H L : nat) : Prop :=
  S4D.transposed l = true /\
  S4D.length l = L /\
  kernel (S4D.kernel l) H L /\
  Datatypes.length (tensor_of (S4D.D l)) = H /\
  conv1d (S4D.output_linear l) H (2 * H).

Definition layer_norm (n : nn.LayerNorm.t) (H : nat) : Prop :=
  Datatypes.length (nn.LayerNorm.weight n) = H /\
  Datatypes.length (nn.LayerNorm.bias n) = H.

Definition linear (l : nn.Linear.t) (f_in f_out : nat) : Prop :=
  shape2 (nn.Linear.weight l) f_out f_in /\
  Datatypes.length (nn.Linear.bias l) = f_out.

Definition model (m : S4Model.t) (d_input L d_output d_model : nat) : Prop :=
  linear (S4Model.encoder m) d_input d_model /\
  Forall (fun l => layer l d_model L) (S4Model.s4_layers m) /\
  Forall (fun n => layer_norm n d_model) (S4Model.norms m) /\
  linear (S4Model.decoder m) d_model d_output.

End Constructed.

(* ===================================================================== *)
(** * Concrete inputs                                                     *)
(* ===================================================================== *)

Module Examples.

(** A generator whose uniform samples are all 1/2 and normal samples 1. *)
Definition gen : Generator :=
  {| uniform := fun _ => 1 / 2; normal := fun _ => 1 |}.

(** A kernel with one channel, one mode and two time steps. *)
Definition kernel : S4DKernel.t :=
  {| S4DKernel.C := Param [[(1, 0)]] None;
     S4DKernel.log_dt := Param [0] None;
     S4DKernel.log_A_real := Param [[0]] None;
     S4DKernel.A_imag := Param [[0]] None;
     S4DKernel.length := Buffer [0%nat; 1%nat] |}.

(** The same kernel after [log_A_real] has been driven to [-150]. *)
Definition underflowed_kernel : S4DKernel.t :=
  {| S4DKernel.C := Param [[(1, 0)]] None;
     S4DKernel.log_dt := Param [0] None;
     S4DKernel.log_A_real := Param [[-150]] None;
     S4DKernel.A_imag := Param [[0]] None;
     S4DKernel.length := Buffer [0%nat; 1%nat] |}.

(** A one-layer model on one channel, with its dropout modules in
    evaluation mode. *)
Definition layer : S4D.t :=
  {| S4D.transposed := true;
     S4D.D := Param [1] None;
     S4D.length := 2;
     S4D.kernel := kernel;
     S4D.activation := fun v => v;
     S4D.dropout := nn.Dropout1d.Build 0.5 false;
     S4D.output_linear := nn.Conv1d.Build [[[1]]; [[1]]] [0; 0] |}.

Definition model : S4Model.t :=
  {| S4Model.prenorm := false;
     S4Model.encoder := nn.Linear.Build [[1]] [0];
     S4Model.s4_layers := [layer];
     S4Model.norms := [nn.LayerNorm.Build [1] [0] 1e-5];
     S4Model.dropouts := [nn.Dropout1d.Build 0.5 false];
     S4Model.decoder := nn.Linear.Build [[1]] [0] |}.

End Examples.

(* ===================================================================== *)
(** * The diagonal state-space recurrence the kernel unrolls             *)
(* ===================================================================== *)

Module Recurrence.

(** The state of one mode after [t] steps of [x' = Abar * x] from [Bbar]. *)
Fixpoint state (Abar Bbar : complex) (t : nat) : complex :=
  match t with
  | O => Bbar
  | S t' => Cmul Abar (state Abar Bbar t')
  end.

(** The impulse response of channel [h]: [2 * Re (sum_n C[h,n] * x_t[n])],
    with [Abar = exp(dtA)] and [Bbar = (exp(dtA) - 1) / A]. *)
Definition impulse_response (log_dt : Tensor1) (C : list (list (R * R)))
  (log_A_real A_imag : Tensor2) (Nh h t : nat) : R :=
  2 * real
        (Csum_n
           (fun n =>
              let A := KernelSpec.A log_A_real A_imag h n in
              let Abar := Cexp (KernelSpec.dtA log_dt log_A_real A_imag h n) in
              Cmul (KernelSpec.Cin C h n)
                   (state Abar (Cdiv (Csub Abar C1) A) t))
           Nh).

End Recurrence.

(** A function of batched tensors that treats every batch element on its
    own. *)
Definition batchwise {A B : Type} (F : list A -> list B) : Prop :=
  exists f : A -> B, forall x, F x = map f x.

(* ===================================================================== *)
(** * Properties                                                          *)
(* ===================================================================== *)

(** ** Lists as tensors: entries of mapped and zipped lists *)

Section ListFacts.
Context {A B D : Type}.

Lemma nth_map_in (f : A -> B) (l : list A) (i : nat) (dA : A) (dB : B) :
  (i < Datatypes.length l)%nat -> nth i (map f l) dB = f (nth i l dA).
Proof.
  revert i; induction l as [|x l IH]; intros [|i] Hi; simpl in *;
    try lia; auto.
  apply IH; lia.
Qed.

Lemma nth_zip_with_in (f : A -> B -> D) (l : list A) (k : list B) (i : nat)
      (dA : A) (dB : B) (dD : D) :
  (i < Datatypes.length l)%nat -> (i < Datatypes.length k)%nat ->
  nth i (zip_with f l k) dD = f (nth i l dA) (nth i k dB).
Proof.
  revert k i; induction l as [|x l IH]; intros [|y k] [|i] Hl Hk;
    simpl in *; try lia; auto.
  apply IH; lia.
Qed.

Lemma shape2_row (X : list (list A)) (H N h : nat) :
  shape2 X H N -> (h < H)%nat -> Datatypes.length (nth h X []) = N.
Proof.
  intros [Hlen Hrows] Hh. rewrite Forall_forall in Hrows.
  apply Hrows. apply list_elem_of_In, nth_In. lia.
Qed.

End ListFacts.

Lemma nth_seq_in (a n i d : nat) : (i < n)%nat -> nth i (seq a n) d = (a + i)%nat.
Proof. intros Hi. now apply seq_nth. Qed.

(** ** Complex arithmetic *)

Lemma complex_eq (z w : complex) :
  real z = real w -> imag z = imag w -> z = w.
Proof. destruct z, w; simpl; intros -> ->; reflexivity. Qed.

Ltac Ceq := apply complex_eq; simpl; try ring.

Lemma Cadd_comm z w : Cadd z w = Cadd w z.
Proof. Ceq. Qed.
Lemma Cadd_assoc z w v : Cadd z (Cadd w v) = Cadd (Cadd z w) v.
Proof. Ceq. Qed.
Lemma Cadd_0_l z : Cadd C0 z = z.
Proof. Ceq. Qed.
Lemma Cadd_0_r z : Cadd z C0 = z.
Proof. Ceq. Qed.
Lemma Cmul_comm z w : Cmul z w = Cmul w z.
Proof. Ceq. Qed.
Lemma Cmul_assoc z w v : Cmul z (Cmul w v) = Cmul (Cmul z w) v.
Proof. Ceq. Qed.
Lemma Cmul_0_l z : Cmul C0 z = C0.
Proof. Ceq. Qed.
Lemma Cmul_0_r z : Cmul z C0 = C0.
Proof. Ceq. Qed.
Lemma Cmul_1_l z : Cmul C1 z = z.
Proof. Ceq. Qed.
Lemma Cmul_1_r z : Cmul z C1 = z.
Proof. Ceq. Qed.
Lemma Cmul_add_distr_l z w v : Cmul z (Cadd w v) = Cadd (Cmul z w) (Cmul z v).
Proof. Ceq. Qed.
Lemma Cmul_add_distr_r z w v : Cmul (Cadd z w) v = Cadd (Cmul z v) (Cmul w v).
Proof. Ceq. Qed.

(** ** Sums *)

Lemma Csum_app l k : Csum (l ++ k) = Cadd (Csum l) (Csum k).
Proof.
  induction l as [|x l IH]; simpl.
  - now rewrite Cadd_0_l.
  - unfold Csum in *; simpl. rewrite IH. apply Cadd_assoc.
Qed.

Lemma Csum_map_seq (f : nat -> complex) (n : nat) :
  Csum (map f (seq 0 n)) = Csum_n f n.
Proof.
  induction n as [|n IH]; [reflexivity|].
  rewrite seq_S, map_app, Csum_app, IH. simpl.
  unfold Csum; simpl. now rewrite Cadd_0_r.
Qed.

Lemma Csum_n_ext (f g : nat -> complex) (n : nat) :
  (forall i, (i < n)%nat -> f i = g i) -> Csum_n f n = Csum_n g n.
Proof.
  induction n as [|n IH]; intros Hfg; simpl; [reflexivity|].
  rewrite IH, Hfg; auto.
Qed.

Lemma list_tabulate {A : Type} (d : A) (l : list A) :
  l = map (fun i => nth i l d) (seq 0 (Datatypes.length l)).
Proof.
  apply nth_ext with (d := d) (d' := d).
  - now rewrite length_map, length_seq.
  - intros i Hi. rewrite (nth_map_in _ _ _ 0%nat) by now rewrite length_seq.
    now rewrite nth_seq_in.
Qed.

Lemma Csum_zip_with_n {A B : Type} (dA : A) (dB : B)
      (g : A -> B -> complex) (l : list A) (k : list B) (n : nat) :
  Datatypes.length l = n -> Datatypes.length k = n ->
  Csum (zip_with g l k) = Csum_n (fun i => g (nth i l dA) (nth i k dB)) n.
Proof.
  intros Hl Hk. rewrite <- Csum_map_seq. f_equal.
  rewrite (list_tabulate (g dA dB) (zip_with g l k)).
  rewrite length_zip_with, Hl, Hk, Nat.min_id.
  apply map_ext_in. intros i Hi. apply in_seq in Hi.
  apply nth_zip_with_in; lia.
Qed.

(** ** Shapes and entries of the pointwise tensor operations *)

Lemma shape2_length {A : Type} (X : list (list A)) (H N : nat) :
  shape2 X H N -> Datatypes.length X = H.
Proof. now intros [? _]. Qed.

Lemma shape2_rows {A : Type} (X : list (list A)) (H N : nat) :
  Datatypes.length X = H ->
  (forall h, (h < H)%nat -> Datatypes.length (nth h X []) = N) ->
  shape2 X H N.
Proof.
  intros Hlen Hrows. split; [assumption|].
  apply Forall_forall. intros row Hin.
  apply list_elem_of_In, (In_nth _ _ []) in Hin.
  destruct Hin as (h & Hh & <-). apply Hrows. lia.
Qed.

Section TensorFacts.
Context {A B D : Type}.

Lemma map2_row (f : A -> B) (X : list (list A)) (h : nat) :
  (h < Datatypes.length X)%nat ->
  nth h (torch.map2 f X) [] = map f (nth h X []).
Proof. intros Hh. unfold torch.map2. now apply nth_map_in. Qed.

Lemma shape2_map2 (f : A -> B) (X : list (list A)) (H N : nat) :
  shape2 X H N -> shape2 (torch.map2 f X) H N.
Proof.
  intros HX. pose proof (shape2_length _ _ _ HX) as Hlen.
  apply shape2_rows.
  - unfold torch.map2. now rewrite length_map.
  - intros h Hh. rewrite map2_row by lia.
    rewrite length_map. eapply shape2_row; eauto.
Qed.

Lemma zip2_row (f : A -> B -> D) (X : list (list A)) (Y : list (list B))
      (h : nat) :
  (h < Datatypes.length X)%nat -> (h < Datatypes.length Y)%nat ->
  nth h (torch.zip2 f X Y) [] = zip_with f (nth h X []) (nth h Y []).
Proof. intros HX HY. unfold torch.zip2. now apply nth_zip_with_in. Qed.

Lemma shape2_zip2 (f : A -> B -> D) (X : list (list A)) (Y : list (list B))
      (H N : nat) :
  shape2 X H N -> shape2 Y H N -> shape2 (torch.zip2 f X Y) H N.
Proof.
  intros HX HY.
  pose proof (shape2_length _ _ _ HX) as HlX.
  pose proof (shape2_length _ _ _ HY) as HlY.
  apply shape2_rows.
  - unfold torch.zip2. rewrite length_zip_with. lia.
  - intros h Hh. rewrite zip2_row by lia.
    rewrite length_zip_with, (shape2_row X H N), (shape2_row Y H N) by auto.
    lia.
Qed.

Lemma zip2_entry (f : A -> B -> D) (X : list (list A)) (Y : list (list B))
      (H N h n : nat) (dA : A) (dB : B) (dD : D) :
  shape2 X H N -> shape2 Y H N -> (h < H)%nat -> (n < N)%nat ->
  nth n (nth h (torch.zip2 f X Y) []) dD
  = f (nth n (nth h X []) dA) (nth n (nth h Y []) dB).
Proof.
  intros HX HY Hh Hn.
  rewrite zip2_row
    by (erewrite shape2_length by eassumption; lia).
  apply nth_zip_with_in; erewrite shape2_row by eassumption; lia.
Qed.

Lemma zip_rows_row (f : A -> B -> D) (X : list (list A)) (d : list B)
      (h : nat) (dB : B) :
  (h < Datatypes.length X)%nat -> (h < Datatypes.length d)%nat ->
  nth h (torch.zip_rows f X d) []
  = map (fun a => f a (nth h d dB)) (nth h X []).
Proof.
  intros HX Hd. unfold torch.zip_rows.
  now rewrite (nth_zip_with_in _ _ _ _ [] dB).
Qed.

Lemma shape2_zip_rows (f : A -> B -> D) (X : list (list A)) (d : list B)
      (H N : nat) :
  shape2 X H N -> Datatypes.length d = H ->
  shape2 (torch.zip_rows f X d) H N.
Proof.
  intros HX Hd. pose proof (shape2_length _ _ _ HX) as HlX.
  apply shape2_rows.
  - unfold torch.zip_rows. rewrite length_zip_with. lia.
  - intros h Hh. destruct d as [|d0 d]; [simpl in *; lia|].
    rewrite (zip_rows_row _ _ _ _ d0) by lia.
    rewrite length_map. eapply shape2_row; eauto.
Qed.

End TensorFacts.

Lemma map2_entry {A B : Type} (f : A -> B) (X : list (list A))
      (H N h n : nat) (dA : A) (dB : B) :
  shape2 X H N -> (h < H)%nat -> (n < N)%nat ->
  nth n (nth h (torch.map2 f X) []) dB = f (nth n (nth h X []) dA).
Proof.
  intros HX Hh Hn.
  rewrite map2_row by (erewrite shape2_length by eassumption; lia).
  apply nth_map_in. erewrite shape2_row by eassumption. lia.
Qed.

Lemma zip_rows_entry {A B D : Type} (f : A -> B -> D) (X : list (list A))
      (d : list B) (H N h n : nat) (dA : A) (dB : B) (dD : D) :
  shape2 X H N -> Datatypes.length d = H -> (h < H)%nat -> (n < N)%nat ->
  nth n (nth h (torch.zip_rows f X d) []) dD
  = f (nth n (nth h X []) dA) (nth h d dB).
Proof.
  intros HX Hd Hh Hn.
  rewrite (zip_rows_row _ _ _ _ dB)
    by (try erewrite shape2_length by eassumption; lia).
  apply (nth_map_in (fun a => f a (nth h d dB))).
  erewrite shape2_row by eassumption. lia.
Qed.

Lemma einsum_shape (L : nat) (C : CTensor2) (E : CTensor3) (H : nat) :
  Datatypes.length C = H -> Datatypes.length E = H ->
  shape2 (torch.einsum_hn_hnl_hl L C E) H L.
Proof.
  intros HC HE. apply shape2_rows.
  - unfold torch.einsum_hn_hnl_hl. rewrite length_zip_with. lia.
  - intros h Hh. unfold torch.einsum_hn_hnl_hl.
    rewrite (nth_zip_with_in _ _ _ _ [] []) by lia.
    now rewrite length_map, length_seq.
Qed.

Lemma einsum_entry (L : nat) (C : CTensor2) (E : CTensor3)
      (H Nh h t : nat) :
  shape2 C H Nh -> shape2 E H Nh -> (h < H)%nat -> (t < L)%nat ->
  nth t (nth h (torch.einsum_hn_hnl_hl L C E) []) C0
  = Csum_n (fun n => Cmul (Cat2 C h n) (nth t (nth n (nth h E []) []) C0)) Nh.
Proof.
  intros HC HE Hh Ht. unfold torch.einsum_hn_hnl_hl.
  rewrite (nth_zip_with_in _ _ _ _ [] [])
    by (erewrite shape2_length by eassumption; lia).
  rewrite (nth_map_in _ _ _ 0%nat) by (rewrite length_seq; lia).
  rewrite nth_seq_in by lia. simpl.
  apply (Csum_zip_with_n C0 []
           (fun (c : complex) (e_hn : list complex) => Cmul c (nth t e_hn C0)));
    eapply shape2_row; eauto.
Qed.

(** ** C5: the sign of the poles' real part *)

Lemma ln_2_le_1 : ln 2 <= 1.
Proof.
  rewrite <- (ln_exp 1). left. apply ln_increasing; [lra|].
  pose proof (exp_ineq1 1). lra.
Qed.

Lemma half_min_subnormal_pos : 0 < float32.half_min_subnormal.
Proof.
  unfold float32.half_min_subnormal. apply Rinv_0_lt_compat.
  apply pow_lt. lra.
Qed.

Lemma ln_half_min_subnormal :
  ln float32.half_min_subnormal = float32.underflow_point.
Proof.
  unfold float32.half_min_subnormal, float32.underflow_point.
  rewrite ln_Rinv by (apply pow_lt; lra).
  rewrite ln_pow by lra.
  replace (INR 150) with 150 by (simpl; lra). reflexivity.
Qed.

Lemma exp_underflow_point :
  exp float32.underflow_point = float32.half_min_subnormal.
Proof.
  rewrite <- ln_half_min_subnormal. apply exp_ln, half_min_subnormal_pos.
Qed.

Lemma float32_exp_above (x : R) :
  float32.underflow_point < x -> float32.exp x = exp x.
Proof.
  intros Hx. unfold float32.exp.
  destruct (Rle_dec (exp x) float32.half_min_subnormal) as [Hle|Hgt];
    [|reflexivity].
  apply exp_increasing in Hx. rewrite exp_underflow_point in Hx. lra.
Qed.

Lemma float32_exp_underflow (x : R) :
  x <= float32.underflow_point -> float32.exp x = 0.
Proof.
  intros Hx. unfold float32.exp.
  destruct (Rle_dec (exp x) float32.half_min_subnormal) as [Hle|Hgt];
    [reflexivity|].
  exfalso. apply Hgt. rewrite <- exp_underflow_point.
  destruct Hx as [Hx|Hx]; [left; now apply exp_increasing | right; now rewrite Hx].
Qed.

Lemma float32_exp_nonneg (x : R) : 0 <= float32.exp x.
Proof.
  destruct (Rlt_le_dec float32.underflow_point x) as [Hx|Hx].
  - rewrite float32_exp_above by assumption. left. apply exp_pos.
  - rewrite float32_exp_underflow by assumption. lra.
Qed.

Lemma float32_exp_pos_iff (x : R) :
  0 < float32.exp x <-> float32.underflow_point < x.
Proof.
  split.
  - intros Hpos. destruct (Rlt_le_dec float32.underflow_point x) as [Hx|Hx];
      [assumption|].
    rewrite float32_exp_underflow in Hpos by assumption. lra.
  - intros Hx. rewrite float32_exp_above by assumption. apply exp_pos.
Qed.

Lemma poles_float32_entry (self : S4DKernel.t) (H Nh h n : nat) :
  shape2 (tensor_of (S4DKernel.log_A_real self)) H Nh ->
  shape2 (tensor_of (S4DKernel.A_imag self)) H Nh ->
  (h < H)%nat -> (n < Nh)%nat ->
  Cat2 (S4DKernel.poles_float32 self) h n
  = Cplx (- float32.exp (at2 (tensor_of (S4DKernel.log_A_real self)) h n))
         (at2 (tensor_of (S4DKernel.A_imag self)) h n).
Proof.
  intros Hre Him Hh Hn. unfold Cat2, S4DKernel.poles_float32, at2.
  rewrite (zip2_entry _ _ _ H Nh h n 0 0) by assumption.
  Ceq.
Qed.

(** C5 (amended). With float32 [torch.exp], the pole matrix [A] computed in
    [S4DKernel.forward] has the shape [(H, N/2)] of [log_A_real] and
    [A_imag]; entry [(h, n)] has real part [-exp(log_A_real[h, n])] in
    float32 and imaginary part [A_imag[h, n]].  The real part is never
    positive; it is negative exactly when [log_A_real[h, n]] lies above the
    underflow point [-150 * ln 2] of the float32 exponential, where it is
    the exact [-exp(log_A_real[h, n])] and the entry is that of the exact
    pole matrix [S4DKernel.poles], and it is zero at and below that
    point. *)
Theorem poles_float32_sign (self : S4DKernel.t) (H Nh : nat) :
  shape2 (tensor_of (S4DKernel.log_A_real self)) H Nh ->
  shape2 (tensor_of (S4DKernel.A_imag self)) H Nh ->
  shape2 (S4DKernel.poles_float32 self) H Nh /\
  forall h n, (h < H)%nat -> (n < Nh)%nat ->
    let lar := at2 (tensor_of (S4DKernel.log_A_real self)) h n in
    let a := Cat2 (S4DKernel.poles_float32 self) h n in
    real a = - float32.exp lar /\
    imag a = at2 (tensor_of (S4DKernel.A_imag self)) h n /\
    real a <= 0 /\
    (real a < 0 <-> float32.underflow_point < lar) /\
    (float32.underflow_point < lar ->
       real a = - exp lar /\ a = Cat2 (S4DKernel.poles self) h n) /\
    (lar <= float32.underflow_point -> real a = 0).
Proof.
  intros Hre Him. split.
  - now apply shape2_zip2.
  - intros h n Hh Hn lar a. subst a.
    rewrite (poles_float32_entry self H Nh h n) by assumption.
    fold lar. cbn [real imag].
    pose proof (float32_exp_nonneg lar) as Hnn.
    pose proof (float32_exp_pos_iff lar) as [Hpos1 Hpos2].
    split; [reflexivity|]. split; [reflexivity|]. split; [lra|].
    split; [split|split].
    + intros Hneg. apply Hpos1. lra.
    + intros Hx. specialize (Hpos2 Hx). lra.
    + intros Hx. split; [now rewrite float32_exp_above|].
      unfold Cat2, S4DKernel.poles.
      rewrite (zip2_entry _ _ _ H Nh h n 0 0) by assumption.
      fold (at2 (tensor_of (S4DKernel.log_A_real self)) h n). fold lar.
      rewrite float32_exp_above by assumption. unfold at2. Ceq.
    + intros Hx. rewrite float32_exp_underflow by assumption. lra.
Qed.

Lemma poles_float32_sign_witness :
  shape2 (S4DKernel.poles_float32 Examples.kernel) 1 1 /\
  real (Cat2 (S4DKernel.poles_float32 Examples.kernel) 0 0) < 0.
Proof.
  assert (Hs : shape2 [[0]] 1 1) by (split; [reflexivity | repeat constructor]).
  destruct (poles_float32_sign Examples.kernel 1 1 Hs Hs) as [Hshape Hent].
  split; [exact Hshape|].
  destruct (Hent 0%nat 0%nat ltac:(lia) ltac:(lia)) as (_ & _ & _ & Hiff & _).
  apply Hiff. unfold float32.underflow_point, at2. cbn [nth tensor_of
    Examples.kernel S4DKernel.log_A_real].
  pose proof (ln_increasing 1 2 ltac:(lra) ltac:(lra)) as Hln.
  rewrite ln_1 in Hln. lra.
Defined.

(** C5, as worded, fails: a stored [log_A_real] of [-150] is a real value,
    the float32 exponential of it is zero, and the pole's real part is not
    negative. *)
Lemma poles_float32_sign_counterexample :
  shape2 (tensor_of (S4DKernel.log_A_real Examples.underflowed_kernel)) 1 1 /\
  real (Cat2 (S4DKernel.poles_float32 Examples.underflowed_kernel) 0 0) = 0 /\
  ~ Forall (Forall (fun a => real a < 0))
      (S4DKernel.poles_float32 Examples.underflowed_kernel).
Proof.
  assert (Hz : float32.exp (-150) = 0).
  { apply float32_exp_underflow. unfold float32.underflow_point.
    pose proof ln_2_le_1. lra. }
  split; [split; [reflexivity | repeat constructor]|].
  unfold S4DKernel.poles_float32, torch.zip2, Cat2. simpl.
  rewrite Hz. split; [lra|].
  intros Hall. inversion Hall as [|? ? Hrow _]; subst.
  inversion Hrow as [|? ? Hneg _]; subst. simpl in Hneg. lra.
Qed.

(** ** C1: the kernel, entry by entry *)

Lemma poles_shape (self : S4DKernel.t) (H Nh : nat) :
  shape2 (tensor_of (S4DKernel.log_A_real self)) H Nh ->
  shape2 (tensor_of (S4DKernel.A_imag self)) H Nh ->
  shape2 (S4DKernel.poles self) H Nh.
Proof. intros. now apply shape2_zip2. Qed.

Lemma poles_entry (self : S4DKernel.t) (H Nh h n : nat) :
  shape2 (tensor_of (S4DKernel.log_A_real self)) H Nh ->
  shape2 (tensor_of (S4DKernel.A_imag self)) H Nh ->
  (h < H)%nat -> (n < Nh)%nat ->
  Cat2 (S4DKernel.poles self) h n
  = KernelSpec.A (tensor_of (S4DKernel.log_A_real self))
                 (tensor_of (S4DKernel.A_imag self)) h n.
Proof.
  intros Hre Him Hh Hn. unfold Cat2, S4DKernel.poles, KernelSpec.A, at2.
  rewrite (zip2_entry _ _ _ H Nh h n 0 0) by assumption.
  Ceq.
Qed.

Lemma kernel_forward_shape_entries (self : S4DKernel.t) (H Nh L : nat) :
  Datatypes.length (tensor_of (S4DKernel.log_dt self)) = H ->
  shape2 (tensor_of (S4DKernel.C self)) H Nh ->
  shape2 (tensor_of (S4DKernel.log_A_real self)) H Nh ->
  shape2 (tensor_of (S4DKernel.A_imag self)) H Nh ->
  tensor_of (S4DKernel.length self) = torch.arange L ->
  shape2 (S4DKernel.forward self) H L /\
  forall h t, (h < H)%nat -> (t < L)%nat ->
    at2 (S4DKernel.forward self) h t
    = KernelSpec.kernel (tensor_of (S4DKernel.log_dt self))
                        (tensor_of (S4DKernel.C self))
                        (tensor_of (S4DKernel.log_A_real self))
                        (tensor_of (S4DKernel.A_imag self)) Nh h t.
Proof.
  intros Hdt HC Hre Him Hlen.
  pose proof (poles_shape self H Nh Hre Him) as HA.
  unfold S4DKernel.forward.
  replace (Datatypes.length (tensor_of (S4DKernel.length self))) with L
    by (rewrite Hlen; unfold torch.arange; now rewrite length_seq).
  set (dt := map exp _).
  set (A := S4DKernel.poles self) in *.
  set (dtA := torch.zip_rows _ A dt).
  set (Cc := torch.view_as_complex _).
  set (Cs := torch.zip2 Cdiv _ A).
  set (E := torch.map2 (map Cexp) _).
  assert (Hdtl : Datatypes.length dt = H)
    by (unfold dt; now rewrite length_map).
  assert (HdtA : shape2 dtA H Nh) by now apply shape2_zip_rows.
  assert (HCc : shape2 Cc H Nh) by (unfold Cc; now apply shape2_map2).
  assert (HCs : shape2 Cs H Nh)
    by (unfold Cs; repeat apply shape2_zip2; assumption).
  assert (HE : shape2 E H Nh) by (unfold E; now repeat apply shape2_map2).
  assert (Hein : shape2 (torch.einsum_hn_hnl_hl L Cs E) H L)
    by (apply einsum_shape; eapply shape2_length; eauto).
  split.
  - now repeat apply shape2_map2.
  - intros h t Hh Ht. unfold at2, KernelSpec.kernel.
    rewrite (map2_entry _ _ H L h t 0) by (try apply shape2_map2; auto).
    rewrite (map2_entry _ _ H L h t C0) by auto.
    f_equal. f_equal.
    rewrite (einsum_entry L Cs E H Nh) by auto.
    apply Csum_n_ext. intros n Hn.
    assert (HdtAe : Cat2 dtA h n
                    = KernelSpec.dtA (tensor_of (S4DKernel.log_dt self))
                        (tensor_of (S4DKernel.log_A_real self))
                        (tensor_of (S4DKernel.A_imag self)) h n).
    { unfold Cat2, dtA, KernelSpec.dtA, KernelSpec.dt.
      rewrite (zip_rows_entry _ _ _ H Nh h n C0 0) by auto.
      fold (Cat2 A h n). unfold A.
      rewrite (poles_entry self H Nh) by auto.
      unfold dt. now rewrite (nth_map_in _ _ _ 0) by lia. }
    f_equal.
    + unfold Cat2, Cs, KernelSpec.C'.
      rewrite (zip2_entry _ _ _ H Nh h n C0 C0)
        by (try apply shape2_zip2; auto).
      rewrite (zip2_entry _ _ _ H Nh h n C0 C0) by auto.
      fold (Cat2 dtA h n) (Cat2 A h n). rewrite HdtAe. unfold A.
      rewrite (poles_entry self H Nh) by auto.
      f_equal. f_equal. unfold Cc, torch.view_as_complex, KernelSpec.Cin.
      now rewrite (map2_entry _ _ H Nh h n (0, 0)) by auto.
    + unfold E.
      rewrite (map2_entry _ _ H Nh h n []) by (try apply shape2_map2; auto).
      rewrite (nth_map_in _ _ _ C0)
        by (rewrite (map2_entry _ _ H Nh h n C0) by auto;
            rewrite length_map, Hlen; unfold torch.arange;
            rewrite length_seq; lia).
      f_equal.
      rewrite (map2_entry _ _ H Nh h n C0) by auto.
      rewrite (nth_map_in _ _ _ 0%nat)
        by (rewrite Hlen; unfold torch.arange; rewrite length_seq; lia).
      fold (Cat2 dtA h n). rewrite HdtAe, Hlen. unfold torch.arange.
      now rewrite nth_seq_in by lia.
Qed.

(** C1. On parameters of the constructed shapes ([log_dt] of length [H];
    [C], [log_A_real], [A_imag] of shape [(H, N/2)]; the time buffer
    [arange(L)]), [S4DKernel.forward] returns a real tensor of shape
    [(H, L)] whose entry [(h, t)] is
    [2 * Re (sum_n C'[h,n] * exp (dtA[h,n] * t))]. *)
Theorem kernel_forward_closed_form (self : S4DKernel.t) (H Nh L : nat) :
  Datatypes.length (tensor_of (S4DKernel.log_dt self)) = H ->
  shape2 (tensor_of (S4DKernel.C self)) H Nh ->
  shape2 (tensor_of (S4DKernel.log_A_real self)) H Nh ->
  shape2 (tensor_of (S4DKernel.A_imag self)) H Nh ->
  tensor_of (S4DKernel.length self) = torch.arange L ->
  shape2 (S4DKernel.forward self) H L /\
  forall h t, (h < H)%nat -> (t < L)%nat ->
    at2 (S4DKernel.forward self) h t
    = KernelSpec.kernel (tensor_of (S4DKernel.log_dt self))
                        (tensor_of (S4DKernel.C self))
                        (tensor_of (S4DKernel.log_A_real self))
                        (tensor_of (S4DKernel.A_imag self)) Nh h t.
Proof. apply kernel_forward_shape_entries. Qed.

Lemma kernel_forward_closed_form_witness :
  shape2 (S4DKernel.forward Examples.kernel) 1 2 /\
  at2 (S4DKernel.forward Examples.kernel) 0 1
  = KernelSpec.kernel [0] [[(1, 0)]] [[0]] [[0]] 1 0 1.
Proof.
  destruct (kernel_forward_closed_form Examples.kernel 1 1 2)
    as [Hshape Hentry].
  - reflexivity.
  - split; [reflexivity|]. repeat constructor.
  - split; [reflexivity|]. repeat constructor.
  - split; [reflexivity|]. repeat constructor.
  - reflexivity.
  - split; [exact Hshape|]. apply Hentry; lia.
Defined.

(** ** Running a construction *)

Lemma bind_ok {A B : Type} (m : M A) (k : A -> M B) (g g' : Generator) (a : A) :
  m g = Ok (a, g') -> bind m k g = k a g'.
Proof. unfold bind. now intros ->. Qed.

Lemma bind_inv {A B : Type} (m : M A) (k : A -> M B) (g g'' : Generator)
      (b : B) :
  bind m k g = Ok (b, g'') ->
  exists a g', m g = Ok (a, g') /\ k a g' = Ok (b, g'').
Proof.
  unfold bind. destruct (m g) as [[a g']|e]; [|discriminate].
  intros Hk. now exists a, g'.
Qed.

Lemma math_log_ok (x : R) (g : Generator) :
  0 < x -> math.log x g = Ok (ln x, g).
Proof. intros Hx. unfold math.log. now destruct (Rlt_dec 0 x). Qed.

Lemma math_log_inv (x y : R) (g g' : Generator) :
  math.log x g = Ok (y, g') -> 0 < x /\ y = ln x /\ g' = g.
Proof.
  unfold math.log. destruct (Rlt_dec 0 x); [|discriminate].
  unfold ret. intros [= <- <-]. auto.
Qed.

Lemma tensor_of_register {T : Type} (x : T) (lr : option R) :
  tensor_of (S4DKernel.register x lr) = x.
Proof.
  unfold S4DKernel.register. destruct lr as [v|]; [|reflexivity].
  now destruct (Req_dec_T v 0).
Qed.

Lemma kernel_init_ok (d_model length N : nat) (dt_min dt_max : R)
      (lr : option R) (g : Generator) :
  0 < dt_min -> 0 < dt_max ->
  exists g',
    S4DKernel.__init__ d_model length N dt_min dt_max lr g
    = Ok (kernel_built d_model length N dt_min dt_max lr g, g').
Proof.
  intros Hmin Hmax. unfold S4DKernel.__init__.
  unfold bind at 1. unfold torch.rand at 1.
  erewrite bind_ok by now apply math_log_ok.
  erewrite bind_ok by now apply math_log_ok.
  erewrite bind_ok by now apply math_log_ok.
  unfold bind, torch.randn_cfloat, ret. eexists. reflexivity.
Qed.

Lemma kernel_init_inv (d_model length N : nat) (dt_min dt_max : R)
      (lr : option R) (g g' : Generator) (k : S4DKernel.t) :
  S4DKernel.__init__ d_model length N dt_min dt_max lr g = Ok (k, g') ->
  0 < dt_min /\ 0 < dt_max /\
  k = kernel_built d_model length N dt_min dt_max lr g.
Proof.
  intros Hinit.
  assert (Hpos : 0 < dt_min /\ 0 < dt_max).
  { unfold S4DKernel.__init__ in Hinit.
    apply bind_inv in Hinit as (u & g1 & _ & Hinit).
    apply bind_inv in Hinit as (lmax & g2 & Hmax & Hinit).
    apply bind_inv in Hinit as (lmin & g3 & Hmin & _).
    apply math_log_inv in Hmax, Hmin. tauto. }
  destruct Hpos as [Hmin Hmax]. repeat split; try assumption.
  destruct (kernel_init_ok d_model length N dt_min dt_max lr g Hmin Hmax)
    as [g'' Hok].
  rewrite Hok in Hinit. now inversion Hinit.
Qed.

(** ** C3: how the kernel tensors are registered *)

Lemma register_frozen_or_overridden {T : Type} (x : T) (lr : option R) :
  RegistrationSpec.frozen_or_overridden lr (S4DKernel.register x lr).
Proof.
  unfold RegistrationSpec.frozen_or_overridden, S4DKernel.register.
  destruct lr as [v|].
  - destruct (Req_dec_T v 0) as [->|Hv].
    + left. auto.
    + right. split; [congruence|]. split; [reflexivity|].
      eexists. split; [reflexivity|]. split.
      * rewrite lookup_insert_ne by done. apply lookup_singleton_eq.
      * apply lookup_insert_eq.
  - right. split; [congruence|]. split; [reflexivity|].
    eexists. split; [reflexivity|]. split.
    + apply lookup_singleton_eq.
    + now apply lookup_singleton_ne.
Qed.

Lemma kernel_built_registration (d_model length N : nat) (dt_min dt_max : R)
      (lr : option R) (g : Generator) :
  let k := kernel_built d_model length N dt_min dt_max lr g in
  RegistrationSpec.frozen_or_overridden lr (S4DKernel.log_dt k) /\
  RegistrationSpec.frozen_or_overridden lr (S4DKernel.log_A_real k) /\
  RegistrationSpec.frozen_or_overridden lr (S4DKernel.A_imag k) /\
  RegistrationSpec.plain_parameter (S4DKernel.C k).
Proof.
  unfold kernel_built; simpl.
  repeat split; try apply register_frozen_or_overridden.
Qed.

(** C3, as the code has it.  When [S4DKernel.__init__] returns, [log_dt],
    [log_A_real] and [A_imag] are each a frozen buffer if the learning rate
    is exactly 0 and otherwise a trainable parameter whose [_optim] record
    has [weight_decay] 0.0 and the learning rate when one was given; [C]
    is always a plain trainable parameter with no [_optim] record. *)
Theorem kernel_registration (d_model length N : nat) (dt_min dt_max : R)
        (lr : option R) (g g' : Generator) (k : S4DKernel.t) :
  S4DKernel.__init__ d_model length N dt_min dt_max lr g = Ok (k, g') ->
  RegistrationSpec.frozen_or_overridden lr (S4DKernel.log_dt k) /\
  RegistrationSpec.frozen_or_overridden lr (S4DKernel.log_A_real k) /\
  RegistrationSpec.frozen_or_overridden lr (S4DKernel.A_imag k) /\
  RegistrationSpec.plain_parameter (S4DKernel.C k).
Proof.
  intros Hinit. apply kernel_init_inv in Hinit as (_ & _ & ->).
  apply kernel_built_registration.
Qed.

Lemma kernel_registration_witness :
  exists k g',
    S4DKernel.__init__ 1 2 2 0.001 0.1 (Some 0) Examples.gen = Ok (k, g') /\
    RegistrationSpec.frozen_or_overridden (Some 0) (S4DKernel.log_dt k) /\
    RegistrationSpec.plain_parameter (S4DKernel.C k).
Proof.
  destruct (kernel_init_ok 1 2 2 0.001 0.1 (Some 0) Examples.gen) as [g' H];
    [lra | lra |].
  eexists. exists g'. split; [exact H|].
  pose proof (kernel_registration 1 2 2 0.001 0.1 (Some 0) Examples.gen g' _ H)
    as (H1 & _ & _ & H4).
  split; assumption.
Defined.

(** C3 as stated fails for [C]: with the learning rate frozen at 0 the
    coupling [C] is still a trainable parameter, and it never carries an
    override record. *)
Lemma kernel_registration_C_counterexample :
  exists k g',
    S4DKernel.__init__ 1 2 2 0.001 0.1 (Some 0) Examples.gen = Ok (k, g') /\
    ~ RegistrationSpec.frozen_or_overridden (Some 0) (S4DKernel.C k).
Proof.
  destruct (kernel_init_ok 1 2 2 0.001 0.1 (Some 0) Examples.gen) as [g' H];
    [lra | lra |].
  eexists. exists g'. split; [exact H|].
  unfold RegistrationSpec.frozen_or_overridden, kernel_built; simpl.
  intros [[_ Hb] | [Hne _]]; [discriminate | congruence].
Qed.

(** ** C9: the initial values of the kernel parameters *)

Lemma log_dt_in_range (dt_min dt_max u : R) :
  0 < dt_min -> dt_min <= dt_max -> 0 <= u < 1 ->
  ln dt_min <= u * (ln dt_max - ln dt_min) + ln dt_min <= ln dt_max.
Proof.
  intros Hmin Hle Hu.
  assert (Hln : ln dt_min <= ln dt_max).
  { destruct Hle as [Hlt | ->]; [left; now apply ln_increasing | right; auto]. }
  split; nra.
Qed.

Lemma log_dt_entry (dt_min dt_max : R) (g : Generator) (d_model h : nat) :
  (h < d_model)%nat ->
  nth h (map (fun x => x * (ln dt_max - ln dt_min) + ln dt_min)
             (map (uniform g) (seq 0 d_model))) 0
  = ln dt_min + uniform g h * (ln dt_max - ln dt_min).
Proof.
  intros Hh. rewrite map_map.
  rewrite (nth_map_in (fun x => uniform g x * (ln dt_max - ln dt_min) + ln dt_min)
             _ _ 0%nat) by (rewrite length_seq; lia).
  rewrite nth_seq_in by lia. simpl. ring.
Qed.

(** C9 (amended). With uniform samples in [[0, 1)] and positive [dt_min]
    and [dt_max], [S4DKernel.__init__] returns a kernel whose [log_dt] has
    [H] entries, entry [h] being the affine image
    [log dt_min + u_h * (log dt_max - log dt_min)] of the [h]-th uniform
    sample [u_h] of [torch.rand(H)]; when [dt_min <= dt_max] every entry
    lies in [[log dt_min, log dt_max]], and when [dt_min < dt_max] every
    point of [[log dt_min, log dt_max)] is the entry drawn from some
    sample, while for [dt_max < dt_min] the entries lie in
    [(log dt_max, log dt_min]].  [log_A_real] has shape [(H, N/2)] with
    every entry [log 0.5], and [A_imag] has [H] rows, each equal to
    [pi * [0, 1, ..., N/2 - 1]]. *)
Theorem kernel_init_values (d_model length N : nat) (dt_min dt_max : R)
        (lr : option R) (g : Generator) :
  Generator_ok g -> 0 < dt_min -> 0 < dt_max ->
  (exists k g',
    S4DKernel.__init__ d_model length N dt_min dt_max lr g = Ok (k, g') /\
    Datatypes.length (tensor_of (S4DKernel.log_dt k)) = d_model /\
    (forall h, (h < d_model)%nat ->
       nth h (tensor_of (S4DKernel.log_dt k)) 0
       = ln dt_min + uniform g h * (ln dt_max - ln dt_min)) /\
    (dt_min <= dt_max ->
       Forall (fun x => ln dt_min <= x <= ln dt_max)
              (tensor_of (S4DKernel.log_dt k))) /\
    (dt_max < dt_min ->
       Forall (fun x => ln dt_max < x <= ln dt_min)
              (tensor_of (S4DKernel.log_dt k))) /\
    shape2 (tensor_of (S4DKernel.log_A_real k)) d_model (N / 2) /\
    Forall (Forall (fun x => x = ln 0.5)) (tensor_of (S4DKernel.log_A_real k)) /\
    Datatypes.length (tensor_of (S4DKernel.A_imag k)) = d_model /\
    forall h, (h < d_model)%nat ->
      nth h (tensor_of (S4DKernel.A_imag k)) []
      = map (fun n => PI * INR n) (seq 0 (N / 2))) /\
  (dt_min < dt_max ->
   forall h y, (h < d_model)%nat -> ln dt_min <= y < ln dt_max ->
     exists g2 k2 g2',
       Generator_ok g2 /\
       S4DKernel.__init__ d_model length N dt_min dt_max lr g2 = Ok (k2, g2') /\
       nth h (tensor_of (S4DKernel.log_dt k2)) 0 = y).
Proof.
  intros Hg Hmin Hmax. split.
  - destruct (kernel_init_ok d_model length N dt_min dt_max lr g) as [g' Hok];
      [lra | lra |].
    eexists. exists g'. split; [exact Hok|].
    unfold kernel_built; simpl. rewrite !tensor_of_register.
    split; [now rewrite !length_map, length_seq|].
    split; [intros h Hh; now apply log_dt_entry|].
    split.
    { intros Hle. rewrite map_map. apply Forall_forall. intros x Hx.
      apply list_elem_of_In, in_map_iff in Hx as (i & <- & _).
      apply log_dt_in_range; auto. }
    split.
    { intros Hlt. rewrite map_map. apply Forall_forall. intros x Hx.
      apply list_elem_of_In, in_map_iff in Hx as (i & <- & _).
      pose proof (ln_increasing dt_max dt_min Hmax Hlt) as Hln.
      pose proof (Hg i) as Hu. split; nra. }
    split.
    { unfold torch.ones. repeat apply shape2_map2.
      split; [apply repeat_length|].
      apply Forall_forall. intros row Hrow.
      apply list_elem_of_In, repeat_spec in Hrow. subst.
      apply repeat_length. }
    split.
    { unfold torch.ones, torch.map2.
      rewrite !map_repeat.
      apply Forall_forall. intros row Hrow.
      apply list_elem_of_In, repeat_spec in Hrow. subst.
      apply Forall_forall. intros x Hx.
      apply list_elem_of_In, repeat_spec in Hx. subst.
      now rewrite Rmult_1_r. }
    unfold torch.repeat_rows, torch.map2, torch.arange, math.pi.
    rewrite map_repeat. split; [apply repeat_length|].
    intros h Hh. apply nth_repeat_lt. exact Hh.
  - intros Hlt h y Hh Hy.
    pose proof (ln_increasing dt_min dt_max Hmin Hlt) as Hln.
    set (u := (y - ln dt_min) / (ln dt_max - ln dt_min)).
    assert (Hu : u * (ln dt_max - ln dt_min) = y - ln dt_min).
    { unfold u. field. lra. }
    set (g2 := {| uniform := fun _ : nat => u; normal := fun _ : nat => 0 |}).
    destruct (kernel_init_ok d_model length N dt_min dt_max lr g2) as [g2' Hok];
      [lra | lra |].
    exists g2. eexists. exists g2'. split; [|split; [exact Hok|]].
    + intros i. simpl. split; nra.
    + unfold kernel_built; cbn [S4DKernel.log_dt].
      rewrite tensor_of_register, log_dt_entry by assumption.
      subst g2. cbn [uniform]. lra.
Qed.

Lemma kernel_init_values_witness :
  exists k g',
    S4DKernel.__init__ 2 4 4 0.001 0.1 None Examples.gen = Ok (k, g') /\
    nth 1 (tensor_of (S4DKernel.log_dt k)) 0
    = ln 0.001 + 1 / 2 * (ln 0.1 - ln 0.001) /\
    Forall (fun x => ln 0.001 <= x <= ln 0.1) (tensor_of (S4DKernel.log_dt k)) /\
    nth 1 (tensor_of (S4DKernel.A_imag k)) [] = [PI * 0; PI * 1].
Proof.
  destruct (kernel_init_values 2 4 4 0.001 0.1 None Examples.gen)
    as [(k & g' & Hinit & _ & Hval & Hdt & _ & _ & _ & _ & Himag) _].
  - intros i. simpl. lra.
  - lra.
  - lra.
  - exists k, g'. split; [exact Hinit|].
    split; [exact (Hval 1%nat ltac:(lia))|].
    split; [apply Hdt; lra|].
    rewrite (Himag 1%nat) by lia. reflexivity.
Defined.

(** C9, as worded, fails when [dt_max < dt_min]: construction succeeds and
    [log_dt] lies outside [[log dt_min, log dt_max]]. *)
Lemma kernel_init_values_counterexample :
  exists k g',
    S4DKernel.__init__ 1 2 2 0.1 0.001 None Examples.gen = Ok (k, g') /\
    tensor_of (S4DKernel.log_dt k)
    = [1 / 2 * (ln 0.001 - ln 0.1) + ln 0.1] /\
    ~ Forall (fun x => ln 0.1 <= x <= ln 0.001)
        (tensor_of (S4DKernel.log_dt k)).
Proof.
  destruct (kernel_init_ok 1 2 2 0.1 0.001 None Examples.gen) as [g' Hok];
    [lra | lra |].
  eexists. exists g'. split; [exact Hok|].
  unfold kernel_built; simpl. split; [reflexivity|].
  intros Hall. inversion Hall as [|? ? Hx _]; subst.
  pose proof (ln_increasing 0.001 0.1 ltac:(lra) ltac:(lra)). lra.
Qed.

(** ** C4: validation of the dropout probability *)

Lemma DropoutNd_init_raises (p : R) (tie transposed : bool) (g : Generator) :
  p < 0 \/ 1 <= p ->
  DropoutNd.__init__ p tie transposed g
  = Err (ValueError "dropout probability has to be in [0, 1), but got {}"
                    (Some p)).
Proof.
  intros Hp. unfold DropoutNd.__init__.
  destruct (Rlt_dec p 0); [reflexivity|].
  destruct (Rge_dec p 1); [reflexivity|]. lra.
Qed.

Lemma DropoutNd_init_ok (p : R) (tie transposed : bool) (g : Generator) :
  0 <= p < 1 ->
  DropoutNd.__init__ p tie transposed g
  = Ok (DropoutNd.Build p tie transposed true, g).
Proof.
  intros Hp. unfold DropoutNd.__init__.
  destruct (Rlt_dec p 0); [lra|].
  destruct (Rge_dec p 1); [lra|]. reflexivity.
Qed.

Lemma Dropout1d_init_raises (p : R) (g : Generator) :
  p < 0 \/ 1 < p ->
  nn.Dropout1d.__init__ p g
  = Err (ValueError
           "dropout probability has to be between 0 and 1, but got {p}"
           (Some p)).
Proof.
  intros Hp. unfold nn.Dropout1d.__init__.
  destruct (Rlt_dec p 0); [reflexivity|].
  destruct (Rgt_dec p 1); [reflexivity|]. lra.
Qed.

Lemma Dropout1d_init_ok (p : R) (g : Generator) :
  0 <= p <= 1 ->
  nn.Dropout1d.__init__ p g = Ok (nn.Dropout1d.Build p true, g).
Proof.
  intros Hp. unfold nn.Dropout1d.__init__.
  destruct (Rlt_dec p 0); [lra|].
  destruct (Rgt_dec p 1); [lra|]. reflexivity.
Qed.

Lemma Dropout1d_init_inv (p : R) (g g' : Generator) (d : nn.Dropout1d.t) :
  nn.Dropout1d.__init__ p g = Ok (d, g') ->
  0 <= p <= 1 /\ d = nn.Dropout1d.Build p true /\ g' = g.
Proof.
  unfold nn.Dropout1d.__init__.
  destruct (Rlt_dec p 0); [discriminate|].
  destruct (Rgt_dec p 1); [discriminate|].
  unfold ret. intros [= <- <-]. repeat split; lra.
Qed.

Lemma Conv1d_init_ok (cin cout : nat) (g : Generator) :
  exists conv g',
    nn.Conv1d.__init__ cin cout g = Ok (conv, g') /\
    shape3 (nn.Conv1d.weight conv) cout cin 1 /\
    Datatypes.length (nn.Conv1d.bias conv) = cout.
Proof.
  unfold nn.Conv1d.__init__, bind, torch.rand2, torch.rand, ret.
  eexists. eexists. split; [reflexivity|]. simpl. split.
  - unfold torch.reshape2, torch.map2. split.
    + now rewrite !length_map, length_seq.
    + rewrite map_map. apply Forall_forall. intros row Hrow.
      apply list_elem_of_In, in_map_iff in Hrow as (o & <- & _).
      split; [now rewrite !length_map, length_seq|].
      rewrite map_map. apply Forall_forall. intros w Hw.
      apply list_elem_of_In, in_map_iff in Hw as (i & <- & _). reflexivity.
  - now rewrite !length_map, length_seq.
Qed.

Lemma S4D_init_inv (GELU : R -> R) (d_model length d_state : nat)
      (dropout : R) (transposed : bool) (dt_min dt_max : R) (lr : option R)
      (g g' : Generator) (layer : S4D.t) :
  S4D.__init__ GELU d_model length d_state dropout transposed dt_min dt_max
               lr g = Ok (layer, g') ->
  exists g1 g2 kern conv,
    S4DKernel.__init__ d_model length d_state dt_min dt_max lr g1
    = Ok (kern, g2) /\
    0 <= dropout <= 1 /\
    nn.Conv1d.__init__ d_model (2 * d_model) g2 = Ok (conv, g') /\
    layer = S4D.Build transposed (Param (map (normal g) (seq 0 d_model)) None)
                      length kern GELU (nn.Dropout1d.Build dropout true) conv.
Proof.
  unfold S4D.__init__. intros Hinit.
  apply bind_inv in Hinit as (D & g1 & HD & Hinit).
  apply bind_inv in Hinit as (kern & g2 & Hk & Hinit).
  apply bind_inv in Hinit as (drop & g3 & Hdrop & Hinit).
  apply bind_inv in Hinit as (conv & g4 & Hconv & Hinit).
  apply Dropout1d_init_inv in Hdrop as (Hp & -> & ->).
  unfold ret in Hinit. injection Hinit as <- <-.
  unfold torch.randn in HD. injection HD as <- <-.
  eauto 10.
Qed.

Lemma S4D_init_ok (GELU : R -> R) (d_model length d_state : nat)
      (dropout : R) (transposed : bool) (dt_min dt_max : R) (lr : option R)
      (g : Generator) :
  0 < dt_min -> 0 < dt_max -> 0 <= dropout <= 1 ->
  exists layer g',
    S4D.__init__ GELU d_model length d_state dropout transposed dt_min dt_max
                 lr g = Ok (layer, g').
Proof.
  intros Hmin Hmax Hp. unfold S4D.__init__.
  unfold bind at 1. unfold torch.randn at 1.
  match goal with
  | |- context [S4DKernel.__init__ ?a ?b ?c ?d ?e ?f] =>
      destruct (kernel_init_ok a b c d e f
                  {| uniform := uniform g;
                     normal := fun i => normal g (d_model + i)%nat |}
                  Hmin Hmax) as [g2 Hk]
  end.
  erewrite bind_ok by exact Hk.
  erewrite bind_ok by now apply Dropout1d_init_ok.
  destruct (Conv1d_init_ok d_model (2 * d_model) g2) as (conv & g3 & Hc & _).
  erewrite bind_ok by exact Hc.
  unfold ret. eauto.
Qed.

Lemma S4D_init_raises (GELU : R -> R) (d_model length d_state : nat)
      (dropout : R) (transposed : bool) (dt_min dt_max : R) (lr : option R)
      (g : Generator) :
  0 < dt_min -> 0 < dt_max -> dropout < 0 \/ 1 < dropout ->
  S4D.__init__ GELU d_model length d_state dropout transposed dt_min dt_max
               lr g
  = Err (ValueError
           "dropout probability has to be between 0 and 1, but got {p}"
           (Some dropout)).
Proof.
  intros Hmin Hmax Hp. unfold S4D.__init__.
  unfold bind at 1. unfold torch.randn at 1.
  match goal with
  | |- context [S4DKernel.__init__ ?a ?b ?c ?d ?e ?f] =>
      destruct (kernel_init_ok a b c d e f
                  {| uniform := uniform g;
                     normal := fun i => normal g (d_model + i)%nat |}
                  Hmin Hmax) as [g2 Hk]
  end.
  erewrite bind_ok by exact Hk.
  unfold bind. now rewrite Dropout1d_init_raises.
Qed.

Lemma Linear_init_ok (fin fout : nat) (g : Generator) :
  exists lin g',
    nn.Linear.__init__ fin fout g = Ok (lin, g') /\
    shape2 (nn.Linear.weight lin) fout fin /\
    Datatypes.length (nn.Linear.bias lin) = fout.
Proof.
  unfold nn.Linear.__init__, bind, torch.rand2, torch.rand, ret.
  eexists. eexists. split; [reflexivity|]. simpl. split.
  - apply shape2_map2. unfold torch.reshape2. split.
    + now rewrite length_map, length_seq.
    + apply Forall_forall. intros row Hrow.
      apply list_elem_of_In, in_map_iff in Hrow as (o & <- & _).
      now rewrite length_map, length_seq.
  - now rewrite !length_map, length_seq.
Qed.

Section BuildLayers.
Variable GELU : R -> R.
Variables d_model length d_state : nat.
Variable dropout : R.
Variables dt_min dt_max : R.
Variable lr : option R.

Lemma build_layers_ok (n_layers : nat) (g : Generator) :
  0 < dt_min -> 0 < dt_max -> 0 <= dropout <= 1 ->
  exists ls g',
    S4Model.build_layers GELU n_layers d_model length d_state dropout
                         dt_min dt_max lr g = Ok (ls, g').
Proof.
  intros Hmin Hmax Hp. revert g.
  induction n_layers as [|n IH]; intros g; simpl.
  - unfold ret. eauto.
  - destruct (S4D_init_ok GELU d_model length d_state dropout true
                dt_min dt_max lr g Hmin Hmax Hp) as (layer & g1 & Hl).
    erewrite bind_ok by exact Hl.
    erewrite bind_ok by now apply Dropout1d_init_ok.
    destruct (IH g1) as (ls & g2 & Hls).
    erewrite bind_ok by exact Hls.
    unfold ret. eauto.
Qed.

Lemma build_layers_raises (n_layers : nat) (g : Generator) :
  0 < dt_min -> 0 < dt_max -> (0 < n_layers)%nat ->
  dropout < 0 \/ 1 < dropout ->
  S4Model.build_layers GELU n_layers d_model length d_state dropout
                       dt_min dt_max lr g
  = Err (ValueError
           "dropout probability has to be between 0 and 1, but got {p}"
           (Some dropout)).
Proof.
  intros Hmin Hmax Hn Hp. destruct n_layers as [|n]; [lia|]. simpl.
  unfold bind at 1. now rewrite S4D_init_raises.
Qed.

Lemma build_layers_inv (n_layers : nat) (g g' : Generator)
      (ls : list S4D.t * list nn.LayerNorm.t * list nn.Dropout1d.t) :
  S4Model.build_layers GELU n_layers d_model length d_state dropout
                       dt_min dt_max lr g = Ok (ls, g') ->
  Datatypes.length (fst (fst ls)) = n_layers /\
  Forall (fun layer =>
            exists g1 g2,
              S4D.__init__ GELU d_model length d_state dropout true
                           dt_min dt_max lr g1 = Ok (layer, g2))
         (fst (fst ls)) /\
  snd (fst ls) = repeat (nn.LayerNorm.__init__ d_model) n_layers /\
  snd ls = repeat (nn.Dropout1d.Build dropout true) n_layers.
Proof.
  revert g g' ls. induction n_layers as [|n IH]; intros g g' ls; simpl.
  - unfold ret. intros [= <- <-]. simpl. auto.
  - intros Hb.
    apply bind_inv in Hb as (layer & g1 & Hl & Hb).
    apply bind_inv in Hb as (drop & g2 & Hd & Hb).
    apply bind_inv in Hb as (rest & g3 & Hr & Hb).
    apply Dropout1d_init_inv in Hd as (_ & -> & ->).
    unfold ret in Hb. injection Hb as <- <-. simpl.
    apply IH in Hr as (Hlen & Hall & Hn & Hd).
    rewrite Hlen, Hn, Hd. repeat split; eauto.
Qed.

End BuildLayers.

Lemma S4Model_init_inv (GELU : R -> R)
      (d_input length d_output d_model d_state n_layers : nat) (dropout : R)
      (prenorm : bool) (dt_min dt_max : R) (lr : option R)
      (g g' : Generator) (m : S4Model.t) :
  S4Model.__init__ GELU d_input length d_output d_model d_state n_layers
                   dropout prenorm dt_min dt_max lr g = Ok (m, g') ->
  exists g1 g2 g3 g4 enc dec ls,
    nn.Linear.__init__ d_input d_model g = Ok (enc, g1) /\
    S4Model.build_layers GELU n_layers d_model length d_state dropout
      dt_min dt_max
      (match lr with Some v => Some (py_min 0.001 v) | None => None end) g2
    = Ok (ls, g3) /\
    nn.Linear.__init__ d_model d_output g3 = Ok (dec, g4) /\
    m = S4Model.Build prenorm enc (fst (fst ls)) (snd (fst ls)) (snd ls) dec.
Proof.
  unfold S4Model.__init__. intros Hinit.
  apply bind_inv in Hinit as (enc & g1 & He & Hinit).
  apply bind_inv in Hinit as (ls & g2 & Hl & Hinit).
  apply bind_inv in Hinit as (dec & g3 & Hd & Hinit).
  unfold ret in Hinit. injection Hinit as <- <-.
  exists g1, g1, g2, g3, enc, dec, ls. auto.
Qed.

Lemma S4Model_init_ok (GELU : R -> R)
      (d_input length d_output d_model d_state n_layers : nat) (dropout : R)
      (prenorm : bool) (dt_min dt_max : R) (lr : option R) (g : Generator) :
  0 < dt_min -> 0 < dt_max -> 0 <= dropout <= 1 ->
  exists m g',
    S4Model.__init__ GELU d_input length d_output d_model d_state n_layers
                     dropout prenorm dt_min dt_max lr g = Ok (m, g').
Proof.
  intros Hmin Hmax Hp. unfold S4Model.__init__.
  destruct (Linear_init_ok d_input d_model g) as (enc & g1 & He & _).
  erewrite bind_ok by exact He.
  match goal with
  | |- context [S4Model.build_layers _ _ _ _ _ _ _ _ ?l] =>
      destruct (build_layers_ok GELU d_model length d_state dropout
                  dt_min dt_max l n_layers g1 Hmin Hmax Hp)
        as (ls & g2 & Hls)
  end.
  erewrite bind_ok by exact Hls.
  destruct (Linear_init_ok d_model d_output g2) as (dec & g3 & Hd & _).
  erewrite bind_ok by exact Hd.
  unfold ret. eauto.
Qed.

Lemma S4Model_init_raises (GELU : R -> R)
      (d_input length d_output d_model d_state n_layers : nat) (dropout : R)
      (prenorm : bool) (dt_min dt_max : R) (lr : option R) (g : Generator) :
  0 < dt_min -> 0 < dt_max -> (0 < n_layers)%nat ->
  dropout < 0 \/ 1 < dropout ->
  S4Model.__init__ GELU d_input length d_output d_model d_state n_layers
                   dropout prenorm dt_min dt_max lr g
  = Err (ValueError
           "dropout probability has to be between 0 and 1, but got {p}"
           (Some dropout)).
Proof.
  intros Hmin Hmax Hn Hp. unfold S4Model.__init__.
  destruct (Linear_init_ok d_input d_model g) as (enc & g1 & He & _).
  erewrite bind_ok by exact He.
  unfold bind. now rewrite build_layers_raises.
Qed.

(** C4, as the code has it.  [DropoutNd] rejects at construction, with a
    [ValueError] naming the probability, every [p] outside [[0, 1)] and
    accepts every [p] inside.  The model does not construct a [DropoutNd]:
    its layers construct [torch.nn.Dropout1d], so with at least one layer
    (and valid [dt_min], [dt_max]) construction raises that module's
    [ValueError] exactly when [p < 0] or [p > 1], and succeeds for every
    [p] in [[0, 1]], 1.0 included. *)
Theorem dropout_validation (GELU : R -> R)
        (d_input length d_output d_model d_state n_layers : nat) (p : R)
        (tie transposed prenorm : bool) (dt_min dt_max : R) (lr : option R)
        (g : Generator) :
  0 < dt_min -> 0 < dt_max -> (0 < n_layers)%nat ->
  (p < 0 \/ 1 <= p ->
   DropoutNd.__init__ p tie transposed g
   = Err (ValueError "dropout probability has to be in [0, 1), but got {}"
                     (Some p))) /\
  (0 <= p < 1 -> is_ok (DropoutNd.__init__ p tie transposed g) = true) /\
  (p < 0 \/ 1 < p ->
   S4Model.__init__ GELU d_input length d_output d_model d_state n_layers
                    p prenorm dt_min dt_max lr g
   = Err (ValueError
            "dropout probability has to be between 0 and 1, but got {p}"
            (Some p))) /\
  (0 <= p <= 1 ->
   is_ok (S4Model.__init__ GELU d_input length d_output d_model d_state
                           n_layers p prenorm dt_min dt_max lr g) = true).
Proof.
  intros Hmin Hmax Hn. repeat split.
  - apply DropoutNd_init_raises.
  - intros Hp. now rewrite DropoutNd_init_ok.
  - now apply S4Model_init_raises.
  - intros Hp.
    destruct (S4Model_init_ok GELU d_input length d_output d_model d_state
                n_layers p prenorm dt_min dt_max lr g Hmin Hmax Hp)
      as (m & g' & ->).
    reflexivity.
Qed.

Lemma dropout_validation_witness :
  (DropoutNd.__init__ (-0.1) true true Examples.gen
   = Err (ValueError "dropout probability has to be in [0, 1), but got {}"
                     (Some (-0.1))) /\
   S4Model.__init__ (fun x => x) 3 16 5 4 4 2 (-0.1) false 0.001 0.1 None
                    Examples.gen
   = Err (ValueError
            "dropout probability has to be between 0 and 1, but got {p}"
            (Some (-0.1)))) /\
  (is_ok (DropoutNd.__init__ 0.999 true true Examples.gen) = true /\
   is_ok (S4Model.__init__ (fun x => x) 3 16 5 4 4 2 0.999 false 0.001 0.1
                           None Examples.gen) = true) /\
  (is_ok (DropoutNd.__init__ 0 true true Examples.gen) = true /\
   is_ok (S4Model.__init__ (fun x => x) 3 16 5 4 4 2 0 false 0.001 0.1
                           None Examples.gen) = true).
Proof.
  split; [|split].
  - destruct (dropout_validation (fun x => x) 3 16 5 4 4 2 (-0.1) true true
                false 0.001 0.1 None Examples.gen) as (H1 & _ & H3 & _);
      [lra | lra | lia |].
    split; [apply H1 | apply H3]; lra.
  - destruct (dropout_validation (fun x => x) 3 16 5 4 4 2 0.999 true true
                false 0.001 0.1 None Examples.gen) as (_ & H2 & _ & H4);
      [lra | lra | lia |].
    split; [apply H2 | apply H4]; lra.
  - destruct (dropout_validation (fun x => x) 3 16 5 4 4 2 0 true true
                false 0.001 0.1 None Examples.gen) as (_ & H2 & _ & H4);
      [lra | lra | lia |].
    split; [apply H2 | apply H4]; lra.
Defined.

(** C4 as stated fails at 1.0: the model constructs. *)
Lemma dropout_one_counterexample :
  is_ok (S4Model.__init__ (fun x => x) 3 16 5 4 4 2 1 false 0.001 0.1 None
                          Examples.gen) = true.
Proof.
  destruct (S4Model_init_ok (fun x => x) 3 16 5 4 4 2 1 false 0.001 0.1 None
              Examples.gen) as (m & g' & ->); [lra | lra | lra |].
  reflexivity.
Qed.

(** ** C8: the ceiling on the state-space learning rate *)

Lemma py_min_Rmin (a b : R) : py_min a b = Rmin a b.
Proof.
  unfold py_min, Rmin.
  destruct (Rlt_dec b a), (Rle_dec a b); lra.
Qed.

(** C8. When [S4Model.__init__] returns, it has built [n_layers] layers and
    each of them is the result of constructing [S4D] with learning rate
    [min(0.001, lr)] when [lr] was supplied and with [None] when it was
    not; the kernel tensors [log_dt], [log_A_real] and [A_imag] of each
    layer are registered under that learning rate. *)
Theorem layer_learning_rate_clamped (GELU : R -> R)
        (d_input length d_output d_model d_state n_layers : nat)
        (dropout : R) (prenorm : bool) (dt_min dt_max : R) (lr : option R)
        (g g' : Generator) (m : S4Model.t) :
  S4Model.__init__ GELU d_input length d_output d_model d_state n_layers
                   dropout prenorm dt_min dt_max lr g = Ok (m, g') ->
  Datatypes.length (S4Model.s4_layers m) = n_layers /\
  Forall
    (fun layer =>
       (exists g1 g2,
          S4D.__init__ GELU d_model length d_state dropout true dt_min dt_max
                       (option_map (Rmin 0.001) lr) g1 = Ok (layer, g2)) /\
       RegistrationSpec.frozen_or_overridden
         (option_map (Rmin 0.001) lr) (S4DKernel.log_dt (S4D.kernel layer)) /\
       RegistrationSpec.frozen_or_overridden
         (option_map (Rmin 0.001) lr)
         (S4DKernel.log_A_real (S4D.kernel layer)) /\
       RegistrationSpec.frozen_or_overridden
         (option_map (Rmin 0.001) lr) (S4DKernel.A_imag (S4D.kernel layer)))
    (S4Model.s4_layers m).
Proof.
  intros Hinit.
  apply S4Model_init_inv in Hinit
    as (g1 & g2 & g3 & g4 & enc & dec & ls & _ & Hls & _ & ->).
  simpl.
  replace (match lr with Some v => Some (py_min 0.001 v) | None => None end)
    with (option_map (Rmin 0.001) lr) in Hls
    by (destruct lr; simpl; [now rewrite py_min_Rmin | reflexivity]).
  apply build_layers_inv in Hls as (Hlen & Hall & _ & _).
  split; [exact Hlen|].
  eapply Forall_impl; [exact Hall|]. simpl.
  intros layer (ga & gb & Hl). split; [eauto|].
  apply S4D_init_inv in Hl as (gc & gd & kern & conv & Hk & _ & _ & ->).
  simpl. apply kernel_init_inv in Hk as (_ & _ & ->).
  pose proof (kernel_built_registration d_model length d_state dt_min dt_max
                (option_map (Rmin 0.001) lr) gc) as Hreg.
  simpl in Hreg. tauto.
Qed.

Lemma layer_learning_rate_clamped_witness :
  exists m g',
    S4Model.__init__ (fun x => x) 3 16 5 4 4 2 0.2 false 0.001 0.1 (Some 0.01)
                     Examples.gen = Ok (m, g') /\
    Datatypes.length (S4Model.s4_layers m) = 2%nat /\
    Forall
      (fun layer =>
         RegistrationSpec.frozen_or_overridden
           (Some 0.001) (S4DKernel.log_dt (S4D.kernel layer)))
      (S4Model.s4_layers m).
Proof.
  destruct (S4Model_init_ok (fun x => x) 3 16 5 4 4 2 0.2 false 0.001 0.1
              (Some 0.01) Examples.gen) as (m & g' & Hinit);
    [lra | lra | lra |].
  exists m, g'. split; [exact Hinit|].
  destruct (layer_learning_rate_clamped _ _ _ _ _ _ _ _ _ _ _ _ _ _ _ Hinit)
    as [Hlen Hall].
  split; [exact Hlen|].
  eapply Forall_impl; [exact Hall|]. simpl.
  intros layer (_ & H & _).
  replace (Rmin 0.001 0.01) with 0.001 in H; [exact H|].
  unfold Rmin. destruct (Rle_dec 0.001 0.01); lra.
Defined.

(** ** Roots of unity *)

Lemma Cmul_integral (a b : complex) : Cmul a b = C0 -> a <> C0 -> b = C0.
Proof.
  destruct a as [x y], b as [u v]. unfold Cmul, C0; simpl.
  intros [= H1 H2] Ha.
  assert (Hn : 0 < x * x + y * y).
  { destruct (Req_dec x 0) as [->|Hx]; [|nra].
    destruct (Req_dec y 0) as [->|Hy]; [|nra].
    now contradiction Ha. }
  assert (Hu : (x * x + y * y) * u = 0).
  { replace ((x * x + y * y) * u)
      with (x * (x * u - y * v) + y * (x * v + y * u)) by ring.
    rewrite H1, H2. ring. }
  assert (Hv : (x * x + y * y) * v = 0).
  { replace ((x * x + y * y) * v)
      with (x * (x * v + y * u) - y * (x * u - y * v)) by ring.
    rewrite H1, H2. ring. }
  f_equal; nra.
Qed.

Lemma Cconj_mul (z w : complex) : Cconj (Cmul z w) = Cmul (Cconj z) (Cconj w).
Proof. Ceq. Qed.

Lemma Cconj_RtoC (x : R) : Cconj (RtoC x) = RtoC x.
Proof. Ceq. Qed.

Lemma Cconj_add (z w : complex) : Cconj (Cadd z w) = Cadd (Cconj z) (Cconj w).
Proof. Ceq. Qed.

Lemma twiddle_0 (n : nat) : torch.fft.twiddle n 0 = C1.
Proof.
  unfold torch.fft.twiddle, C1.
  replace (2 * PI * 0 / INR n) with 0 by (unfold Rdiv; ring).
  now rewrite cos_0, sin_0.
Qed.

Lemma twiddle_add (n : nat) (a b : Z) :
  torch.fft.twiddle n (a + b)
  = Cmul (torch.fft.twiddle n a) (torch.fft.twiddle n b).
Proof.
  unfold torch.fft.twiddle, Cmul; simpl.
  replace (2 * PI * IZR (a + b) / INR n)
    with (2 * PI * IZR a / INR n + 2 * PI * IZR b / INR n)
    by (rewrite plus_IZR; unfold Rdiv; ring).
  rewrite cos_plus, sin_plus. f_equal; ring.
Qed.

Lemma twiddle_opp (n : nat) (a : Z) :
  torch.fft.twiddle n (- a) = Cconj (torch.fft.twiddle n a).
Proof.
  unfold torch.fft.twiddle, Cconj; simpl.
  replace (2 * PI * IZR (- a) / INR n) with (- (2 * PI * IZR a / INR n))
    by (rewrite opp_IZR; unfold Rdiv; ring).
  now rewrite cos_neg, sin_neg.
Qed.

Lemma twiddle_full_turn_nat (n k : nat) :
  (0 < n)%nat ->
  torch.fft.twiddle n (Z.of_nat n * Z.of_nat k) = C1.
Proof.
  intros Hn. unfold torch.fft.twiddle, C1.
  assert (Hn' : INR n <> 0) by (apply not_0_INR; lia).
  replace (2 * PI * IZR (Z.of_nat n * Z.of_nat k) / INR n)
    with (0 + 2 * INR k * PI)
    by (rewrite mult_IZR, <- !INR_IZR_INZ; field; assumption).
  now rewrite cos_period, sin_period, cos_0, sin_0.
Qed.

Lemma twiddle_full_turn (n : nat) (m : Z) :
  (0 < n)%nat -> torch.fft.twiddle n (Z.of_nat n * m) = C1.
Proof.
  intros Hn. destruct (Z_le_gt_dec 0 m) as [Hm|Hm].
  - rewrite <- (Z2Nat.id m) by assumption. now apply twiddle_full_turn_nat.
  - replace (Z.of_nat n * m)%Z with (- (Z.of_nat n * Z.of_nat (Z.to_nat (- m))))%Z
      by (rewrite Z2Nat.id by lia; ring).
    rewrite twiddle_opp, twiddle_full_turn_nat by assumption. Ceq.
Qed.

Lemma twiddle_neq_1_pos (n : nat) (m : Z) :
  (0 < m < Z.of_nat n)%Z -> torch.fft.twiddle n m <> C1.
Proof.
  intros [Hm0 Hmn]. unfold torch.fft.twiddle, C1. intros [= Hcos _].
  assert (Hn : 0 < INR n) by (apply lt_0_INR; lia).
  assert (Hm : 0 < IZR m < INR n).
  { split; [now apply IZR_lt|]. rewrite INR_IZR_INZ. now apply IZR_lt. }
  set (x := PI * IZR m / INR n).
  assert (Hx : 0 < x < PI).
  { unfold x. pose proof PI_RGT_0 as Hpi. split.
    - apply Rdiv_lt_0_compat; nra.
    - apply (Rmult_lt_reg_r (INR n)); [assumption|].
      unfold Rdiv. rewrite Rmult_assoc, Rinv_l by lra. nra. }
  replace (2 * PI * IZR m / INR n) with (2 * x) in Hcos
    by (unfold x, Rdiv; ring).
  rewrite cos_2a_sin in Hcos.
  pose proof (sin_gt_0 x (proj1 Hx) (proj2 Hx)). nra.
Qed.

Lemma twiddle_neq_1 (n : nat) (m : Z) :
  m <> 0%Z -> (- Z.of_nat n < m < Z.of_nat n)%Z ->
  torch.fft.twiddle n m <> C1.
Proof.
  intros Hm0 Hm. destruct (Z_lt_le_dec 0 m) as [Hpos|Hneg].
  - apply twiddle_neq_1_pos. lia.
  - intros Heq.
    apply (twiddle_neq_1_pos n (- m)); [lia|].
    rewrite twiddle_opp, Heq. Ceq.
Qed.

(** ** Finite sums *)

Lemma Csum_n_zero (n : nat) : Csum_n (fun _ => C0) n = C0.
Proof. induction n as [|n IH]; simpl; [reflexivity|]. rewrite IH. Ceq. Qed.

Lemma Csum_n_all_zero (f : nat -> complex) (n : nat) :
  (forall i, (i < n)%nat -> f i = C0) -> Csum_n f n = C0.
Proof.
  intros Hf. rewrite <- (Csum_n_zero n). now apply Csum_n_ext.
Qed.

Lemma Csum_n_add (f g : nat -> complex) (n : nat) :
  Csum_n (fun i => Cadd (f i) (g i)) n = Cadd (Csum_n f n) (Csum_n g n).
Proof. induction n as [|n IH]; simpl; [Ceq|]. rewrite IH. Ceq. Qed.

Lemma Csum_n_mul_l (c : complex) (f : nat -> complex) (n : nat) :
  Csum_n (fun i => Cmul c (f i)) n = Cmul c (Csum_n f n).
Proof. induction n as [|n IH]; simpl; [Ceq|]. rewrite IH. Ceq. Qed.

Lemma Csum_n_mul_r (c : complex) (f : nat -> complex) (n : nat) :
  Csum_n (fun i => Cmul (f i) c) n = Cmul (Csum_n f n) c.
Proof. induction n as [|n IH]; simpl; [Ceq|]. rewrite IH. Ceq. Qed.

Lemma Csum_n_swap (f : nat -> nat -> complex) (n m : nat) :
  Csum_n (fun i => Csum_n (fun j => f i j) m) n
  = Csum_n (fun j => Csum_n (fun i => f i j) n) m.
Proof.
  induction n as [|n IH]; simpl.
  - now rewrite Csum_n_zero.
  - now rewrite IH, Csum_n_add.
Qed.

Lemma Csum_n_single (f : nat -> complex) (n k : nat) :
  (k < n)%nat -> (forall i, (i < n)%nat -> i <> k -> f i = C0) ->
  Csum_n f n = f k.
Proof.
  revert k. induction n as [|n IH]; intros k Hk Hf; [lia|]. simpl.
  destruct (Nat.eq_dec k n) as [->|Hne].
  - rewrite Csum_n_all_zero by (intros i Hi; apply Hf; lia). Ceq.
  - rewrite (IH k) by (try lia; intros i Hi Hik; apply Hf; lia).
    rewrite (Hf n) by lia. Ceq.
Qed.

Lemma Csum_n_trunc (f : nat -> complex) (L n : nat) :
  (L <= n)%nat -> (forall s, (L <= s)%nat -> (s < n)%nat -> f s = C0) ->
  Csum_n f n = Csum_n f L.
Proof.
  intros HL. induction n as [|n IH]; intros Hf.
  - now replace L with 0%nat by lia.
  - destruct (Nat.eq_dec L (S n)) as [->|Hne]; [reflexivity|].
    simpl. rewrite IH by (try lia; intros s H1 H2; apply Hf; lia).
    rewrite (Hf n) by lia. Ceq.
Qed.

Lemma real_Csum_n (f : nat -> R) (n : nat) :
  Csum_n (fun i => RtoC (f i)) n = RtoC (Rsum_n f n).
Proof. induction n as [|n IH]; simpl; [reflexivity|]. rewrite IH. Ceq. Qed.

(** ** Orthogonality of the roots of unity *)

Lemma twiddle_sum_0 (n : nat) :
  Csum_n (fun j => torch.fft.twiddle n (Z.of_nat j * 0)) n = RtoC (INR n).
Proof.
  transitivity (Csum_n (fun _ => RtoC 1) n).
  - apply Csum_n_ext. intros j _. rewrite Z.mul_0_r. apply twiddle_0.
  - rewrite real_Csum_n. f_equal.
    induction n as [|n IH]; [reflexivity|].
    cbn [Rsum_n]. rewrite IH, S_INR. ring.
Qed.

Lemma twiddle_sum_telescope (n : nat) (m : Z) (k : nat) :
  Cmul (Csub (torch.fft.twiddle n m) C1)
       (Csum_n (fun j => torch.fft.twiddle n (Z.of_nat j * m)) k)
  = Csub (torch.fft.twiddle n (Z.of_nat k * m)) C1.
Proof.
  induction k as [|k IH].
  - simpl. rewrite twiddle_0. Ceq.
  - cbn [Csum_n]. rewrite Cmul_add_distr_l, IH.
    replace (Z.of_nat (S k) * m)%Z with (Z.of_nat k * m + m)%Z by lia.
    rewrite twiddle_add. Ceq.
Qed.

Lemma twiddle_sum_nonzero (n : nat) (m : Z) :
  (0 < n)%nat -> m <> 0%Z -> (- Z.of_nat n < m < Z.of_nat n)%Z ->
  Csum_n (fun j => torch.fft.twiddle n (Z.of_nat j * m)) n = C0.
Proof.
  intros Hn Hm0 Hm.
  apply (Cmul_integral (Csub (torch.fft.twiddle n m) C1)).
  - rewrite twiddle_sum_telescope, twiddle_full_turn by assumption. Ceq.
  - intros Hz. apply (twiddle_neq_1 n m Hm0 Hm).
    destruct (torch.fft.twiddle n m) as [x y].
    unfold Csub, C1, C0 in *; simpl in *.
    injection Hz as Hx Hy. f_equal; lra.
Qed.

(** ** The convolution theorem for zero-padded signals *)

Lemma conv_summand (n : nat) (x y : R) (j s r t : nat) :
  Cmul (Cmul (Cmul (RtoC x)
                   (torch.fft.twiddle n (- (Z.of_nat j * Z.of_nat s))))
             (Cmul (RtoC y)
                   (torch.fft.twiddle n (- (Z.of_nat j * Z.of_nat r)))))
       (torch.fft.twiddle n (Z.of_nat j * Z.of_nat t))
  = Cmul (RtoC (x * y))
         (torch.fft.twiddle n
            (Z.of_nat j * (Z.of_nat t - Z.of_nat s - Z.of_nat r))).
Proof.
  replace (Z.of_nat j * (Z.of_nat t - Z.of_nat s - Z.of_nat r))%Z
    with (- (Z.of_nat j * Z.of_nat s) + - (Z.of_nat j * Z.of_nat r)
          + Z.of_nat j * Z.of_nat t)%Z by ring.
  rewrite !twiddle_add. Ceq.
Qed.

Lemma conv_inner (n : nat) (c : R) (s r t : nat) :
  (0 < n)%nat -> (t < n)%nat -> (s + r < n + t)%nat ->
  Csum_n (fun j =>
            Cmul (RtoC c)
                 (torch.fft.twiddle n
                    (Z.of_nat j * (Z.of_nat t - Z.of_nat s - Z.of_nat r))))
         n
  = if (s + r =? t)%nat then Cmul (RtoC (INR n)) (RtoC c) else C0.
Proof.
  intros Hn Ht Hsr. rewrite Csum_n_mul_l.
  destruct (Nat.eqb_spec (s + r) t) as [Heq|Hne].
  - replace (Z.of_nat t - Z.of_nat s - Z.of_nat r)%Z with 0%Z by lia.
    rewrite twiddle_sum_0. apply Cmul_comm.
  - rewrite twiddle_sum_nonzero by lia. apply Cmul_0_r.
Qed.

Lemma dft_product_inverse (L : nat) (a b : nat -> R) (t : nat) :
  (t < L)%nat ->
  Csum_n
    (fun j =>
       Cmul (Cmul
               (Csum_n (fun s =>
                          Cmul (RtoC (a s))
                               (torch.fft.twiddle (2 * L)
                                  (- (Z.of_nat j * Z.of_nat s)))) L)
               (Csum_n (fun r =>
                          Cmul (RtoC (b r))
                               (torch.fft.twiddle (2 * L)
                                  (- (Z.of_nat j * Z.of_nat r)))) L))
            (torch.fft.twiddle (2 * L) (Z.of_nat j * Z.of_nat t)))
    (2 * L)
  = Cmul (RtoC (INR (2 * L)))
         (RtoC (Rsum_n (fun s => a s * b (t - s)%nat) (S t))).
Proof.
  intros Ht.
  transitivity
    (Csum_n
       (fun j =>
          Csum_n
            (fun s =>
               Csum_n
                 (fun r =>
                    Cmul (RtoC (a s * b r))
                         (torch.fft.twiddle (2 * L)
                            (Z.of_nat j
                             * (Z.of_nat t - Z.of_nat s - Z.of_nat r))))
                 L) L) (2 * L)).
  { apply Csum_n_ext. intros j _.
    rewrite <- Csum_n_mul_r, <- Csum_n_mul_r.
    apply Csum_n_ext. intros s _.
    rewrite <- Csum_n_mul_l, <- Csum_n_mul_r.
    apply Csum_n_ext. intros r _. apply conv_summand. }
  rewrite Csum_n_swap.
  transitivity
    (Csum_n
       (fun s =>
          if (s <=? t)%nat
          then Cmul (RtoC (INR (2 * L))) (RtoC (a s * b (t - s)%nat))
          else C0) L).
  { apply Csum_n_ext. intros s Hs.
    rewrite Csum_n_swap.
    transitivity
      (Csum_n
         (fun r =>
            if (s + r =? t)%nat
            then Cmul (RtoC (INR (2 * L))) (RtoC (a s * b r))
            else C0) L).
    { apply Csum_n_ext. intros r Hr. apply conv_inner; lia. }
    destruct (Nat.leb_spec s t) as [Hle|Hgt].
    - rewrite (Csum_n_single _ L (t - s)).
      + now replace (s + (t - s) =? t)%nat with true
          by (symmetry; apply Nat.eqb_eq; lia).
      + lia.
      + intros r Hr Hne.
        now replace (s + r =? t)%nat with false
          by (symmetry; apply Nat.eqb_neq; lia).
    - apply Csum_n_all_zero. intros r Hr.
      now replace (s + r =? t)%nat with false
        by (symmetry; apply Nat.eqb_neq; lia). }
  rewrite (Csum_n_trunc _ (S t) L).
  - transitivity
      (Csum_n (fun s => Cmul (RtoC (INR (2 * L)))
                             (RtoC (a s * b (t - s)%nat))) (S t)).
    + apply Csum_n_ext. intros s Hs.
      now replace (s <=? t)%nat with true
        by (symmetry; apply Nat.leb_le; lia).
    + now rewrite Csum_n_mul_l, real_Csum_n.
  - lia.
  - intros s Hs _.
    now replace (s <=? t)%nat with false
      by (symmetry; apply Nat.leb_gt; lia).
Qed.

(** ** The transforms on lists *)

Lemma dft_sum (n : nat) (x : Tensor1) (j : nat) :
  torch.fft.dft n x j
  = Csum_n (fun s => Cmul (RtoC (nth s x 0))
                          (torch.fft.twiddle n (- (Z.of_nat j * Z.of_nat s))))
           n.
Proof. unfold torch.fft.dft. apply Csum_map_seq. Qed.

Lemma nth_resize (n : nat) (x : Tensor1) (s : nat) :
  (Datatypes.length x <= n)%nat ->
  nth s (torch.fft.resize n x) 0 = nth s x 0.
Proof.
  intros Hlen. unfold torch.fft.resize.
  rewrite firstn_all2 by assumption.
  destruct (Nat.lt_ge_cases s (Datatypes.length x)) as [Hs|Hs].
  - now apply app_nth1.
  - rewrite app_nth2 by lia. rewrite nth_repeat.
    symmetry. now apply nth_overflow.
Qed.

Lemma dft_padded (L : nat) (x : Tensor1) (j : nat) :
  Datatypes.length x = L ->
  torch.fft.dft (2 * L) (torch.fft.resize (2 * L) x) j
  = Csum_n (fun s => Cmul (RtoC (nth s x 0))
                          (torch.fft.twiddle (2 * L)
                             (- (Z.of_nat j * Z.of_nat s))))
           L.
Proof.
  intros Hlen. rewrite dft_sum.
  rewrite (Csum_n_trunc _ L (2 * L)).
  - apply Csum_n_ext. intros s _. now rewrite nth_resize by lia.
  - lia.
  - intros s Hs _. rewrite nth_resize by lia.
    rewrite nth_overflow by lia. apply Cmul_0_l.
Qed.

Lemma Cconj_Csum_n (f : nat -> complex) (n : nat) :
  Cconj (Csum_n f n) = Csum_n (fun i => Cconj (f i)) n.
Proof.
  induction n as [|n IH]; simpl; [Ceq|]. now rewrite Cconj_add, IH.
Qed.

(** The transform of a real signal is Hermitian. *)
Lemma dft_hermitian (n : nat) (x : Tensor1) (j : nat) :
  (0 < j < n)%nat ->
  torch.fft.dft n x (n - j) = Cconj (torch.fft.dft n x j).
Proof.
  intros Hj. rewrite !dft_sum, Cconj_Csum_n.
  apply Csum_n_ext. intros s _.
  rewrite Cconj_mul, Cconj_RtoC, <- twiddle_opp, Z.opp_involutive.
  f_equal.
  replace (- (Z.of_nat (n - j) * Z.of_nat s))%Z
    with (Z.of_nat j * Z.of_nat s + - (Z.of_nat n * Z.of_nat s))%Z by lia.
  rewrite twiddle_add, twiddle_opp, twiddle_full_turn by lia. Ceq.
Qed.

Lemma zip_with_map_same {A B D E : Type} (f : B -> D -> E)
      (g : A -> B) (h : A -> D) (l : list A) :
  zip_with f (map g l) (map h l) = map (fun i => f (g i) (h i)) l.
Proof. induction l as [|x l IH]; simpl; [reflexivity|]. now rewrite IH. Qed.

Lemma Cresize_id (m : nat) (X : CTensor1) :
  Datatypes.length X = m -> torch.fft.Cresize m X = X.
Proof.
  intros Hlen. unfold torch.fft.Cresize.
  rewrite firstn_all2 by lia.
  replace (m - Datatypes.length X)%nat with 0%nat by lia.
  apply app_nil_r.
Qed.

Lemma irfft_entry (X : CTensor1) (n t : nat) :
  (t < n)%nat ->
  nth t (torch.fft.irfft X n) 0
  = real (Cmul (RtoC (/ INR n))
               (Csum_n (fun j =>
                          Cmul (torch.fft.hermitian n
                                  (torch.fft.Cresize (n / 2 + 1) X) j)
                               (torch.fft.twiddle n
                                  (Z.of_nat j * Z.of_nat t)))
                       n)).
Proof.
  intros Ht. unfold torch.fft.irfft.
  rewrite (nth_map_in _ _ _ 0%nat) by (rewrite length_seq; lia).
  rewrite nth_seq_in by lia. simpl. now rewrite Csum_map_seq.
Qed.

Lemma irfft_length (X : CTensor1) (n : nat) :
  Datatypes.length (torch.fft.irfft X n) = n.
Proof. unfold torch.fft.irfft. now rewrite length_map, length_seq. Qed.

Lemma rfft_length (x : Tensor1) (n : nat) :
  Datatypes.length (torch.fft.rfft x n) = (n / 2 + 1)%nat.
Proof. unfold torch.fft.rfft. now rewrite length_map, length_seq. Qed.

(** The product of two one-sided spectra of real signals stands for the
    product of the full spectra. *)
Lemma hermitian_product (n : nat) (u k : Tensor1) (j : nat) :
  (j < n)%nat ->
  torch.fft.hermitian n
    (torch.fft.Cresize (n / 2 + 1)
       (zip_with Cmul (torch.fft.rfft u n) (torch.fft.rfft k n))) j
  = Cmul (torch.fft.dft n (torch.fft.resize n u) j)
         (torch.fft.dft n (torch.fft.resize n k) j).
Proof.
  intros Hj.
  rewrite Cresize_id
    by (rewrite length_zip_with, !rfft_length; lia).
  unfold torch.fft.rfft. rewrite zip_with_map_same.
  unfold torch.fft.hermitian.
  assert (Hhalf : (n / 2 < n)%nat) by (apply Nat.div_lt; lia).
  destruct (Nat.leb_spec j (n / 2)) as [Hle|Hgt].
  - rewrite (nth_map_in _ _ _ 0%nat) by (rewrite length_seq; lia).
    now rewrite nth_seq_in by lia.
  - assert (Hnj : (n - j <= n / 2)%nat).
    { pose proof (Nat.div_mod_eq n 2) as Hdm.
      pose proof (Nat.mod_upper_bound n 2). lia. }
    rewrite (nth_map_in _ _ _ 0%nat) by (rewrite length_seq; lia).
    rewrite nth_seq_in by lia. simpl.
    rewrite !dft_hermitian by lia. Ceq.
Qed.

(** One row: the transform-domain product, inverted and truncated, is the
    causal convolution. *)
Lemma convolution_row (L : nat) (u k : Tensor1) (t : nat) :
  Datatypes.length u = L -> Datatypes.length k = L -> (t < L)%nat ->
  nth t (firstn L
           (torch.fft.irfft
              (zip_with Cmul (torch.fft.rfft u (2 * L))
                             (torch.fft.rfft k (2 * L)))
              (2 * L))) 0
  = Rsum_n (fun s => nth s k 0 * nth (t - s) u 0) (S t).
Proof.
  intros Hu Hk Ht.
  rewrite nth_firstn.
  replace (t <? L)%nat with true by (symmetry; apply Nat.ltb_lt; lia).
  rewrite irfft_entry by lia.
  transitivity
    (real (Cmul (RtoC (/ INR (2 * L)))
                (Cmul (RtoC (INR (2 * L)))
                      (RtoC (Rsum_n (fun s => nth s k 0 * nth (t - s) u 0)
                                    (S t)))))).
  - f_equal. f_equal.
    rewrite <- (dft_product_inverse L (fun s => nth s k 0)
                  (fun s => nth s u 0) t Ht).
    apply Csum_n_ext. intros j Hj.
    rewrite hermitian_product by lia.
    rewrite !dft_padded by assumption.
    f_equal. apply Cmul_comm.
  - assert (Hn : INR (2 * L) <> 0) by (apply not_0_INR; lia).
    revert Hn. generalize (INR (2 * L)) as N.
    generalize (Rsum_n (fun s => nth s k 0 * nth (t - s) u 0) (S t)) as c.
    intros c N HN. unfold Cmul, RtoC. cbn [real imag]. now field.
Qed.

(** ** Rank-3 shapes *)

Lemma shape3_length {A : Type} (X : list (list (list A))) (B H L : nat) :
  shape3 X B H L -> Datatypes.length X = B.
Proof. now intros [? _]. Qed.

Lemma shape3_batch {A : Type} (X : list (list (list A))) (B H L b : nat) :
  shape3 X B H L -> (b < B)%nat -> shape2 (nth b X []) H L.
Proof.
  intros [Hlen Hall] Hb. rewrite Forall_forall in Hall.
  apply Hall. apply list_elem_of_In, nth_In. lia.
Qed.

Lemma shape3_intro {A : Type} (X : list (list (list A))) (B H L : nat) :
  Datatypes.length X = B ->
  (forall b, (b < B)%nat -> shape2 (nth b X []) H L) ->
  shape3 X B H L.
Proof.
  intros Hlen Hb. split; [assumption|].
  apply Forall_forall. intros Xb Hin.
  apply list_elem_of_In, (In_nth _ _ []) in Hin.
  destruct Hin as (b & Hlt & <-). apply Hb. lia.
Qed.

(** ** C2 and C6: the convolution stage *)

Lemma convolution_batch (L : nat) (k : Tensor2) (u : Tensor3) (b : nat) :
  (b < Datatypes.length u)%nat ->
  nth b (S4D.convolution L k u) []
  = map (fun y_f_bh => firstn L (torch.fft.irfft y_f_bh (2 * L)))
        (torch.zip2 Cmul
           (map (fun u_bh => torch.fft.rfft u_bh (2 * L)) (nth b u []))
           (map (fun k_h => torch.fft.rfft k_h (2 * L)) k)).
Proof.
  intros Hb. unfold S4D.convolution, nn.map3'. cbv zeta.
  rewrite (nth_map_in _ _ _ []) by now rewrite !length_map.
  f_equal.
  rewrite (nth_map_in _ _ _ []) by now rewrite length_map.
  f_equal.
  now rewrite (nth_map_in _ _ _ []).
Qed.

Lemma convolution_channel (L : nat) (k : Tensor2) (u : Tensor3)
      (B H b h : nat) :
  shape2 k H L -> shape3 u B H L -> (b < B)%nat -> (h < H)%nat ->
  nth h (nth b (S4D.convolution L k u) []) []
  = firstn L
      (torch.fft.irfft
         (zip_with Cmul
            (torch.fft.rfft (nth h (nth b u []) []) (2 * L))
            (torch.fft.rfft (nth h k []) (2 * L)))
         (2 * L)).
Proof.
  intros Hk Hu Hb Hh.
  pose proof (shape3_batch u B H L b Hu Hb) as Hub.
  rewrite convolution_batch
    by (erewrite shape3_length by eassumption; lia).
  unfold torch.zip2.
  rewrite (nth_map_in _ _ _ ([] : CTensor1))
    by (rewrite length_zip_with, !length_map,
          (shape2_length _ _ _ Hub), (shape2_length _ _ _ Hk); lia).
  f_equal. f_equal.
  rewrite (nth_zip_with_in _ _ _ _ [] [])
    by (rewrite length_map;
        first [rewrite (shape2_length _ _ _ Hub)
              | rewrite (shape2_length _ _ _ Hk)]; lia).
  f_equal.
  - apply (nth_map_in (fun u_bh => torch.fft.rfft u_bh (2 * L))).
    rewrite (shape2_length _ _ _ Hub). lia.
  - apply (nth_map_in (fun k_h => torch.fft.rfft k_h (2 * L))).
    rewrite (shape2_length _ _ _ Hk). lia.
Qed.

Lemma convolution_shape (L : nat) (k : Tensor2) (u : Tensor3) (B H : nat) :
  shape2 k H L -> shape3 u B H L -> shape3 (S4D.convolution L k u) B H L.
Proof.
  intros Hk Hu. apply shape3_intro.
  - unfold S4D.convolution, nn.map3'. cbv zeta.
    rewrite !length_map. eapply shape3_length; eauto.
  - intros b Hb. pose proof (shape3_batch u B H L b Hu Hb) as Hub.
    apply shape2_rows.
    + rewrite convolution_batch
        by (erewrite shape3_length by eassumption; lia).
      unfold torch.zip2.
      rewrite length_map, length_zip_with, !length_map,
        (shape2_length _ _ _ Hub), (shape2_length _ _ _ Hk). lia.
    + intros h Hh. rewrite (convolution_channel L k u B H) by assumption.
      rewrite length_firstn, irfft_length. lia.
Qed.

Lemma convolution_entry (L : nat) (k : Tensor2) (u : Tensor3)
      (B H b h t : nat) :
  shape2 k H L -> shape3 u B H L ->
  (b < B)%nat -> (h < H)%nat -> (t < L)%nat ->
  at3 (S4D.convolution L k u) b h t = ConvSpec.direct k u b h t.
Proof.
  intros Hk Hu Hb Hh Ht. unfold at3, ConvSpec.direct, at2.
  rewrite (convolution_channel L k u B H) by assumption.
  apply convolution_row; [|eapply shape2_row; eauto|assumption].
  eapply shape2_row; [|eassumption].
  eapply shape3_batch; eauto.
Qed.

(** C2. For a kernel of shape [(H, L)] and an input of shape [(B, H, L)],
    the convolution stage of [S4D.forward] (both [rfft] at padded length
    [2L], the product per channel, [irfft], the first [L] samples) has
    shape [(B, H, L)] and its entry [(b, h, t)] is the direct causal
    convolution [sum_{s=0}^{t} k[h,s] * u[b,h,t-s]]. *)
Theorem fft_convolution_is_direct (L : nat) (k : Tensor2) (u : Tensor3)
        (B H : nat) :
  shape2 k H L -> shape3 u B H L ->
  shape3 (S4D.convolution L k u) B H L /\
  forall b h t, (b < B)%nat -> (h < H)%nat -> (t < L)%nat ->
    at3 (S4D.convolution L k u) b h t = ConvSpec.direct k u b h t.
Proof.
  intros Hk Hu. split.
  - now apply convolution_shape.
  - intros b h t Hb Hh Ht. now apply (convolution_entry L k u B H).
Qed.

Lemma fft_convolution_is_direct_witness :
  shape3 (S4D.convolution 2 [[1; 2]] [[[3; 4]]]) 1 1 2 /\
  at3 (S4D.convolution 2 [[1; 2]] [[[3; 4]]]) 0 0 1 = 1 * 4 + 2 * 3.
Proof.
  destruct (fft_convolution_is_direct 2 [[1; 2]] [[[3; 4]]] 1 1)
    as [Hshape Hentry].
  - split; [reflexivity|]. repeat constructor.
  - split; [reflexivity|]. repeat constructor.
  - split; [exact Hshape|].
    rewrite (Hentry 0%nat 0%nat 1%nat) by lia.
    unfold ConvSpec.direct, at2, at3. simpl. ring.
Defined.

Lemma skip_batch (D : Tensor1) (u y : Tensor3) (b : nat) :
  (b < Datatypes.length y)%nat -> (b < Datatypes.length u)%nat ->
  nth b (S4D.skip D u y) []
  = torch.zip2 Rplus (nth b y []) (torch.zip_rows Rmult (nth b u []) D).
Proof.
  intros Hy Hu. unfold S4D.skip, nn.zip3.
  rewrite (nth_zip_with_in _ _ _ _ [] []) by (try rewrite length_map; lia).
  f_equal.
  now apply (nth_map_in (fun u_b => torch.zip_rows Rmult u_b D)).
Qed.

Lemma skip_shape (D : Tensor1) (u y : Tensor3) (B H L : nat) :
  shape3 y B H L -> shape3 u B H L -> Datatypes.length D = H ->
  shape3 (S4D.skip D u y) B H L.
Proof.
  intros Hy Hu HD.
  pose proof (shape3_length _ _ _ _ Hy) as Hly.
  pose proof (shape3_length _ _ _ _ Hu) as Hlu.
  apply shape3_intro.
  - unfold S4D.skip, nn.zip3. rewrite length_zip_with, length_map. lia.
  - intros b Hb. rewrite skip_batch by lia.
    apply shape2_zip2; [eapply shape3_batch; eauto|].
    apply shape2_zip_rows; [eapply shape3_batch; eauto | assumption].
Qed.

Lemma skip_entry (D : Tensor1) (u y : Tensor3) (B H L b h t : nat) :
  shape3 y B H L -> shape3 u B H L -> Datatypes.length D = H ->
  (b < B)%nat -> (h < H)%nat -> (t < L)%nat ->
  at3 (S4D.skip D u y) b h t = at3 y b h t + at3 u b h t * nth h D 0.
Proof.
  intros Hy Hu HD Hb Hh Ht. unfold at3.
  rewrite skip_batch
    by (first [erewrite (shape3_length y) by eassumption
              | erewrite (shape3_length u) by eassumption]; lia).
  pose proof (shape3_batch _ _ _ _ b Hy Hb) as Hyb.
  pose proof (shape3_batch _ _ _ _ b Hu Hb) as Hub.
  rewrite (zip2_entry _ _ _ H L h t 0 0)
    by (try apply shape2_zip_rows; assumption).
  f_equal.
  now rewrite (zip_rows_entry _ _ _ H L h t 0 0) by assumption.
Qed.

Lemma Rsum_n_all_zero (f : nat -> R) (n : nat) :
  (forall i, (i < n)%nat -> f i = 0) -> Rsum_n f n = 0.
Proof.
  induction n as [|n IH]; intros Hf; simpl; [reflexivity|].
  rewrite IH, Hf by auto. ring.
Qed.

Lemma zero_tensor_entry (k : Tensor2) (h s : nat) :
  Forall (Forall (fun x => x = 0)) k -> at2 k h s = 0.
Proof.
  intros Hk. unfold at2.
  destruct (Nat.lt_ge_cases h (Datatypes.length k)) as [Hh|Hh].
  - rewrite Forall_forall in Hk.
    assert (Hrow : Forall (fun x => x = 0) (nth h k [])).
    { apply Hk, list_elem_of_In, nth_In. exact Hh. }
    destruct (Nat.lt_ge_cases s (Datatypes.length (nth h k []))) as [Hs|Hs].
    + rewrite Forall_forall in Hrow.
      apply Hrow, list_elem_of_In, nth_In. exact Hs.
    + now apply nth_overflow.
  - rewrite (nth_overflow k) by assumption. now destruct s.
Qed.

(** C6. With an all-zero kernel of shape [(H, L)], an input of shape
    [(B, H, L)] and a skip vector [D] of length [H], the convolution and
    skip stage of [S4D.forward] has shape [(B, H, L)] and its entry
    [(b, h, t)] is exactly [D[h] * u[b,h,t]]. *)
Theorem zero_kernel_is_skip_only (L : nat) (k : Tensor2) (D : Tensor1)
        (u : Tensor3) (B H : nat) :
  shape2 k H L -> Forall (Forall (fun x => x = 0)) k ->
  shape3 u B H L -> Datatypes.length D = H ->
  shape3 (S4D.convolution_skip L k D u) B H L /\
  forall b h t, (b < B)%nat -> (h < H)%nat -> (t < L)%nat ->
    at3 (S4D.convolution_skip L k D u) b h t = nth h D 0 * at3 u b h t.
Proof.
  intros Hk Hzero Hu HD. unfold S4D.convolution_skip.
  pose proof (convolution_shape L k u B H Hk Hu) as Hy.
  split; [now apply skip_shape|].
  intros b h t Hb Hh Ht.
  rewrite (skip_entry D u _ B H L) by assumption.
  rewrite (convolution_entry L k u B H) by assumption.
  unfold ConvSpec.direct.
  rewrite Rsum_n_all_zero
    by (intros s _; rewrite zero_tensor_entry by assumption; ring).
  ring.
Qed.

Lemma zero_kernel_is_skip_only_witness :
  at3 (S4D.convolution_skip 2 [[0; 0]] [5] [[[3; 4]]]) 0 0 1 = 5 * 4.
Proof.
  destruct (zero_kernel_is_skip_only 2 [[0; 0]] [5] [[[3; 4]]] 1 1)
    as [_ Hentry].
  - split; [reflexivity|]. repeat constructor.
  - repeat constructor.
  - split; [reflexivity|]. repeat constructor.
  - reflexivity.
  - now rewrite (Hentry 0%nat 0%nat 1%nat) by lia.
Defined.

(** ** C10: evaluation mode is deterministic *)

Lemma Dropout1d_forward_eval (self : nn.Dropout1d.t) (X : Tensor3)
      (g : Generator) :
  nn.Dropout1d.training self = false ->
  nn.Dropout1d.forward self X g = Ok (X, g).
Proof. intros Hev. unfold nn.Dropout1d.forward. now rewrite Hev. Qed.

Lemma DropoutNd_forward_eval (self : DropoutNd.t) (X : Tensor3)
      (g : Generator) :
  DropoutNd.training self = false ->
  DropoutNd.forward self X g = Ok (X, g).
Proof. intros Hev. unfold DropoutNd.forward. now rewrite Hev. Qed.

Lemma S4D_forward_eval (self : S4D.t) (u : Tensor3) :
  S4D.training self = false ->
  exists y, forall g, S4D.forward self u g = Ok ((y, None), g).
Proof.
  intros Hev. unfold S4D.forward. eexists. intros g.
  erewrite bind_ok by (apply Dropout1d_forward_eval; exact Hev).
  reflexivity.
Qed.

Lemma layers_loop_eval (prenorm : bool)
      (layers : list (S4D.t * nn.LayerNorm.t * nn.Dropout1d.t)) :
  Forall (fun l => S4D.training (fst (fst l)) = false /\
                   nn.Dropout1d.training (snd l) = false) layers ->
  forall x, exists y, forall g,
    S4Model.layers_loop prenorm layers x g = Ok (y, g).
Proof.
  induction 1 as [|[[layer norm] drop] rest [Hl Hd] Hrest IH]; intros x.
  - exists x. reflexivity.
  - cbn [S4Model.layers_loop]. simpl in Hl, Hd.
    destruct (S4D_forward_eval layer
                (if prenorm then S4Model.norm_channels norm x else x) Hl)
      as [z Hz].
    destruct (IH (if prenorm then nn.zip3 Rplus z x
                  else S4Model.norm_channels norm (nn.zip3 Rplus z x)))
      as [y Hy].
    exists y. intros g.
    erewrite bind_ok by apply Hz. cbn [fst].
    erewrite bind_ok by (apply Dropout1d_forward_eval; exact Hd).
    apply Hy.
Qed.

Lemma eval_mode_layers (m : S4Model.t) :
  S4Model.in_eval_mode m = true ->
  Forall (fun l => S4D.training (fst (fst l)) = false /\
                   nn.Dropout1d.training (snd l) = false)
         (combine (combine (S4Model.s4_layers m) (S4Model.norms m))
                  (S4Model.dropouts m)).
Proof.
  unfold S4Model.in_eval_mode. intros Hev.
  apply andb_true_iff in Hev as [Hl Hd].
  rewrite forallb_forall in Hl. rewrite forallb_forall in Hd.
  apply Forall_forall. intros [[layer norm] drop] Hin.
  apply list_elem_of_In in Hin.
  pose proof (in_combine_l _ _ _ _ Hin) as Hln.
  pose proof (in_combine_r _ _ _ _ Hin) as Hdrop.
  apply in_combine_l in Hln.
  apply Hl in Hln. apply Hd in Hdrop. simpl.
  split; now apply negb_true_iff.
Qed.

Lemma eval_in_eval_mode (m : S4Model.t) :
  S4Model.in_eval_mode (S4Model.eval m) = true.
Proof.
  unfold S4Model.in_eval_mode, S4Model.eval, S4Model.train; simpl.
  apply andb_true_iff. split; apply forallb_forall; intros x Hx;
    apply in_map_iff in Hx as (x' & <- & _); reflexivity.
Qed.

(** C10. In evaluation mode (no dropout module of the model has its
    training flag set, as after [eval()]) [S4Model.forward] returns, for a
    given model and input, one output whatever the state of the random
    generator, and leaves that state untouched.  The reason is stated with
    it: a dropout module that is not training, [torch.nn.Dropout1d] or
    [DropoutNd], returns its input and does not touch the generator, and
    nothing else in the forward pass reads the generator. *)
Theorem eval_forward_deterministic (m : S4Model.t) (x : Tensor3) :
  S4Model.in_eval_mode m = true ->
  (exists y, forall g, S4Model.forward m x g = Ok (y, g)) /\
  (forall (d : nn.Dropout1d.t) (X : Tensor3) (g : Generator),
     nn.Dropout1d.training d = false ->
     nn.Dropout1d.forward d X g = Ok (X, g)) /\
  (forall (d : DropoutNd.t) (X : Tensor3) (g : Generator),
     DropoutNd.training d = false -> DropoutNd.forward d X g = Ok (X, g)).
Proof.
  intros Hev. split; [|split].
  - unfold S4Model.forward.
    destruct (layers_loop_eval (S4Model.prenorm m) _ (eval_mode_layers m Hev)
                (torch.transpose
                   (nn.Linear.forward3 (S4Model.encoder m)
                                       (torch.transpose x))))
      as [z Hz].
    eexists. intros g.
    erewrite bind_ok by apply Hz. reflexivity.
  - intros d X g. apply Dropout1d_forward_eval.
  - intros d X g. apply DropoutNd_forward_eval.
Qed.

Lemma eval_forward_deterministic_witness :
  exists y, forall g,
    S4Model.forward Examples.model [[[1; 2]]] g = Ok (y, g).
Proof.
  destruct (eval_forward_deterministic Examples.model [[[1; 2]]])
    as [Hdet _]; [reflexivity | exact Hdet].
Defined.

(** In training mode the generator does decide the output: one channel
    dropped or kept. *)
Lemma training_dropout_reads_generator :
  nn.Dropout1d.forward (nn.Dropout1d.Build 0.5 true) [[[1]]]
    {| uniform := fun _ => 0; normal := fun _ => 0 |}
  <> nn.Dropout1d.forward (nn.Dropout1d.Build 0.5 true) [[[1]]]
       {| uniform := fun _ => 0.75; normal := fun _ => 0 |}.
Proof.
  unfold nn.Dropout1d.forward; simpl.
  destruct (Req_dec_T 0.5 0) as [H|_]; [lra|].
  destruct (Req_dec_T 0.5 1) as [H|_]; [lra|].
  unfold bind, torch.rand2, ret, torch.reshape2, torch.zip_rows,
    nn.Dropout1d.keep; simpl.
  destruct (Rlt_dec 0 (1 - 0.5)) as [_|H]; [|lra].
  destruct (Rlt_dec 0.75 (1 - 0.5)) as [H|_]; [lra|].
  intros [= H _]. lra.
Qed.

(** ** C7: shapes through the forward pass *)

Lemma shape2_map_rows {A B : Type} (f : list A -> list B)
      (X : list (list A)) (H L L' : nat) :
  shape2 X H L ->
  (forall row, Datatypes.length row = L -> Datatypes.length (f row) = L') ->
  shape2 (map f X) H L'.
Proof.
  intros [Hlen Hrows] Hf. split; [now rewrite length_map|].
  apply Forall_forall. intros row Hin.
  apply list_elem_of_In, in_map_iff in Hin as (r & <- & Hr).
  apply Hf. rewrite Forall_forall in Hrows.
  now apply Hrows, list_elem_of_In.
Qed.

Lemma shape3_map {A B : Type} (f : list (list A) -> list (list B))
      (X : list (list (list A))) (B0 H L H' L' : nat) :
  shape3 X B0 H L ->
  (forall Xb, shape2 Xb H L -> shape2 (f Xb) H' L') ->
  shape3 (map f X) B0 H' L'.
Proof.
  intros [Hlen Hall] Hf. split; [now rewrite length_map|].
  apply Forall_forall. intros Yb Hin.
  apply list_elem_of_In, in_map_iff in Hin as (Xb & <- & HXb).
  apply Hf. rewrite Forall_forall in Hall.
  now apply Hall, list_elem_of_In.
Qed.

Lemma dim1_shape2 {A : Type} (X : list (list A)) (H L : nat) :
  shape2 X H L -> (0 < H)%nat -> torch.dim1 X = L.
Proof.
  intros [Hlen Hrows] HH. destruct X as [|row X]; simpl in *; [lia|].
  now inversion Hrows.
Qed.

Lemma transpose2_shape (X : Tensor2) (H L : nat) :
  shape2 X H L -> (0 < H)%nat -> shape2 (torch.transpose2 X) L H.
Proof.
  intros HX HH. unfold torch.transpose2.
  rewrite (dim1_shape2 X H L HX HH).
  split; [now rewrite length_map, length_seq|].
  apply Forall_forall. intros col Hin.
  apply list_elem_of_In, in_map_iff in Hin as (j & <- & _).
  rewrite length_map. now destruct HX.
Qed.

Lemma transpose_shape (X : Tensor3) (B H L : nat) :
  shape3 X B H L -> (0 < H)%nat -> shape3 (torch.transpose X) B L H.
Proof.
  intros HX HH. unfold torch.transpose.
  eapply shape3_map; [exact HX|].
  intros Xb HXb. now apply transpose2_shape.
Qed.

Lemma Linear_apply_length (lin : nn.Linear.t) (f_in f_out : nat)
      (x : Tensor1) :
  Constructed.linear lin f_in f_out ->
  Datatypes.length (nn.Linear.apply lin x) = f_out.
Proof.
  intros [[Hw _] Hb]. unfold nn.Linear.apply.
  rewrite length_zip_with. lia.
Qed.

Lemma Linear_forward3_shape (lin : nn.Linear.t) (f_in f_out : nat)
      (X : Tensor3) (B L : nat) :
  Constructed.linear lin f_in f_out -> shape3 X B L f_in ->
  shape3 (nn.Linear.forward3 lin X) B L f_out.
Proof.
  intros Hlin HX. unfold nn.Linear.forward3.
  eapply shape3_map; [exact HX|].
  intros Xb HXb. eapply shape2_map_rows; [exact HXb|].
  intros row _. now apply (Linear_apply_length lin f_in).
Qed.

Lemma Linear_forward2_shape (lin : nn.Linear.t) (f_in f_out : nat)
      (X : Tensor2) (B : nat) :
  Constructed.linear lin f_in f_out -> shape2 X B f_in ->
  shape2 (nn.Linear.forward2 lin X) B f_out.
Proof.
  intros Hlin HX. unfold nn.Linear.forward2.
  eapply shape2_map_rows; [exact HX|].
  intros row _. now apply (Linear_apply_length lin f_in).
Qed.

Lemma LayerNorm_forward_shape (norm : nn.LayerNorm.t) (X : Tensor3)
      (B L H : nat) :
  Constructed.layer_norm norm H -> shape3 X B L H ->
  shape3 (nn.LayerNorm.forward norm X) B L H.
Proof.
  intros [Hw Hb] HX. unfold nn.LayerNorm.forward.
  eapply shape3_map; [exact HX|].
  intros Xb HXb. eapply shape2_map_rows; [exact HXb|].
  intros row Hrow. unfold nn.LayerNorm.apply.
  rewrite !length_zip_with. lia.
Qed.

Lemma norm_channels_shape (norm : nn.LayerNorm.t) (z : Tensor3)
      (B H L : nat) :
  Constructed.layer_norm norm H -> shape3 z B H L ->
  (0 < H)%nat -> (0 < L)%nat ->
  shape3 (S4Model.norm_channels norm z) B H L.
Proof.
  intros Hn Hz HH HL. unfold S4Model.norm_channels.
  apply transpose_shape; [|assumption].
  apply LayerNorm_forward_shape; [assumption|].
  now apply transpose_shape.
Qed.

Lemma map3_shape {A B : Type} (f : A -> B) (X : list (list (list A)))
      (B0 H L : nat) :
  shape3 X B0 H L -> shape3 (nn.map3 f X) B0 H L.
Proof.
  intros HX. unfold nn.map3.
  eapply shape3_map; [exact HX|]. intros Xb. apply shape2_map2.
Qed.

Lemma zip3_shape {A B D : Type} (f : A -> B -> D)
      (X : list (list (list A))) (Y : list (list (list B)))
      (B0 H L : nat) :
  shape3 X B0 H L -> shape3 Y B0 H L -> shape3 (nn.zip3 f X Y) B0 H L.
Proof.
  intros HX HY.
  pose proof (shape3_length _ _ _ _ HX) as HlX.
  pose proof (shape3_length _ _ _ _ HY) as HlY.
  apply shape3_intro.
  - unfold nn.zip3. rewrite length_zip_with. lia.
  - intros b Hb. unfold nn.zip3.
    rewrite (nth_zip_with_in _ _ _ _ [] []) by lia.
    apply shape2_zip2; eapply shape3_batch; eauto.
Qed.

Lemma reshape2_shape {A : Type} (H W : nat) (flat : nat -> A) :
  shape2 (torch.reshape2 H W flat) H W.
Proof.
  unfold torch.reshape2. split; [now rewrite length_map, length_seq|].
  apply Forall_forall. intros row Hin.
  apply list_elem_of_In, in_map_iff in Hin as (h & <- & _).
  now rewrite length_map, length_seq.
Qed.

Lemma dim1_shape3 {A : Type} (X : list (list (list A))) (B H L : nat) :
  shape3 X B H L -> (0 < B)%nat -> torch.dim1 X = H.
Proof.
  intros [Hlen Hall] HB. destruct X as [|Xb X]; simpl in *; [lia|].
  inversion Hall as [|? ? HXb _]; subst. now destruct HXb.
Qed.

Lemma Dropout1d_forward_shape (self : nn.Dropout1d.t) (X : Tensor3)
      (B H L : nat) (g : Generator) :
  shape3 X B H L ->
  exists Y g',
    nn.Dropout1d.forward self X g = Ok (Y, g') /\ shape3 Y B H L.
Proof.
  intros HX. unfold nn.Dropout1d.forward.
  destruct (nn.Dropout1d.training self); [|unfold ret; eauto].
  destruct (Req_dec_T (nn.Dropout1d.p self) 0); [unfold ret; eauto|].
  destruct (Req_dec_T (nn.Dropout1d.p self) 1).
  { unfold ret. eexists. eexists. split; [reflexivity|].
    now apply map3_shape. }
  unfold bind, torch.rand2, ret. eexists. eexists. split; [reflexivity|].
  pose proof (shape3_length _ _ _ _ HX) as HlX.
  pose proof (reshape2_shape (Datatypes.length X) (torch.dim1 X)
                (uniform g)) as Hu.
  apply shape3_intro.
  - rewrite length_zip_with, (shape2_length _ _ _ Hu). lia.
  - intros b Hb.
    rewrite (nth_zip_with_in _ _ _ _ [] [])
      by (try rewrite (shape2_length _ _ _ Hu); lia).
    apply shape2_zip_rows; [eapply shape3_batch; eauto|].
    rewrite (shape2_row _ _ _ b Hu) by lia.
    apply (dim1_shape3 X B H L HX). lia.
Qed.

Lemma Conv1d_forward_shape (conv : nn.Conv1d.t) (c_in c_out : nat)
      (X : Tensor3) (B L : nat) :
  Constructed.conv1d conv c_in c_out -> (0 < c_in)%nat ->
  shape3 X B c_in L ->
  shape3 (nn.Conv1d.forward conv X) B c_out L.
Proof.
  intros [Hw Hb] Hpos HX. unfold nn.Conv1d.forward.
  eapply shape3_map; [exact HX|].
  intros Xb HXb. unfold nn.Conv1d.apply.
  rewrite (dim1_shape2 Xb c_in L HXb Hpos).
  pose proof (shape3_length _ _ _ _ Hw) as Hlw.
  apply shape2_rows.
  - rewrite length_zip_with. lia.
  - intros o Ho.
    rewrite (nth_zip_with_in _ _ _ _ [] 0) by lia.
    now rewrite length_map, length_seq.
Qed.

Lemma GLU_shape (X : Tensor3) (B H L : nat) :
  shape3 X B (2 * H) L -> shape3 (nn.GLU X) B H L.
Proof.
  intros HX. unfold nn.GLU.
  eapply shape3_map; [exact HX|].
  intros Xb [Hlen Hrows]. rewrite Hlen.
  replace (2 * H / 2)%nat with H
    by (rewrite Nat.mul_comm, Nat.div_mul; lia).
  apply shape2_zip2.
  - split; [rewrite length_firstn; lia|]. now apply Forall_take.
  - split; [rewrite length_skipn; lia|]. now apply Forall_drop.
Qed.

Lemma S4D_forward_shape (self : S4D.t) (u : Tensor3) (B H L : nat)
      (g : Generator) :
  Constructed.layer self H L -> shape3 u B H L -> (0 < H)%nat ->
  exists y g',
    S4D.forward self u g = Ok ((y, None), g') /\ shape3 y B H L.
Proof.
  intros (Htr & Hlen & (Nh & Hdt & HC & Hre & Him & Hbuf) & HD & Hconv)
         Hu HH.
  unfold S4D.forward. rewrite Htr, Hlen.
  pose proof (kernel_forward_shape_entries (S4D.kernel self) H Nh L
                Hdt HC Hre Him Hbuf) as [Hk _].
  pose proof (convolution_shape L _ u B H Hk Hu) as Hy.
  pose proof (skip_shape (tensor_of (S4D.D self)) u _ B H L Hy Hu HD) as Hs.
  pose proof (map3_shape (S4D.activation self) _ B H L Hs) as Ha.
  destruct (Dropout1d_forward_shape (S4D.dropout self) _ B H L g Ha)
    as (yd & g' & Hdrop & Hyd).
  erewrite bind_ok by exact Hdrop.
  unfold ret. eexists. eexists. split; [reflexivity|].
  apply GLU_shape. eapply Conv1d_forward_shape; eauto.
Qed.

Lemma mean_dim1_shape (X : Tensor3) (B L H : nat) :
  shape3 X B L H -> (0 < L)%nat -> shape2 (S4Model.mean_dim1 X) B H.
Proof.
  intros [Hlen Hall] HL. unfold S4Model.mean_dim1.
  split; [now rewrite length_map|].
  apply Forall_forall. intros row Hin.
  apply list_elem_of_In, in_map_iff in Hin as (Xb & <- & HXb).
  rewrite Forall_forall in Hall.
  apply list_elem_of_In, Hall in HXb.
  rewrite length_map, length_seq. now apply (dim1_shape2 Xb L H).
Qed.

Lemma layers_loop_shape (prenorm : bool)
      (layers : list (S4D.t * nn.LayerNorm.t * nn.Dropout1d.t))
      (B H L : nat) :
  (0 < H)%nat -> (0 < L)%nat ->
  Forall (fun l => Constructed.layer (fst (fst l)) H L /\
                   Constructed.layer_norm (snd (fst l)) H) layers ->
  forall x g, shape3 x B H L ->
  exists y g',
    S4Model.layers_loop prenorm layers x g = Ok (y, g') /\ shape3 y B H L.
Proof.
  intros HH HL.
  induction 1 as [|[[layer norm] drop] rest [Hl Hn] Hrest IH]; intros x g Hx.
  - unfold S4Model.layers_loop, ret. eauto.
  - cbn [S4Model.layers_loop]. simpl in Hl, Hn.
    assert (Hz0 : shape3 (if prenorm then S4Model.norm_channels norm x else x)
                         B H L).
    { destruct prenorm; [now apply norm_channels_shape | assumption]. }
    destruct (S4D_forward_shape layer _ B H L g Hl Hz0 HH)
      as (z & g1 & Hfwd & Hz).
    erewrite bind_ok by exact Hfwd. cbn [fst].
    destruct (Dropout1d_forward_shape drop z B H L g1 Hz)
      as (zd & g2 & Hdrop & Hzd).
    erewrite bind_ok by exact Hdrop.
    apply IH.
    pose proof (zip3_shape Rplus zd x B H L Hzd Hx) as Hres.
    destruct prenorm; [assumption | now apply norm_channels_shape].
Qed.

Lemma combined_layers_constructed (m : S4Model.t)
      (d_input L d_output d_model : nat) :
  Constructed.model m d_input L d_output d_model ->
  Forall (fun l => Constructed.layer (fst (fst l)) d_model L /\
                   Constructed.layer_norm (snd (fst l)) d_model)
         (combine (combine (S4Model.s4_layers m) (S4Model.norms m))
                  (S4Model.dropouts m)).
Proof.
  intros (_ & Hl & Hn & _).
  rewrite Forall_forall in Hl. rewrite Forall_forall in Hn.
  apply Forall_forall. intros [[layer norm] drop] Hin.
  apply list_elem_of_In, in_combine_l in Hin.
  pose proof (in_combine_l _ _ _ _ Hin) as Hlayer.
  pose proof (in_combine_r _ _ _ _ Hin) as Hnorm.
  simpl. split; [apply Hl | apply Hn]; now apply list_elem_of_In.
Qed.

Lemma forward_shape (m : S4Model.t) (d_input L d_output d_model B : nat)
      (x : Tensor3) (g : Generator) :
  Constructed.model m d_input L d_output d_model ->
  (0 < d_input)%nat -> (0 < d_model)%nat -> (0 < L)%nat ->
  shape3 x B d_input L ->
  exists y g', S4Model.forward m x g = Ok (y, g') /\ shape2 y B d_output.
Proof.
  intros Hm Hdi Hdm HL Hx.
  pose proof (combined_layers_constructed m _ _ _ _ Hm) as Hlayers.
  destruct Hm as (Henc & _ & _ & Hdec).
  unfold S4Model.forward.
  assert (Hx1 : shape3 (torch.transpose
                          (nn.Linear.forward3 (S4Model.encoder m)
                                              (torch.transpose x)))
                       B d_model L).
  { apply transpose_shape; [|assumption].
    eapply Linear_forward3_shape; [exact Henc|].
    now apply transpose_shape. }
  destruct (layers_loop_shape (S4Model.prenorm m) _ B d_model L Hdm HL
              Hlayers _ g Hx1) as (y & g' & Hloop & Hy).
  erewrite bind_ok by exact Hloop.
  unfold ret. eexists. eexists. split; [reflexivity|].
  eapply Linear_forward2_shape; [exact Hdec|].
  apply (mean_dim1_shape _ B L d_model); [|assumption].
  now apply transpose_shape.
Qed.

(** *** Construction gives the constructed shapes *)

Lemma repeat_shape2 {A : Type} (row : list A) (H N : nat) :
  Datatypes.length row = N -> shape2 (repeat row H) H N.
Proof.
  intros Hrow. split; [apply repeat_length|].
  apply Forall_forall. intros r Hr.
  apply list_elem_of_In, repeat_spec in Hr. now subst.
Qed.

Lemma kernel_built_constructed (d_model length N : nat) (dt_min dt_max : R)
      (lr : option R) (g : Generator) :
  Constructed.kernel (kernel_built d_model length N dt_min dt_max lr g)
                     d_model length.
Proof.
  exists (N / 2)%nat. unfold kernel_built; simpl.
  rewrite !tensor_of_register. repeat split.
  - now rewrite !length_map, length_seq.
  - unfold torch.view_as_real, torch.map2. now rewrite length_map,
      (shape2_length _ _ _ (reshape2_shape d_model (N / 2) _)).
  - apply (shape2_map2 _ _ d_model (N / 2)), reshape2_shape.
  - unfold torch.map2, torch.ones. now rewrite !length_map, repeat_length.
  - apply (shape2_map2 _ _ d_model (N / 2)), shape2_map2.
    apply repeat_shape2, repeat_length.
  - unfold torch.map2, torch.repeat_rows.
    now rewrite length_map, repeat_length.
  - apply (shape2_map2 _ _ d_model (N / 2)).
    apply repeat_shape2. unfold torch.arange. apply length_seq.
Qed.

Lemma Linear_init_constructed (f_in f_out : nat) (g g' : Generator)
      (lin : nn.Linear.t) :
  nn.Linear.__init__ f_in f_out g = Ok (lin, g') ->
  Constructed.linear lin f_in f_out.
Proof.
  intros Hinit.
  destruct (Linear_init_ok f_in f_out g) as (lin' & g'' & Hok & Hw & Hb).
  rewrite Hok in Hinit. injection Hinit as <- <-. now split.
Qed.

Lemma Conv1d_init_constructed (c_in c_out : nat) (g g' : Generator)
      (conv : nn.Conv1d.t) :
  nn.Conv1d.__init__ c_in c_out g = Ok (conv, g') ->
  Constructed.conv1d conv c_in c_out.
Proof.
  intros Hinit.
  destruct (Conv1d_init_ok c_in c_out g) as (conv' & g'' & Hok & Hw & Hb).
  rewrite Hok in Hinit. injection Hinit as <- <-. now split.
Qed.

Lemma S4D_init_constructed (GELU : R -> R) (d_model length d_state : nat)
      (dropout : R) (dt_min dt_max : R) (lr : option R)
      (g g' : Generator) (layer : S4D.t) :
  S4D.__init__ GELU d_model length d_state dropout true dt_min dt_max lr g
  = Ok (layer, g') ->
  Constructed.layer layer d_model length.
Proof.
  intros Hinit.
  apply S4D_init_inv in Hinit as (g1 & g2 & kern & conv & Hk & _ & Hc & ->).
  apply kernel_init_inv in Hk as (_ & _ & ->).
  apply Conv1d_init_constructed in Hc.
  unfold Constructed.layer; simpl. repeat split; try apply Hc.
  - apply kernel_built_constructed.
  - now rewrite length_map, length_seq.
Qed.

Lemma S4Model_init_constructed (GELU : R -> R)
      (d_input length d_output d_model d_state n_layers : nat) (dropout : R)
      (prenorm : bool) (dt_min dt_max : R) (lr : option R)
      (g g' : Generator) (m : S4Model.t) :
  S4Model.__init__ GELU d_input length d_output d_model d_state n_layers
                   dropout prenorm dt_min dt_max lr g = Ok (m, g') ->
  Constructed.model m d_input length d_output d_model /\
  S4Model.prenorm m = prenorm.
Proof.
  intros Hinit.
  apply S4Model_init_inv in Hinit
    as (g1 & g2 & g3 & g4 & enc & dec & ls & Henc & Hls & Hdec & ->).
  apply Linear_init_constructed in Henc, Hdec.
  apply build_layers_inv in Hls as (_ & Hall & Hnorms & _).
  split; [|reflexivity].
  unfold Constructed.model; simpl. repeat split; try apply Henc;
    try apply Hdec.
  - eapply Forall_impl; [exact Hall|]. simpl.
    intros layer (ga & gb & Hl). eapply S4D_init_constructed; eauto.
  - rewrite Hnorms. apply Forall_forall. intros n Hn.
    apply list_elem_of_In, repeat_spec in Hn. subst.
    unfold Constructed.layer_norm, nn.LayerNorm.__init__; simpl.
    now rewrite !repeat_length.
Qed.

(** C7. On a model whose tensors have the constructed shapes, with
    positive [d_input], [d_model] and sequence length [L], and whatever
    [prenorm] is, [S4Model.forward] returns, for every batch size [B > 0]
    and input of shape [(B, d_input, L)], a tensor of shape
    [(B, d_output)]. *)
Theorem forward_output_shape (m : S4Model.t)
        (d_input L d_output d_model B : nat) (x : Tensor3) (g : Generator) :
  Constructed.model m d_input L d_output d_model ->
  (0 < d_input)%nat -> (0 < d_model)%nat -> (0 < L)%nat -> (0 < B)%nat ->
  shape3 x B d_input L ->
  exists y g', S4Model.forward m x g = Ok (y, g') /\ shape2 y B d_output.
Proof.
  intros Hm Hdi Hdm HL _ Hx. now apply (forward_shape m d_input L d_output d_model).
Qed.

(** The example of the specification: input [(2, 3, 16)], [d_output = 5],
    with and without [prenorm]. *)
Lemma forward_output_shape_witness :
  (exists m g1 y g2,
     S4Model.__init__ (fun v => v) 3 16 5 4 4 2 0.2 true 0.001 0.1 None
                      Examples.gen = Ok (m, g1) /\
     S4Model.prenorm m = true /\
     S4Model.forward m (repeat (repeat (repeat 1 16) 3) 2) g1 = Ok (y, g2) /\
     shape2 y 2 5) /\
  (exists m g1 y g2,
     S4Model.__init__ (fun v => v) 3 16 5 4 4 2 0.2 false 0.001 0.1 None
                      Examples.gen = Ok (m, g1) /\
     S4Model.prenorm m = false /\
     S4Model.forward m (repeat (repeat (repeat 1 16) 3) 2) g1 = Ok (y, g2) /\
     shape2 y 2 5).
Proof.
  split.
  - destruct (S4Model_init_ok (fun v => v) 3 16 5 4 4 2 0.2 true 0.001 0.1
                None Examples.gen) as (m & g1 & Hinit); [lra | lra | lra |].
    destruct (S4Model_init_constructed _ _ _ _ _ _ _ _ _ _ _ _ _ _ _ Hinit)
      as [Hm Hpre].
    destruct (forward_output_shape m 3 16 5 4 2
                (repeat (repeat (repeat 1 16) 3) 2) g1 Hm)
      as (y & g2 & Hfwd & Hy); try lia.
    + apply shape3_intro; [reflexivity|]. intros b Hb.
      destruct b as [|[|b]]; [| |lia]; simpl;
        (split; [reflexivity | repeat constructor]).
    + exists m, g1, y, g2. auto.
  - destruct (S4Model_init_ok (fun v => v) 3 16 5 4 4 2 0.2 false 0.001 0.1
                None Examples.gen) as (m & g1 & Hinit); [lra | lra | lra |].
    destruct (S4Model_init_constructed _ _ _ _ _ _ _ _ _ _ _ _ _ _ _ Hinit)
      as [Hm Hpre].
    destruct (forward_output_shape m 3 16 5 4 2
                (repeat (repeat (repeat 1 16) 3) 2) g1 Hm)
      as (y & g2 & Hfwd & Hy); try lia.
    + apply shape3_intro; [reflexivity|]. intros b Hb.
      destruct b as [|[|b]]; [| |lia]; simpl;
        (split; [reflexivity | repeat constructor]).
    + exists m, g1, y, g2. auto.
Defined.

(* ===================================================================== *)
(** * Further properties of the code                                      *)
(* ===================================================================== *)

(** ** Construction: which error, and when *)

Lemma math_log_raises (x : R) (g : Generator) :
  x <= 0 -> math.log x g = Err (ValueError "math domain error" None).
Proof.
  intros Hx. unfold math.log. destruct (Rlt_dec 0 x); [lra|reflexivity].
Qed.

Lemma kernel_init_raises (d_model length N : nat) (dt_min dt_max : R)
      (lr : option R) (g : Generator) :
  dt_max <= 0 \/ dt_min <= 0 ->
  S4DKernel.__init__ d_model length N dt_min dt_max lr g
  = Err (ValueError "math domain error" None).
Proof.
  intros Hdt. unfold S4DKernel.__init__.
  unfold bind at 1. unfold torch.rand at 1.
  destruct (Rle_lt_dec dt_max 0) as [Hmax|Hmax].
  - unfold bind at 1. now rewrite math_log_raises.
  - erewrite bind_ok by now apply math_log_ok.
    unfold bind at 1. rewrite math_log_raises by lra. reflexivity.
Qed.

(** X1. [S4DKernel.__init__] takes [math.log] of both step bounds before
    it builds anything: it returns exactly when [dt_min] and [dt_max] are
    both positive, and otherwise raises the [ValueError] of [math.log],
    whatever the sizes and the learning rate. *)
Theorem kernel_init_outcome (d_model length N : nat) (dt_min dt_max : R)
        (lr : option R) (g : Generator) :
  (is_ok (S4DKernel.__init__ d_model length N dt_min dt_max lr g) = true
   <-> 0 < dt_min /\ 0 < dt_max) /\
  (dt_max <= 0 \/ dt_min <= 0 ->
   S4DKernel.__init__ d_model length N dt_min dt_max lr g
   = Err (ValueError "math domain error" None)).
Proof.
  split; [split|].
  - intros Hok.
    destruct (S4DKernel.__init__ d_model length N dt_min dt_max lr g)
      as [[k g']|e] eqn:Hinit; [|discriminate].
    apply kernel_init_inv in Hinit. tauto.
  - intros [Hmin Hmax].
    destruct (kernel_init_ok d_model length N dt_min dt_max lr g Hmin Hmax)
      as [g' ->]. reflexivity.
  - apply kernel_init_raises.
Qed.

Lemma kernel_init_outcome_witness :
  S4DKernel.__init__ 2 4 4 0 0.1 None Examples.gen
  = Err (ValueError "math domain error" None) /\
  is_ok (S4DKernel.__init__ 2 4 4 0.001 0.1 None Examples.gen) = true.
Proof.
  split.
  - apply (kernel_init_outcome 2 4 4 0 0.1 None Examples.gen). right. lra.
  - apply (kernel_init_outcome 2 4 4 0.001 0.1 None Examples.gen). lra.
Defined.

(** X2. [S4D.__init__] builds the kernel before the dropout module, so a
    non-positive [dt_min] or [dt_max] raises the [math.log] error whatever
    the dropout probability; with valid step bounds a probability outside
    [[0, 1]] raises the [Dropout1d] error; and with valid step bounds and a
    probability in [[0, 1]] construction returns a layer that stores the
    given [length] and layout flag, holds [D] as a plain parameter and has
    its dropout in training mode. *)
Theorem S4D_init_outcome (GELU : R -> R) (d_model length d_state : nat)
        (dropout : R) (transposed : bool) (dt_min dt_max : R)
        (lr : option R) (g : Generator) :
  (dt_max <= 0 \/ dt_min <= 0 ->
   S4D.__init__ GELU d_model length d_state dropout transposed dt_min dt_max
                lr g
   = Err (ValueError "math domain error" None)) /\
  (0 < dt_min -> 0 < dt_max -> dropout < 0 \/ 1 < dropout ->
   S4D.__init__ GELU d_model length d_state dropout transposed dt_min dt_max
                lr g
   = Err (ValueError
            "dropout probability has to be between 0 and 1, but got {p}"
            (Some dropout))) /\
  (0 < dt_min -> 0 < dt_max -> 0 <= dropout <= 1 ->
   exists layer g',
     S4D.__init__ GELU d_model length d_state dropout transposed dt_min
                  dt_max lr g = Ok (layer, g') /\
     S4D.length layer = length /\
     S4D.transposed layer = transposed /\
     RegistrationSpec.plain_parameter (S4D.D layer) /\
     Datatypes.length (tensor_of (S4D.D layer)) = d_model /\
     S4D.dropout layer = nn.Dropout1d.Build dropout true).
Proof.
  split; [|split].
  - intros Hdt. unfold S4D.__init__.
    unfold bind at 1. unfold torch.randn at 1.
    unfold bind at 1. now rewrite kernel_init_raises.
  - apply S4D_init_raises.
  - intros Hmin Hmax Hp.
    destruct (S4D_init_ok GELU d_model length d_state dropout transposed
                dt_min dt_max lr g Hmin Hmax Hp) as (layer & g' & Hinit).
    exists layer, g'. split; [exact Hinit|].
    apply S4D_init_inv in Hinit as (g1 & g2 & kern & conv & _ & _ & _ & ->).
    simpl. repeat split. now rewrite length_map, length_seq.
Qed.

Lemma S4D_init_outcome_witness :
  S4D.__init__ (fun v => v) 4 16 4 2 true 0 0.1 None Examples.gen
  = Err (ValueError "math domain error" None) /\
  S4D.__init__ (fun v => v) 4 16 4 2 true 0.001 0.1 None Examples.gen
  = Err (ValueError
           "dropout probability has to be between 0 and 1, but got {p}"
           (Some 2)) /\
  is_ok (S4D.__init__ (fun v => v) 4 16 4 0.2 true 0.001 0.1 None
                      Examples.gen) = true.
Proof.
  split; [|split].
  - apply (S4D_init_outcome (fun v => v) 4 16 4 2 true 0 0.1 None
             Examples.gen). right. lra.
  - apply (S4D_init_outcome (fun v => v) 4 16 4 2 true 0.001 0.1 None
             Examples.gen); lra.
  - destruct (S4D_init_outcome (fun v => v) 4 16 4 0.2 true 0.001 0.1 None
                Examples.gen) as (_ & _ & Hok).
    destruct Hok as (layer & g' & -> & _); [lra | lra | lra |].
    reflexivity.
Defined.

(** X3. With [n_layers = 0] the loop body never runs, so [S4Model.__init__]
    validates nothing: it returns for every dropout probability and every
    [dt_min], [dt_max] (negative ones included), with three empty module
    lists. *)
Theorem S4Model_init_no_layers (GELU : R -> R)
        (d_input length d_output d_model d_state : nat) (dropout : R)
        (prenorm : bool) (dt_min dt_max : R) (lr : option R)
        (g : Generator) :
  exists m g',
    S4Model.__init__ GELU d_input length d_output d_model d_state 0
                     dropout prenorm dt_min dt_max lr g = Ok (m, g') /\
    S4Model.s4_layers m = [] /\
    S4Model.norms m = [] /\
    S4Model.dropouts m = [] /\
    S4Model.prenorm m = prenorm.
Proof.
  unfold S4Model.__init__.
  destruct (Linear_init_ok d_input d_model g) as (enc & g1 & He & _).
  erewrite bind_ok by exact He.
  cbn [S4Model.build_layers]. unfold bind at 1. unfold ret at 1.
  destruct (Linear_init_ok d_model d_output g1) as (dec & g2 & Hd & _).
  erewrite bind_ok by exact Hd.
  unfold ret. eexists. eexists. split; [reflexivity|]. simpl. auto.
Qed.

(** X4. When [S4Model.__init__] returns, the three module lists have
    exactly [n_layers] entries each, so the [zip] of [forward] visits every
    layer; every norm is a fresh [LayerNorm(d_model)], every dropout holds
    the given probability in training mode; and if there is at least one
    layer the configuration was valid: both step bounds positive and the
    probability in [[0, 1]]. *)
Theorem S4Model_init_lists (GELU : R -> R)
        (d_input length d_output d_model d_state n_layers : nat)
        (dropout : R) (prenorm : bool) (dt_min dt_max : R) (lr : option R)
        (g g' : Generator) (m : S4Model.t) :
  S4Model.__init__ GELU d_input length d_output d_model d_state n_layers
                   dropout prenorm dt_min dt_max lr g = Ok (m, g') ->
  Datatypes.length
    (combine (combine (S4Model.s4_layers m) (S4Model.norms m))
             (S4Model.dropouts m)) = n_layers /\
  Datatypes.length (S4Model.s4_layers m) = n_layers /\
  S4Model.norms m = repeat (nn.LayerNorm.__init__ d_model) n_layers /\
  S4Model.dropouts m = repeat (nn.Dropout1d.Build dropout true) n_layers /\
  S4Model.prenorm m = prenorm /\
  ((0 < n_layers)%nat -> 0 < dt_min /\ 0 < dt_max /\ 0 <= dropout <= 1).
Proof.
  intros Hinit.
  apply S4Model_init_inv in Hinit
    as (g1 & g2 & g3 & g4 & enc & dec & ls & _ & Hls & _ & ->).
  apply build_layers_inv in Hls as (Hlen & Hall & Hnorms & Hdrops).
  simpl. rewrite Hnorms, Hdrops.
  split; [|split; [exact Hlen|split; [reflexivity|split; [reflexivity|split;
    [reflexivity|]]]]].
  - rewrite !length_combine, !repeat_length, Hlen. lia.
  - intros Hn.
    destruct (fst (fst ls)) as [|layer rest]; [simpl in Hlen; lia|].
    inversion Hall as [|? ? (ga & gb & Hl) _]; subst.
    apply S4D_init_inv in Hl as (gc & gd & kern & conv & Hk & Hp & _ & _).
    apply kernel_init_inv in Hk as (Hmin & Hmax & _). auto.
Qed.

Lemma S4Model_init_lists_witness :
  exists m g',
    S4Model.__init__ (fun v => v) 3 16 5 4 4 2 0.2 false 0.001 0.1 None
                     Examples.gen = Ok (m, g') /\
    Datatypes.length
      (combine (combine (S4Model.s4_layers m) (S4Model.norms m))
               (S4Model.dropouts m)) = 2%nat.
Proof.
  destruct (S4Model_init_ok (fun v => v) 3 16 5 4 4 2 0.2 false 0.001 0.1
              None Examples.gen) as (m & g' & Hinit); [lra | lra | lra |].
  exists m, g'. split; [exact Hinit|].
  now destruct (S4Model_init_lists _ _ _ _ _ _ _ _ _ _ _ _ _ _ _ Hinit)
    as [Hlen _].
Defined.

(** ** The kernel: frozen tensors, initial poles, recurrence *)

Lemma kernel_built_shapes (d_model length N : nat) (dt_min dt_max : R)
      (lr : option R) (g : Generator) :
  Datatypes.length
    (tensor_of (S4DKernel.log_dt
                  (kernel_built d_model length N dt_min dt_max lr g)))
  = d_model /\
  shape2 (tensor_of (S4DKernel.C
                       (kernel_built d_model length N dt_min dt_max lr g)))
         d_model (N / 2) /\
  shape2 (tensor_of (S4DKernel.log_A_real
                       (kernel_built d_model length N dt_min dt_max lr g)))
         d_model (N / 2) /\
  shape2 (tensor_of (S4DKernel.A_imag
                       (kernel_built d_model length N dt_min dt_max lr g)))
         d_model (N / 2) /\
  tensor_of (S4DKernel.length
               (kernel_built d_model length N dt_min dt_max lr g))
  = torch.arange length.
Proof.
  unfold kernel_built; simpl. rewrite !tensor_of_register.
  split; [now rewrite !length_map, length_seq|].
  split; [apply (shape2_map2 _ _ d_model (N / 2)), reshape2_shape|].
  split.
  { apply (shape2_map2 _ _ d_model (N / 2)), shape2_map2.
    apply repeat_shape2, repeat_length. }
  split; [|reflexivity].
  apply (shape2_map2 _ _ d_model (N / 2)).
  apply repeat_shape2. unfold torch.arange. apply length_seq.
Qed.

(** X5. Freezing does not change the kernel: constructed from the same
    generator state with two different learning rates (so that the
    tensors are buffers in one kernel and parameters in the other), the
    two kernels have the same poles and [forward] returns the same
    tensor. *)
Theorem kernel_forward_ignores_registration (d_model length N : nat)
        (dt_min dt_max : R) (lr1 lr2 : option R) (g g1 g2 : Generator)
        (k1 k2 : S4DKernel.t) :
  S4DKernel.__init__ d_model length N dt_min dt_max lr1 g = Ok (k1, g1) ->
  S4DKernel.__init__ d_model length N dt_min dt_max lr2 g = Ok (k2, g2) ->
  S4DKernel.poles k1 = S4DKernel.poles k2 /\
  S4DKernel.forward k1 = S4DKernel.forward k2.
Proof.
  intros H1 H2.
  apply kernel_init_inv in H1 as (_ & _ & ->).
  apply kernel_init_inv in H2 as (_ & _ & ->).
  unfold S4DKernel.forward, S4DKernel.poles, kernel_built; simpl.
  now rewrite !tensor_of_register.
Qed.

Lemma kernel_forward_ignores_registration_witness :
  exists k1 k2 g1 g2,
    S4DKernel.__init__ 2 4 4 0.001 0.1 (Some 0) Examples.gen = Ok (k1, g1) /\
    S4DKernel.__init__ 2 4 4 0.001 0.1 None Examples.gen = Ok (k2, g2) /\
    is_buffer (S4DKernel.log_dt k1) = true /\
    is_buffer (S4DKernel.log_dt k2) = false /\
    S4DKernel.forward k1 = S4DKernel.forward k2.
Proof.
  destruct (kernel_init_ok 2 4 4 0.001 0.1 (Some 0) Examples.gen)
    as [g1 H1]; [lra | lra |].
  destruct (kernel_init_ok 2 4 4 0.001 0.1 None Examples.gen)
    as [g2 H2]; [lra | lra |].
  eexists. eexists. exists g1, g2.
  split; [exact H1|]. split; [exact H2|].
  split.
  { unfold kernel_built, S4DKernel.register; simpl.
    destruct (Req_dec_T 0 0) as [_|Hne]; [reflexivity | now contradiction Hne]. }
  split; [reflexivity|].
  apply (kernel_forward_ignores_registration _ _ _ _ _ _ _ _ _ _ _ _ H1 H2).
Defined.

(** X6. A freshly constructed kernel has its poles at
    [-1/2 + i * pi * n]: entry [(h, n)] of the pole matrix is the same in
    every channel, with real part [-exp(log 0.5) = -1/2] and imaginary
    part [pi * n]. *)
Theorem initial_poles (d_model length N : nat) (dt_min dt_max : R)
        (lr : option R) (g g' : Generator) (k : S4DKernel.t) :
  S4DKernel.__init__ d_model length N dt_min dt_max lr g = Ok (k, g') ->
  shape2 (S4DKernel.poles k) d_model (N / 2) /\
  forall h n, (h < d_model)%nat -> (n < N / 2)%nat ->
    Cat2 (S4DKernel.poles k) h n = Cplx (- (1 / 2)) (PI * INR n).
Proof.
  intros Hinit. apply kernel_init_inv in Hinit as (_ & _ & ->).
  destruct (kernel_built_shapes d_model length N dt_min dt_max lr g)
    as (_ & _ & Hre & Him & _).
  split; [now apply poles_shape|].
  intros h n Hh Hn.
  rewrite (poles_entry _ d_model (N / 2)) by assumption.
  unfold KernelSpec.A, at2, kernel_built;
    cbn [S4DKernel.log_A_real S4DKernel.A_imag].
  rewrite !tensor_of_register.
  assert (Hones : shape2 (torch.ones d_model (N / 2)) d_model (N / 2))
    by (apply repeat_shape2, repeat_length).
  rewrite (map2_entry _ _ d_model (N / 2) h n 0)
    by first [assumption | apply shape2_map2; exact Hones].
  rewrite (map2_entry _ _ d_model (N / 2) h n 0)
    by first [assumption | exact Hones].
  assert (Hrows : shape2 (torch.repeat_rows (torch.arange (N / 2)) d_model)
                         d_model (N / 2))
    by (apply repeat_shape2; unfold torch.arange; apply length_seq).
  rewrite (map2_entry _ _ d_model (N / 2) h n 0%nat)
    by first [assumption | exact Hrows].
  unfold torch.ones, torch.repeat_rows, torch.arange, math.pi.
  rewrite !nth_repeat_lt by lia.
  rewrite nth_seq_in by lia. simpl (0 + n)%nat.
  rewrite Rmult_1_r, exp_ln by lra.
  f_equal. lra.
Qed.

Lemma initial_poles_witness :
  exists k g',
    S4DKernel.__init__ 2 4 4 0.001 0.1 None Examples.gen = Ok (k, g') /\
    Cat2 (S4DKernel.poles k) 1 1 = Cplx (- (1 / 2)) (PI * 1).
Proof.
  destruct (kernel_init_ok 2 4 4 0.001 0.1 None Examples.gen)
    as [g' Hinit]; [lra | lra |].
  eexists. exists g'. split; [exact Hinit|].
  destruct (initial_poles _ _ _ _ _ _ _ _ _ Hinit) as [_ Hentry].
  now rewrite (Hentry 1%nat 1%nat) by (simpl; lia).
Defined.

Lemma Cexp_add (z w : complex) : Cexp (Cadd z w) = Cmul (Cexp z) (Cexp w).
Proof.
  unfold Cexp, Cadd, Cmul; simpl.
  rewrite exp_plus, cos_plus, sin_plus. f_equal; ring.
Qed.

Lemma Cexp_0 : Cexp C0 = C1.
Proof.
  unfold Cexp, C0, C1; simpl. rewrite exp_0, cos_0, sin_0. f_equal; ring.
Qed.

Lemma Cmul_INR_S (z : complex) (t : nat) :
  Cmul z (RtoC (INR (S t))) = Cadd z (Cmul z (RtoC (INR t))).
Proof. rewrite S_INR. Ceq. Qed.

Lemma state_closed_form (z Bbar : complex) (t : nat) :
  Recurrence.state (Cexp z) Bbar t
  = Cmul (Cexp (Cmul z (RtoC (INR t)))) Bbar.
Proof.
  induction t as [|t IH].
  - cbn [Recurrence.state].
    replace (Cmul z (RtoC (INR 0))) with C0 by (simpl INR; Ceq).
    rewrite Cexp_0. now rewrite Cmul_1_l.
  - cbn [Recurrence.state]. rewrite IH, Cmul_INR_S, Cexp_add.
    apply Cmul_assoc.
Qed.

Lemma Cdiv_mul_l (c x a : complex) :
  Cdiv (Cmul c x) a = Cmul c (Cdiv x a).
Proof. unfold Cdiv, Cmul; simpl. f_equal; unfold Rdiv; ring. Qed.

(** X7. The kernel is the impulse response of the diagonal linear
    recurrence: on parameters of the constructed shapes, entry [(h, t)] of
    [S4DKernel.forward] is [2 * Re (sum_n C[h,n] * x_t[n])], where the state
    of mode [n] starts at [x_0 = (exp(dtA) - 1) / A] and advances by
    [x_{t+1} = exp(dtA) * x_t]. *)
Theorem kernel_is_impulse_response (self : S4DKernel.t) (H Nh L : nat) :
  Datatypes.length (tensor_of (S4DKernel.log_dt self)) = H ->
  shape2 (tensor_of (S4DKernel.C self)) H Nh ->
  shape2 (tensor_of (S4DKernel.log_A_real self)) H Nh ->
  shape2 (tensor_of (S4DKernel.A_imag self)) H Nh ->
  tensor_of (S4DKernel.length self) = torch.arange L ->
  forall h t, (h < H)%nat -> (t < L)%nat ->
    at2 (S4DKernel.forward self) h t
    = Recurrence.impulse_response
        (tensor_of (S4DKernel.log_dt self))
        (tensor_of (S4DKernel.C self))
        (tensor_of (S4DKernel.log_A_real self))
        (tensor_of (S4DKernel.A_imag self)) Nh h t.
Proof.
  intros Hdt HC Hre Him Hlen h t Hh Ht.
  destruct (kernel_forward_shape_entries self H Nh L Hdt HC Hre Him Hlen)
    as [_ Hentry].
  rewrite Hentry by assumption.
  unfold KernelSpec.kernel, Recurrence.impulse_response.
  f_equal. f_equal. apply Csum_n_ext. intros n _. cbv zeta.
  rewrite state_closed_form. unfold KernelSpec.C'.
  rewrite Cdiv_mul_l, <- Cmul_assoc. f_equal. apply Cmul_comm.
Qed.

Lemma kernel_is_impulse_response_witness :
  at2 (S4DKernel.forward Examples.kernel) 0 1
  = Recurrence.impulse_response [0] [[(1, 0)]] [[0]] [[0]] 1 0 1.
Proof.
  apply (kernel_is_impulse_response Examples.kernel 1 1 2);
    try reflexivity; try lia;
    (split; [reflexivity|repeat constructor]).
Defined.


(** ** The convolution stage: causal, linear, and returning the kernel on
       an impulse *)

Lemma Rsum_n_ext (f g : nat -> R) (n : nat) :
  (forall i, (i < n)%nat -> f i = g i) -> Rsum_n f n = Rsum_n g n.
Proof.
  induction n as [|n IH]; intros Hfg; simpl; [reflexivity|].
  rewrite IH, Hfg; auto.
Qed.

Lemma Rsum_n_linear (a c : R) (f g : nat -> R) (n : nat) :
  Rsum_n (fun i => a * f i + c * g i) n = a * Rsum_n f n + c * Rsum_n g n.
Proof. induction n as [|n IH]; simpl; [ring|]. rewrite IH. ring. Qed.

Lemma convolution_skip_entry (L : nat) (k : Tensor2) (D : Tensor1)
      (u : Tensor3) (B H b h t : nat) :
  shape2 k H L -> Datatypes.length D = H -> shape3 u B H L ->
  (b < B)%nat -> (h < H)%nat -> (t < L)%nat ->
  at3 (S4D.convolution_skip L k D u) b h t
  = ConvSpec.direct k u b h t + at3 u b h t * nth h D 0.
Proof.
  intros Hk HD Hu Hb Hh Ht. unfold S4D.convolution_skip.
  pose proof (convolution_shape L k u B H Hk Hu) as Hy.
  rewrite (skip_entry D u _ B H L) by assumption.
  now rewrite (convolution_entry L k u B H) by assumption.
Qed.

(** X10. The convolution and skip stage of [S4D.forward] is causal and
    acts on each channel of each batch element separately: the output at
    [(b, h, t)] is the same for two inputs of shape [(B, H, L)] that agree
    at [(b, h, s)] for every [s <= t], however they differ elsewhere. *)
Theorem convolution_skip_causal (L : nat) (k : Tensor2) (D : Tensor1)
        (u u' : Tensor3) (B H b h t : nat) :
  shape2 k H L -> Datatypes.length D = H ->
  shape3 u B H L -> shape3 u' B H L ->
  (b < B)%nat -> (h < H)%nat -> (t < L)%nat ->
  (forall s, (s <= t)%nat -> at3 u b h s = at3 u' b h s) ->
  at3 (S4D.convolution_skip L k D u) b h t
  = at3 (S4D.convolution_skip L k D u') b h t.
Proof.
  intros Hk HD Hu Hu' Hb Hh Ht Hagree.
  rewrite !(convolution_skip_entry L k D _ B H) by assumption.
  rewrite (Hagree t) by lia. f_equal.
  unfold ConvSpec.direct. apply Rsum_n_ext.
  intros s Hs. now rewrite Hagree by lia.
Qed.

Lemma convolution_skip_causal_witness :
  at3 (S4D.convolution_skip 2 [[1; 2]] [5] [[[3; 4]]]) 0 0 0
  = at3 (S4D.convolution_skip 2 [[1; 2]] [5] [[[3; 7]]]) 0 0 0.
Proof.
  apply (convolution_skip_causal 2 [[1; 2]] [5] [[[3; 4]]] [[[3; 7]]] 1 1);
    try reflexivity; try lia;
    try (split; [reflexivity|repeat constructor]).
  intros s Hs. now replace s with 0%nat by lia.
Defined.

Lemma zip3_entry {A B D : Type} (f : A -> B -> D)
      (X : list (list (list A))) (Y : list (list (list B)))
      (B0 H L b h t : nat) (dA : A) (dB : B) (dD : D) :
  shape3 X B0 H L -> shape3 Y B0 H L ->
  (b < B0)%nat -> (h < H)%nat -> (t < L)%nat ->
  nth t (nth h (nth b (nn.zip3 f X Y) []) []) dD
  = f (nth t (nth h (nth b X []) []) dA) (nth t (nth h (nth b Y []) []) dB).
Proof.
  intros HX HY Hb Hh Ht. unfold nn.zip3.
  rewrite (nth_zip_with_in _ _ _ _ [] [])
    by (first [rewrite (shape3_length _ _ _ _ HX)
              | rewrite (shape3_length _ _ _ _ HY)]; lia).
  apply (zip2_entry _ _ _ H L); try assumption;
    eapply shape3_batch; eauto.
Qed.

(** X11. The convolution and skip stage is linear in its input: for two
    inputs of shape [(B, H, L)] and any weights [a], [c], the output for
    [a * u1 + c * u2] is [a] times the output for [u1] plus [c] times the
    output for [u2], at every index. *)
Theorem convolution_skip_linear (L : nat) (k : Tensor2) (D : Tensor1)
        (u1 u2 : Tensor3) (a c : R) (B H : nat) :
  shape2 k H L -> Datatypes.length D = H ->
  shape3 u1 B H L -> shape3 u2 B H L ->
  forall b h t, (b < B)%nat -> (h < H)%nat -> (t < L)%nat ->
    at3 (S4D.convolution_skip L k D
           (nn.zip3 (fun x y => a * x + c * y) u1 u2)) b h t
    = a * at3 (S4D.convolution_skip L k D u1) b h t
      + c * at3 (S4D.convolution_skip L k D u2) b h t.
Proof.
  intros Hk HD Hu1 Hu2 b h t Hb Hh Ht.
  pose proof (zip3_shape (fun x y => a * x + c * y) u1 u2 B H L Hu1 Hu2)
    as Hu.
  rewrite !(convolution_skip_entry L k D _ B H) by assumption.
  unfold ConvSpec.direct.
  assert (Hz : forall s, (s < L)%nat ->
            at3 (nn.zip3 (fun x y => a * x + c * y) u1 u2) b h s
            = a * at3 u1 b h s + c * at3 u2 b h s).
  { intros s Hs. unfold at3.
    now rewrite (zip3_entry _ u1 u2 B H L b h s 0 0 0) by assumption. }
  rewrite (Hz t) by assumption.
  rewrite (Rsum_n_ext _ (fun s => a * (at2 k h s * at3 u1 b h (t - s))
                                  + c * (at2 k h s * at3 u2 b h (t - s)))).
  - rewrite Rsum_n_linear. ring.
  - intros s Hs. rewrite Hz by lia. ring.
Qed.

Lemma convolution_skip_linear_witness :
  at3 (S4D.convolution_skip 2 [[1; 2]] [5]
         (nn.zip3 (fun x y => 2 * x + 3 * y) [[[3; 4]]] [[[1; 0]]])) 0 0 1
  = 2 * at3 (S4D.convolution_skip 2 [[1; 2]] [5] [[[3; 4]]]) 0 0 1
    + 3 * at3 (S4D.convolution_skip 2 [[1; 2]] [5] [[[1; 0]]]) 0 0 1.
Proof.
  apply (convolution_skip_linear 2 [[1; 2]] [5] [[[3; 4]]] [[[1; 0]]] 2 3
           1 1);
    try reflexivity; try lia;
    (split; [reflexivity|repeat constructor]).
Defined.

Lemma Rsum_n_single (f : nat -> R) (n k : nat) :
  (k < n)%nat -> (forall i, (i < n)%nat -> i <> k -> f i = 0) ->
  Rsum_n f n = f k.
Proof.
  revert k. induction n as [|n IH]; intros k Hk Hf; [lia|]. simpl.
  destruct (Nat.eq_dec k n) as [->|Hne].
  - rewrite Rsum_n_all_zero by (intros i Hi; apply Hf; lia). ring.
  - rewrite (IH k) by (try lia; intros i Hi Hik; apply Hf; lia).
    rewrite (Hf n) by lia. ring.
Qed.

(** X12. Fed a unit impulse, the convolution stage returns the kernel: if
    channel [h] of batch element [b] of an input of shape [(B, H, L)] is
    [1, 0, ..., 0], the convolution output at [(b, h, t)] is [k[h, t]],
    and the stage with the skip term adds [D[h]] at [t = 0] only. *)
Theorem convolution_impulse_response (L : nat) (k : Tensor2) (D : Tensor1)
        (u : Tensor3) (B H b h : nat) :
  shape2 k H L -> Datatypes.length D = H -> shape3 u B H L ->
  (b < B)%nat -> (h < H)%nat ->
  at3 u b h 0 = 1 ->
  (forall s, (0 < s)%nat -> at3 u b h s = 0) ->
  forall t, (t < L)%nat ->
    at3 (S4D.convolution L k u) b h t = at2 k h t /\
    at3 (S4D.convolution_skip L k D u) b h t
    = at2 k h t + (if (t =? 0)%nat then nth h D 0 else 0).
Proof.
  intros Hk HD Hu Hb Hh H0 Hrest t Ht.
  assert (Hdirect : ConvSpec.direct k u b h t = at2 k h t).
  { unfold ConvSpec.direct.
    rewrite (Rsum_n_single _ (S t) t).
    - rewrite Nat.sub_diag, H0. ring.
    - lia.
    - intros s Hs Hne. rewrite Hrest by lia. ring. }
  split.
  - now rewrite (convolution_entry L k u B H) by assumption.
  - rewrite (convolution_skip_entry L k D u B H) by assumption.
    rewrite Hdirect. f_equal.
    destruct (Nat.eqb_spec t 0) as [->|Hne].
    + rewrite H0. ring.
    + rewrite Hrest by lia. ring.
Qed.

Lemma convolution_impulse_response_witness :
  at3 (S4D.convolution 2 [[7; 9]] [[[1; 0]]]) 0 0 1 = 9.
Proof.
  destruct (convolution_impulse_response 2 [[7; 9]] [5] [[[1; 0]]] 1 1 0 0)
    with (t := 1%nat) as [Hc _];
    try reflexivity; try lia;
    try (split; [reflexivity|repeat constructor]).
  - intros [|[|[|s]]] Hs; [lia|reflexivity|reflexivity|reflexivity].
  - exact Hc.
Defined.

(** ** [S4D.forward]: both layouts keep the shape *)

(** X13. [S4D.forward] keeps the shape of its input in both layouts, in
    training and in evaluation mode, and its state slot is always [None]:
    a layer with tensors of the constructed shapes for [H > 0] channels
    and length [L > 0] maps an input of shape [(B, H, L)] to an output of
    shape [(B, H, L)] when [transposed] is set, and an input of shape
    [(B, L, H)] to an output of shape [(B, L, H)] when it is not. *)
Theorem S4D_forward_keeps_shape (self : S4D.t) (u : Tensor3) (B H L : nat)
        (g : Generator) :
  S4D.length self = L ->
  Constructed.kernel (S4D.kernel self) H L ->
  Datatypes.length (tensor_of (S4D.D self)) = H ->
  Constructed.conv1d (S4D.output_linear self) H (2 * H) ->
  (0 < H)%nat -> (0 < L)%nat ->
  (if S4D.transposed self then shape3 u B H L else shape3 u B L H) ->
  exists y g',
    S4D.forward self u g = Ok ((y, None), g') /\
    (if S4D.transposed self then shape3 y B H L else shape3 y B L H).
Proof.
  intros Hlen Hker HD Hconv HH HL Hu.
  destruct (S4D.transposed self) eqn:Htr.
  - apply S4D_forward_shape; [|assumption|assumption].
    unfold Constructed.layer. auto.
  - set (self' := S4D.Build true (S4D.D self) (S4D.length self)
                    (S4D.kernel self) (S4D.activation self)
                    (S4D.dropout self) (S4D.output_linear self)).
    assert (Hself' : Constructed.layer self' H L)
      by (unfold Constructed.layer, self'; simpl; auto).
    pose proof (transpose_shape u B L H Hu HL) as Hut.
    destruct (S4D_forward_shape self' (torch.transpose u) B H L g Hself' Hut HH)
      as (y & g' & Hfwd & Hy).
    unfold S4D.forward in Hfwd |- *. rewrite Htr.
    unfold self' in Hfwd; simpl in Hfwd.
    apply bind_inv in Hfwd as (yd & g1 & Hdrop & Hret).
    unfold ret in Hret. injection Hret as <- <-.
    erewrite bind_ok by exact Hdrop.
    unfold ret. eexists. eexists. split; [reflexivity|].
    now apply transpose_shape.
Qed.

Lemma S4D_forward_keeps_shape_witness :
  exists y g',
    S4D.forward Examples.layer [[[1; 2]]] Examples.gen = Ok ((y, None), g') /\
    shape3 y 1 1 2.
Proof.
  apply (S4D_forward_keeps_shape Examples.layer [[[1; 2]]] 1 1 2 Examples.gen);
    try reflexivity; try lia.
  - exists 1%nat. repeat split; repeat constructor.
  - split; [split; [reflexivity|]|reflexivity].
    repeat constructor.
  - simpl. split; [reflexivity|]. repeat constructor.
Defined.

(** ** Evaluation mode treats every batch element on its own *)

Lemma batchwise_map {A B : Type} (f : A -> B) : batchwise (map f).
Proof. now exists f. Qed.

Lemma batchwise_id {A : Type} : batchwise (fun x : list A => x).
Proof. exists (fun a => a). intros x. now rewrite map_id. Qed.

Lemma batchwise_comp {A B D : Type} (F : list A -> list B)
      (G : list B -> list D) :
  batchwise F -> batchwise G -> batchwise (fun x => G (F x)).
Proof.
  intros [f Hf] [g0 Hg]. exists (fun a => g0 (f a)).
  intros x. now rewrite Hf, Hg, map_map.
Qed.

Lemma batchwise_zip_with {A B D E : Type} (h : B -> D -> E)
      (F : list A -> list B) (G : list A -> list D) :
  batchwise F -> batchwise G -> batchwise (fun x => zip_with h (F x) (G x)).
Proof.
  intros [f Hf] [g0 Hg]. exists (fun a => h (f a) (g0 a)).
  intros x. now rewrite Hf, Hg, zip_with_map_same.
Qed.

Lemma batchwise_if {A B : Type} (c : bool) (F G : list A -> list B) :
  batchwise F -> batchwise G -> batchwise (fun x => if c then F x else G x).
Proof. now destruct c. Qed.

Lemma batchwise_transpose : batchwise torch.transpose.
Proof. apply batchwise_map. Qed.

Lemma batchwise_norm_channels (norm : nn.LayerNorm.t) :
  batchwise (S4Model.norm_channels norm).
Proof.
  unfold S4Model.norm_channels, nn.LayerNorm.forward.
  apply (batchwise_comp (fun z => map (map (nn.LayerNorm.apply norm))
                                      (torch.transpose z))
                        torch.transpose); [|apply batchwise_transpose].
  apply (batchwise_comp torch.transpose
                        (map (map (nn.LayerNorm.apply norm))));
    [apply batchwise_transpose | apply batchwise_map].
Qed.

Lemma batchwise_convolution_skip (L : nat) (k : Tensor2) (D : Tensor1) :
  batchwise (fun u => S4D.skip D u (S4D.convolution L k u)).
Proof.
  unfold S4D.skip, nn.zip3.
  apply (batchwise_zip_with (torch.zip2 Rplus)
           (S4D.convolution L k)
           (map (fun u_b => torch.zip_rows Rmult u_b D)));
    [|apply batchwise_map].
  unfold S4D.convolution, nn.map3'. cbv zeta.
  exists (fun u_b =>
            map (fun y_f_bh => firstn L (torch.fft.irfft y_f_bh (2 * L)))
                (torch.zip2 Cmul
                   (map (fun u_bh => torch.fft.rfft u_bh (2 * L)) u_b)
                   (map (fun k_h => torch.fft.rfft k_h (2 * L)) k))).
  intros u. now rewrite !map_map.
Qed.

Lemma S4D_forward_eval_batchwise (self : S4D.t) :
  S4D.training self = false ->
  exists F, batchwise F /\
            forall u g, S4D.forward self u g = Ok ((F u, None), g).
Proof.
  intros Hev.
  exists (fun u =>
            (fun y => if S4D.transposed self then y else torch.transpose y)
              (nn.GLU
                 (nn.Conv1d.forward (S4D.output_linear self)
                    (nn.map3 (S4D.activation self)
                       ((fun u' =>
                           S4D.skip (tensor_of (S4D.D self)) u'
                             (S4D.convolution (S4D.length self)
                                (S4DKernel.forward (S4D.kernel self)) u'))
                          (if S4D.transposed self then u
                           else torch.transpose u)))))).
  split.
  - apply (batchwise_comp
             (fun u => nn.GLU
                 (nn.Conv1d.forward (S4D.output_linear self)
                    (nn.map3 (S4D.activation self)
                       ((fun u' =>
                           S4D.skip (tensor_of (S4D.D self)) u'
                             (S4D.convolution (S4D.length self)
                                (S4DKernel.forward (S4D.kernel self)) u'))
                          (if S4D.transposed self then u
                           else torch.transpose u)))))
             (fun y => if S4D.transposed self then y else torch.transpose y)).
    + apply (batchwise_comp
               (fun u => nn.Conv1d.forward (S4D.output_linear self)
                    (nn.map3 (S4D.activation self)
                       ((fun u' =>
                           S4D.skip (tensor_of (S4D.D self)) u'
                             (S4D.convolution (S4D.length self)
                                (S4DKernel.forward (S4D.kernel self)) u'))
                          (if S4D.transposed self then u
                           else torch.transpose u))))
               nn.GLU); [|apply batchwise_map].
      apply (batchwise_comp
               (fun u => nn.map3 (S4D.activation self)
                       ((fun u' =>
                           S4D.skip (tensor_of (S4D.D self)) u'
                             (S4D.convolution (S4D.length self)
                                (S4DKernel.forward (S4D.kernel self)) u'))
                          (if S4D.transposed self then u
                           else torch.transpose u)))
               (nn.Conv1d.forward (S4D.output_linear self)));
        [|apply batchwise_map].
      apply (batchwise_comp
               (fun u => (fun u' =>
                           S4D.skip (tensor_of (S4D.D self)) u'
                             (S4D.convolution (S4D.length self)
                                (S4DKernel.forward (S4D.kernel self)) u'))
                          (if S4D.transposed self then u
                           else torch.transpose u))
               (nn.map3 (S4D.activation self))); [|apply batchwise_map].
      apply (batchwise_comp
               (fun u => if S4D.transposed self then u else torch.transpose u)
               (fun u' =>
                  S4D.skip (tensor_of (S4D.D self)) u'
                    (S4D.convolution (S4D.length self)
                       (S4DKernel.forward (S4D.kernel self)) u')));
        [|apply batchwise_convolution_skip].
      apply batchwise_if; [apply batchwise_id | apply batchwise_transpose].
    + apply batchwise_if; [apply batchwise_id | apply batchwise_transpose].
  - intros u g. unfold S4D.forward.
    erewrite bind_ok by (apply Dropout1d_forward_eval; exact Hev).
    reflexivity.
Qed.

Lemma layers_loop_eval_batchwise (prenorm : bool)
      (layers : list (S4D.t * nn.LayerNorm.t * nn.Dropout1d.t)) :
  Forall (fun l => S4D.training (fst (fst l)) = false /\
                   nn.Dropout1d.training (snd l) = false) layers ->
  exists F, batchwise F /\
            forall x g, S4Model.layers_loop prenorm layers x g = Ok (F x, g).
Proof.
  induction 1 as [|[[layer norm] drop] rest [Hl Hd] Hrest IH].
  - exists (fun x => x). split; [apply batchwise_id|]. reflexivity.
  - simpl in Hl, Hd.
    destruct (S4D_forward_eval_batchwise layer Hl) as (Fl & HFl & Hfwd).
    destruct IH as (Fr & HFr & Hloop).
    set (pre := fun x : Tensor3 =>
                  if prenorm then S4Model.norm_channels norm x else x).
    set (res := fun x : Tensor3 => nn.zip3 Rplus (Fl (pre x)) x).
    set (post := fun x : Tensor3 =>
                   if prenorm then x else S4Model.norm_channels norm x).
    exists (fun x => Fr (post (res x))).
    assert (Hpre : batchwise pre)
      by (apply batchwise_if;
          [apply batchwise_norm_channels | apply batchwise_id]).
    assert (Hres : batchwise res).
    { unfold res, nn.zip3.
      apply (batchwise_zip_with (torch.zip2 Rplus)
               (fun x => Fl (pre x)) (fun x => x));
        [|apply batchwise_id].
      now apply (batchwise_comp pre Fl). }
    assert (Hpost : batchwise post)
      by (apply batchwise_if;
          [apply batchwise_id | apply batchwise_norm_channels]).
    split.
    + apply (batchwise_comp (fun x => post (res x)) Fr); [|assumption].
      now apply (batchwise_comp res post).
    + intros x g. cbn [S4Model.layers_loop].
      erewrite bind_ok by apply Hfwd. cbn [fst].
      erewrite bind_ok by (apply Dropout1d_forward_eval; exact Hd).
      apply Hloop.
Qed.

(** X14. In evaluation mode [S4Model.forward] treats every batch element
    on its own: there is one function of a single [(d_input, L)] sample,
    fixed by the model, such that for every batch the output is that
    function applied to each element in turn.  Row [b] of the output
    therefore depends on element [b] of the input alone, not on its
    neighbours in the batch nor on the batch size. *)
Theorem eval_forward_batchwise (m : S4Model.t) :
  S4Model.in_eval_mode m = true ->
  exists f : list (list R) -> list R,
    forall (x : Tensor3) (g : Generator),
      S4Model.forward m x g = Ok (map f x, g).
Proof.
  intros Hev.
  destruct (layers_loop_eval_batchwise (S4Model.prenorm m) _
              (eval_mode_layers m Hev)) as (Fl & HFl & Hloop).
  assert (Hall : batchwise
            (fun x => nn.Linear.forward2 (S4Model.decoder m)
                        (S4Model.mean_dim1
                           (torch.transpose
                              (Fl (torch.transpose
                                     (nn.Linear.forward3 (S4Model.encoder m)
                                        (torch.transpose x)))))))).
  { apply (batchwise_comp
             (fun x => S4Model.mean_dim1
                         (torch.transpose
                            (Fl (torch.transpose
                                   (nn.Linear.forward3 (S4Model.encoder m)
                                      (torch.transpose x))))))
             (nn.Linear.forward2 (S4Model.decoder m)));
      [|apply batchwise_map].
    apply (batchwise_comp
             (fun x => torch.transpose
                         (Fl (torch.transpose
                                (nn.Linear.forward3 (S4Model.encoder m)
                                   (torch.transpose x)))))
             S4Model.mean_dim1); [|apply batchwise_map].
    apply (batchwise_comp
             (fun x => Fl (torch.transpose
                             (nn.Linear.forward3 (S4Model.encoder m)
                                (torch.transpose x))))
             torch.transpose); [|apply batchwise_transpose].
    apply (batchwise_comp
             (fun x => torch.transpose
                         (nn.Linear.forward3 (S4Model.encoder m)
                            (torch.transpose x)))
             Fl); [|assumption].
    apply (batchwise_comp
             (fun x => nn.Linear.forward3 (S4Model.encoder m)
                         (torch.transpose x))
             torch.transpose); [|apply batchwise_transpose].
    apply (batchwise_comp torch.transpose
             (nn.Linear.forward3 (S4Model.encoder m)));
      [apply batchwise_transpose | apply batchwise_map]. }
  destruct Hall as [f Hf]. exists f. intros x g.
  unfold S4Model.forward.
  erewrite bind_ok by apply Hloop.
  unfold ret. now rewrite <- Hf.
Qed.

Lemma eval_forward_batchwise_witness :
  exists f : list (list R) -> list R,
    forall (x : Tensor3) (g : Generator),
      S4Model.forward Examples.model x g = Ok (map f x, g).
Proof.
  apply (eval_forward_batchwise Examples.model). reflexivity.
Defined.

(** ** [DropoutNd.forward] in training mode *)

Lemma tensor3_ext {A : Type} (d : A) (X Y : list (list (list A)))
      (B H L : nat) :
  shape3 X B H L -> shape3 Y B H L ->
  (forall b h t, (b < B)%nat -> (h < H)%nat -> (t < L)%nat ->
     nth t (nth h (nth b X []) []) d = nth t (nth h (nth b Y []) []) d) ->
  X = Y.
Proof.
  intros HX HY Hent.
  pose proof (shape3_length _ _ _ _ HX) as HlX.
  pose proof (shape3_length _ _ _ _ HY) as HlY.
  apply (nth_ext _ _ [] []); [lia|]. intros b Hb.
  pose proof (shape3_batch _ _ _ _ b HX ltac:(lia)) as HXb.
  pose proof (shape3_batch _ _ _ _ b HY ltac:(lia)) as HYb.
  apply (nth_ext _ _ [] []);
    [rewrite (shape2_length _ _ _ HXb), (shape2_length _ _ _ HYb); lia|].
  intros h Hh. rewrite (shape2_length _ _ _ HXb) in Hh.
  apply (nth_ext _ _ d d);
    [rewrite (shape2_row _ _ _ h HXb), (shape2_row _ _ _ h HYb); lia|].
  intros t Ht. rewrite (shape2_row _ _ _ h HXb) in Ht by lia.
  apply Hent; lia.
Qed.

Lemma transpose_entry (X : Tensor3) (B H L b h l : nat) :
  shape3 X B H L -> (0 < H)%nat ->
  (b < B)%nat -> (h < H)%nat -> (l < L)%nat ->
  at3 (torch.transpose X) b l h = at3 X b h l.
Proof.
  intros HX HH Hb Hh Hl. unfold at3, torch.transpose.
  pose proof (shape3_batch _ _ _ _ b HX Hb) as HXb.
  rewrite (nth_map_in _ _ _ [])
    by (rewrite (shape3_length _ _ _ _ HX); lia).
  unfold torch.transpose2. rewrite (dim1_shape2 _ H L HXb HH).
  rewrite (nth_map_in _ _ _ 0%nat) by (rewrite length_seq; lia).
  rewrite nth_seq_in by lia. simpl (0 + l)%nat.
  apply (nth_map_in (fun row => nth l row 0)).
  rewrite (shape2_length _ _ _ HXb). lia.
Qed.

Lemma transpose_involutive (X : Tensor3) (B H L : nat) :
  shape3 X B H L -> (0 < H)%nat -> (0 < L)%nat ->
  torch.transpose (torch.transpose X) = X.
Proof.
  intros HX HH HL.
  pose proof (transpose_shape X B H L HX HH) as HT.
  pose proof (transpose_shape _ B L H HT HL) as HTT.
  apply (tensor3_ext 0 _ _ B H L); try assumption.
  intros b h t Hb Hh Ht.
  change (at3 (torch.transpose (torch.transpose X)) b h t = at3 X b h t).
  rewrite (transpose_entry _ B L H) by assumption.
  now apply (transpose_entry X B H L).
Qed.

Lemma reshape2_entry {A : Type} (H W : nat) (flat : nat -> A) (d : A)
      (h w : nat) :
  (h < H)%nat -> (w < W)%nat ->
  nth w (nth h (torch.reshape2 H W flat) []) d = flat (h * W + w)%nat.
Proof.
  intros Hh Hw. unfold torch.reshape2.
  rewrite (nth_map_in _ _ _ 0%nat) by (rewrite length_seq; lia).
  rewrite nth_seq_in by lia.
  rewrite (nth_map_in _ _ _ 0%nat) by (rewrite length_seq; lia).
  now rewrite nth_seq_in by lia.
Qed.

Lemma reshape3_shape {A : Type} (B H W : nat) (flat : nat -> A) :
  shape3 (torch.reshape3 B H W flat) B H W.
Proof.
  unfold torch.reshape3. split; [now rewrite length_map, length_seq|].
  apply Forall_forall. intros Xb Hin.
  apply list_elem_of_In, in_map_iff in Hin as (b & <- & _).
  apply reshape2_shape.
Qed.

Lemma reshape3_entry {A : Type} (B H W : nat) (flat : nat -> A) (d : A)
      (b h w : nat) :
  (b < B)%nat -> (h < H)%nat -> (w < W)%nat ->
  nth w (nth h (nth b (torch.reshape3 B H W flat) []) []) d
  = flat (b * (H * W) + (h * W + w))%nat.
Proof.
  intros Hb Hh Hw. unfold torch.reshape3.
  rewrite (nth_map_in _ _ _ 0%nat) by (rewrite length_seq; lia).
  rewrite nth_seq_in by lia.
  now rewrite reshape2_entry by assumption.
Qed.

(** The tied mask: one sample per [(b, d)], whatever [t]. *)
Lemma tied_mask_entry (f : R -> R -> R) (X : Tensor3) (flat : nat -> R)
      (B D L b d t : nat) :
  shape3 X B D L -> (b < B)%nat -> (d < D)%nat -> (t < L)%nat ->
  at3 (zip_with (torch.zip_rows f) X
         (torch.reshape2 (Datatypes.length X) (torch.dim1 X) flat)) b d t
  = f (at3 X b d t) (flat (b * D + d)%nat).
Proof.
  intros HX Hb Hd Ht. unfold at3.
  rewrite (shape3_length _ _ _ _ HX), (dim1_shape3 X B D L HX) by lia.
  pose proof (reshape2_shape B D flat) as HU.
  rewrite (nth_zip_with_in _ _ _ _ [] [])
    by (first [rewrite (shape3_length _ _ _ _ HX)
              | rewrite (shape2_length _ _ _ HU)]; lia).
  rewrite (zip_rows_entry _ _ _ D L d t 0 0);
    [|eapply shape3_batch; eauto
     |apply (shape2_row _ _ _ b HU); lia | assumption | assumption].
  now rewrite reshape2_entry by assumption.
Qed.

Lemma tied_mask_shape (f : R -> R -> R) (X : Tensor3) (flat : nat -> R)
      (B D L : nat) :
  shape3 X B D L ->
  shape3 (zip_with (torch.zip_rows f) X
            (torch.reshape2 (Datatypes.length X) (torch.dim1 X) flat))
         B D L.
Proof.
  intros HX.
  pose proof (shape3_length _ _ _ _ HX) as HlX.
  pose proof (reshape2_shape (Datatypes.length X) (torch.dim1 X) flat) as HU.
  apply shape3_intro.
  - rewrite length_zip_with, (shape2_length _ _ _ HU). lia.
  - intros b Hb.
    rewrite (nth_zip_with_in _ _ _ _ [] [])
      by (try rewrite (shape2_length _ _ _ HU); lia).
    apply shape2_zip_rows; [eapply shape3_batch; eauto|].
    rewrite (shape2_row _ _ _ b HU) by lia.
    apply (dim1_shape3 X B D L HX). lia.
Qed.

(** X15. The tied mask of [DropoutNd]: in training mode with [tie] set
    (and the [(batch, dim, length)] layout), [forward] keeps the shape of
    an input of shape [(B, D, L)] and decides once per channel [(b, d)]:
    either every position of the channel is zeroed, or every position is
    the input scaled by [1 / (1 - p)]. *)
Theorem DropoutNd_tied_mask (self : DropoutNd.t) (X : Tensor3) (B D L : nat)
        (g : Generator) :
  DropoutNd.training self = true -> DropoutNd.tie self = true ->
  DropoutNd.transposed self = true ->
  shape3 X B D L ->
  exists Y g',
    DropoutNd.forward self X g = Ok (Y, g') /\
    shape3 Y B D L /\
    forall b d, (b < B)%nat -> (d < D)%nat ->
      (forall t, (t < L)%nat -> at3 Y b d t = 0) \/
      (forall t, (t < L)%nat ->
         at3 Y b d t = at3 X b d t * (1 / (1 - DropoutNd.p self))).
Proof.
  intros Htrain Htie Htr HX. unfold DropoutNd.forward.
  rewrite Htrain, Htie, Htr.
  unfold bind, torch.rand2, ret.
  eexists. eexists. split; [reflexivity|].
  split; [now apply tied_mask_shape|].
  intros b d Hb Hd.
  unfold DropoutNd.mask.
  destruct (Rlt_dec (uniform g (b * D + d)) (1 - DropoutNd.p self))
    as [Hkeep|Hdrop].
  - right. intros t Ht.
    rewrite (tied_mask_entry _ X _ B D L) by assumption.
    destruct (Rlt_dec (uniform g (b * D + d)) (1 - DropoutNd.p self));
      [ring | contradiction].
  - left. intros t Ht.
    rewrite (tied_mask_entry _ X _ B D L) by assumption.
    destruct (Rlt_dec (uniform g (b * D + d)) (1 - DropoutNd.p self));
      [contradiction | ring].
Qed.

Lemma DropoutNd_tied_mask_witness :
  exists Y g',
    DropoutNd.forward (DropoutNd.Build 0.5 true true true) [[[1; 2]]]
                      Examples.gen = Ok (Y, g') /\
    shape3 Y 1 1 2.
Proof.
  destruct (DropoutNd_tied_mask (DropoutNd.Build 0.5 true true true)
              [[[1; 2]]] 1 1 2 Examples.gen)
    as (Y & g' & Hfwd & Hshape & _); try reflexivity.
  - split; [reflexivity|]. repeat constructor.
  - exists Y, g'. auto.
Defined.

Lemma untied_mask_shape (X : Tensor3) (flat : nat -> R) (B D L : nat) :
  shape3 X B D L ->
  shape3 (torch.reshape3 (Datatypes.length X) (torch.dim1 X) (torch.dim2 X)
            flat) B D L.
Proof.
  intros HX. pose proof (shape3_length _ _ _ _ HX) as HlX.
  destruct X as [|Xb X'].
  - simpl in *. subst B. split; [reflexivity|constructor].
  - assert (HB : (0 < B)%nat) by (simpl in HlX; lia).
    pose proof (shape3_batch _ _ _ _ 0%nat HX HB) as HXb. simpl in HXb.
    rewrite HlX. change (torch.dim1 (Xb :: X')) with (Datatypes.length Xb).
    rewrite (shape2_length _ _ _ HXb).
    change (torch.dim2 (Xb :: X')) with (torch.dim1 Xb).
    destruct (Nat.eq_dec D 0%nat) as [->|HD].
    + pose proof (reshape3_shape B 0%nat (torch.dim1 Xb) flat) as [Hl Hall].
      split; [exact Hl|].
      eapply Forall_impl; [exact Hall|]. simpl.
      intros U [HU _]. split; [exact HU|].
      destruct U; [constructor | discriminate].
    + rewrite (dim1_shape2 Xb D L HXb) by lia. apply reshape3_shape.
Qed.

Lemma keep_all_at_zero (x u : R) :
  0 <= u < 1 -> x * DropoutNd.mask 0 u * (1 / (1 - 0)) = x.
Proof.
  intros Hu. unfold DropoutNd.mask.
  destruct (Rlt_dec u (1 - 0)); [field | lra].
Qed.

Lemma DropoutNd_zero_core (tie : bool) (X : Tensor3) (B D L : nat)
      (g : Generator) :
  Generator_ok g -> shape3 X B D L ->
  (if tie
   then zip_with
          (torch.zip_rows
             (fun x u => x * DropoutNd.mask 0 u * (1 / (1 - 0))))
          X (torch.reshape2 (Datatypes.length X) (torch.dim1 X) (uniform g))
   else nn.zip3 (fun x u => x * DropoutNd.mask 0 u * (1 / (1 - 0)))
          X (torch.reshape3 (Datatypes.length X) (torch.dim1 X)
               (torch.dim2 X) (uniform g)))
  = X.
Proof.
  intros Hg HX. destruct tie.
  - apply (tensor3_ext 0 _ _ B D L); [now apply tied_mask_shape|assumption|].
    intros b d t Hb Hd Ht.
    change (at3 (zip_with
                   (torch.zip_rows
                      (fun x u => x * DropoutNd.mask 0 u * (1 / (1 - 0))))
                   X (torch.reshape2 (Datatypes.length X) (torch.dim1 X)
                        (uniform g))) b d t = at3 X b d t).
    rewrite (tied_mask_entry _ X _ B D L) by assumption.
    apply keep_all_at_zero, Hg.
  - pose proof (untied_mask_shape X (uniform g) B D L HX) as HU.
    apply (tensor3_ext 0 _ _ B D L);
      [now apply zip3_shape|assumption|].
    intros b d t Hb Hd Ht.
    rewrite (zip3_entry _ X _ B D L b d t 0 0 0) by assumption.
    assert (Hin : exists i,
              nth t (nth d (nth b
                (torch.reshape3 (Datatypes.length X) (torch.dim1 X)
                   (torch.dim2 X) (uniform g)) []) []) 0 = uniform g i).
    { rewrite (shape3_length _ _ _ _ HX), (dim1_shape3 X B D L HX) by lia.
      assert (Hd2 : torch.dim2 X = L).
      { destruct X as [|Xb X']; [simpl in HX; destruct HX; simpl in *; lia|].
        pose proof (shape3_batch _ _ _ _ 0%nat HX ltac:(lia)) as HXb.
        simpl in HXb. apply (dim1_shape2 Xb D L HXb). lia. }
      rewrite Hd2, reshape3_entry by assumption. eauto. }
    destruct Hin as [i ->]. apply keep_all_at_zero, Hg.
Qed.

(** X16. With probability 0, [DropoutNd.forward] is the identity in
    training mode too: for uniform samples in [[0, 1)] the mask
    [rand < 1.0] keeps every entry and the scale is [1 / (1 - 0)], so the
    input comes back unchanged, with the tied and with the untied mask,
    and in both layouts (for the [(batch, length, dim)] layout the two
    rearrangements cancel, on axes that are not empty). *)
Theorem DropoutNd_zero_is_identity (self : DropoutNd.t) (X : Tensor3)
        (B D1 D2 : nat) (g : Generator) :
  DropoutNd.training self = true -> DropoutNd.p self = 0 ->
  Generator_ok g -> shape3 X B D1 D2 ->
  (DropoutNd.transposed self = false -> (0 < D1)%nat /\ (0 < D2)%nat) ->
  exists g', DropoutNd.forward self X g = Ok (X, g').
Proof.
  intros Htrain Hp Hg HX Hpos. unfold DropoutNd.forward.
  rewrite Htrain, Hp.
  destruct (DropoutNd.transposed self) eqn:Htr.
  - destruct (DropoutNd.tie self) eqn:Htie.
    + unfold bind, torch.rand2, ret.
      rewrite (DropoutNd_zero_core true X B D1 D2 g Hg HX). eauto.
    + unfold bind, torch.rand3, ret.
      rewrite (DropoutNd_zero_core false X B D1 D2 g Hg HX). eauto.
  - destruct (Hpos eq_refl) as [HD1 HD2].
    pose proof (transpose_shape X B D1 D2 HX HD1) as HXt.
    destruct (DropoutNd.tie self) eqn:Htie.
    + unfold bind, torch.rand2, ret.
      rewrite (DropoutNd_zero_core true _ B D2 D1 g Hg HXt).
      rewrite (transpose_involutive X B D1 D2) by assumption. eauto.
    + unfold bind, torch.rand3, ret.
      rewrite (DropoutNd_zero_core false _ B D2 D1 g Hg HXt).
      rewrite (transpose_involutive X B D1 D2) by assumption. eauto.
Qed.

Lemma DropoutNd_zero_is_identity_witness :
  exists g',
    DropoutNd.forward (DropoutNd.Build 0 false false true) [[[1; 2]]]
                      Examples.gen = Ok ([[[1; 2]]], g').
Proof.
  apply (DropoutNd_zero_is_identity (DropoutNd.Build 0 false false true)
           [[[1; 2]]] 1 1 2 Examples.gen); try reflexivity.
  - intros i. simpl. lra.
  - split; [reflexivity|]. repeat constructor.
  - intros _. lia.
Defined.

(** ** More on the kernel at construction and on the convolution *)

(** X17. The step sizes of a fresh kernel lie between the bounds: with
    uniform samples in [[0, 1)] and [dt_min <= dt_max], the tensor
    [dt = exp(log_dt)] that [forward] computes from a kernel returned by
    [S4DKernel.__init__] has every entry in [[dt_min, dt_max]]. *)
Theorem initial_step_sizes (d_model length N : nat) (dt_min dt_max : R)
        (lr : option R) (g g' : Generator) (k : S4DKernel.t) :
  Generator_ok g -> dt_min <= dt_max ->
  S4DKernel.__init__ d_model length N dt_min dt_max lr g = Ok (k, g') ->
  Datatypes.length (map exp (tensor_of (S4DKernel.log_dt k))) = d_model /\
  Forall (fun d => dt_min <= d <= dt_max)
         (map exp (tensor_of (S4DKernel.log_dt k))).
Proof.
  intros Hg Hle Hinit.
  apply kernel_init_inv in Hinit as (Hmin & Hmax & ->).
  unfold kernel_built; cbn [S4DKernel.log_dt].
  rewrite tensor_of_register.
  split; [now rewrite !length_map, length_seq|].
  rewrite !map_map. apply Forall_forall. intros d Hd.
  apply list_elem_of_In, in_map_iff in Hd as (i & <- & _).
  pose proof (log_dt_in_range dt_min dt_max (uniform g i) Hmin Hle (Hg i))
    as [Hlo Hhi].
  set (x := uniform g i * (ln dt_max - ln dt_min) + ln dt_min) in *.
  assert (H1 : exp (ln dt_min) <= exp x)
    by (destruct Hlo as [Hlt | Heq];
        [left; now apply exp_increasing | right; now f_equal]).
  assert (H2 : exp x <= exp (ln dt_max))
    by (destruct Hhi as [Hlt | Heq];
        [left; now apply exp_increasing | right; now f_equal]).
  rewrite exp_ln in H1, H2 by assumption. split; assumption.
Qed.

Lemma initial_step_sizes_witness :
  exists k g',
    S4DKernel.__init__ 2 4 4 0.001 0.1 None Examples.gen = Ok (k, g') /\
    Forall (fun d => 0.001 <= d <= 0.1)
           (map exp (tensor_of (S4DKernel.log_dt k))).
Proof.
  destruct (kernel_init_ok 2 4 4 0.001 0.1 None Examples.gen)
    as [g' Hinit]; [lra | lra |].
  eexists. exists g'. split; [exact Hinit|].
  apply (initial_step_sizes 2 4 4 0.001 0.1 None Examples.gen g');
    [intros i; simpl; lra | lra | exact Hinit].
Defined.

(** X18. The convolution and skip stage commutes with a delay: if channel
    [(b, h)] of [u'] is channel [(b, h)] of [u] delayed by one step (a
    zero first, then the samples of [u]), the output for [u'] at [(b, h)]
    is 0 at [t = 0] and, after that, the output for [u] delayed by one
    step. *)
Theorem convolution_skip_delay (L : nat) (k : Tensor2) (D : Tensor1)
        (u u' : Tensor3) (B H b h : nat) :
  shape2 k H L -> Datatypes.length D = H ->
  shape3 u B H L -> shape3 u' B H L ->
  (b < B)%nat -> (h < H)%nat ->
  at3 u' b h 0 = 0 ->
  (forall t, (S t < L)%nat -> at3 u' b h (S t) = at3 u b h t) ->
  ((0 < L)%nat -> at3 (S4D.convolution_skip L k D u') b h 0 = 0) /\
  forall t, (S t < L)%nat ->
    at3 (S4D.convolution_skip L k D u') b h (S t)
    = at3 (S4D.convolution_skip L k D u) b h t.
Proof.
  intros Hk HD Hu Hu' Hb Hh H0 Hshift. split.
  - intros HL.
    rewrite (convolution_skip_entry L k D u' B H) by assumption.
    unfold ConvSpec.direct. simpl. rewrite H0. ring.
  - intros t Ht.
    rewrite !(convolution_skip_entry L k D _ B H) by (assumption || lia).
    rewrite (Hshift t) by assumption. f_equal.
    unfold ConvSpec.direct.
    change (Rsum_n (fun s => at2 k h s * at3 u' b h (S t - s)) (S (S t)))
      with (Rsum_n (fun s => at2 k h s * at3 u' b h (S t - s)) (S t)
            + at2 k h (S t) * at3 u' b h (S t - S t)).
    rewrite Nat.sub_diag, H0, Rmult_0_r, Rplus_0_r.
    apply Rsum_n_ext. intros s Hs.
    replace (S t - s)%nat with (S (t - s)) by lia.
    now rewrite Hshift by lia.
Qed.

Lemma convolution_skip_delay_witness :
  at3 (S4D.convolution_skip 2 [[1; 2]] [5] [[[0; 3]]]) 0 0 1
  = at3 (S4D.convolution_skip 2 [[1; 2]] [5] [[[3; 4]]]) 0 0 0.
Proof.
  destruct (convolution_skip_delay 2 [[1; 2]] [5] [[[3; 4]]] [[[0; 3]]]
              1 1 0 0) as [_ Hd];
    try reflexivity; try lia;
    try (split; [reflexivity|repeat constructor]).
  - intros t Ht. now replace t with 0%nat by lia.
  - apply Hd. lia.
Defined.

(** ** A model built with dropout 0 *)

Lemma Dropout1d_forward_inert (self : nn.Dropout1d.t) (X : Tensor3)
      (g : Generator) :
  nn.Dropout1d.training self = false \/ nn.Dropout1d.p self = 0 ->
  nn.Dropout1d.forward self X g = Ok (X, g).
Proof.
  intros [Hev | Hp]; [now apply Dropout1d_forward_eval|].
  unfold nn.Dropout1d.forward.
  destruct (nn.Dropout1d.training self); [|reflexivity].
  destruct (Req_dec_T (nn.Dropout1d.p self) 0); [reflexivity | contradiction].
Qed.

Lemma layers_loop_inert (prenorm : bool)
      (layers : list (S4D.t * nn.LayerNorm.t * nn.Dropout1d.t)) :
  Forall (fun l => nn.Dropout1d.p (S4D.dropout (fst (fst l))) = 0 /\
                   nn.Dropout1d.p (snd l) = 0) layers ->
  forall x, exists y, forall g,
    S4Model.layers_loop prenorm layers x g = Ok (y, g).
Proof.
  induction 1 as [|[[layer norm] drop] rest [Hl Hd] Hrest IH]; intros x.
  - exists x. reflexivity.
  - cbn [S4Model.layers_loop]. simpl in Hl, Hd.
    assert (Hfwd : exists z, forall g,
               S4D.forward layer
                 (if prenorm then S4Model.norm_channels norm x else x) g
               = Ok ((z, None), g)).
    { unfold S4D.forward. eexists. intros g.
      erewrite bind_ok by (apply Dropout1d_forward_inert; right; exact Hl).
      reflexivity. }
    destruct Hfwd as [z Hz].
    destruct (IH (if prenorm then nn.zip3 Rplus z x
                  else S4Model.norm_channels norm (nn.zip3 Rplus z x)))
      as [y Hy].
    exists y. intros g.
    erewrite bind_ok by apply Hz. cbn [fst].
    erewrite bind_ok by (apply Dropout1d_forward_inert; right; exact Hd).
    apply Hy.
Qed.

(** X19. A model constructed with dropout probability 0 is deterministic
    as constructed, that is in training mode: for every input there is
    one output that [S4Model.forward] returns whatever the state of the
    random generator.  With at least one layer the model is indeed not in
    evaluation mode. *)
Theorem zero_dropout_forward_deterministic (GELU : R -> R)
        (d_input length d_output d_model d_state n_layers : nat)
        (prenorm : bool) (dt_min dt_max : R) (lr : option R)
        (g0 g1 : Generator) (m : S4Model.t) :
  S4Model.__init__ GELU d_input length d_output d_model d_state n_layers
                   0 prenorm dt_min dt_max lr g0 = Ok (m, g1) ->
  ((0 < n_layers)%nat -> S4Model.in_eval_mode m = false) /\
  forall x, exists y, forall g, exists g',
    S4Model.forward m x g = Ok (y, g').
Proof.
  intros Hinit.
  apply S4Model_init_inv in Hinit
    as (ga & gb & gc & gd & enc & dec & ls & _ & Hls & _ & ->).
  apply build_layers_inv in Hls as (Hlen & Hall & _ & Hdrops).
  split.
  - intros Hn. unfold S4Model.in_eval_mode; simpl. rewrite Hdrops.
    destruct n_layers as [|n]; [lia|]. simpl.
    apply andb_false_r.
  - intros x. unfold S4Model.forward; simpl.
    assert (Hinert :
      Forall (fun l => nn.Dropout1d.p (S4D.dropout (fst (fst l))) = 0 /\
                       nn.Dropout1d.p (snd l) = 0)
             (combine (combine (fst (fst ls)) (snd (fst ls))) (snd ls))).
    { apply Forall_forall. intros [[layer norm] drop] Hin.
      apply list_elem_of_In in Hin.
      pose proof (in_combine_r _ _ _ _ Hin) as Hdrop.
      apply in_combine_l, in_combine_l in Hin.
      rewrite Hdrops in Hdrop. apply repeat_spec in Hdrop. subst drop.
      rewrite Forall_forall in Hall.
      apply list_elem_of_In, Hall in Hin as (g2 & g3 & Hl).
      apply S4D_init_inv in Hl as (g4 & g5 & kern & conv & _ & _ & _ & ->).
      simpl. auto. }
    destruct (layers_loop_inert prenorm _ Hinert
                (torch.transpose
                   (nn.Linear.forward3 enc (torch.transpose x))))
      as [z Hz].
    eexists. intros g. exists g.
    erewrite bind_ok by apply Hz. reflexivity.
Qed.

Lemma zero_dropout_forward_deterministic_witness :
  exists m g1,
    S4Model.__init__ (fun v => v) 3 16 5 4 4 2 0 false 0.001 0.1 None
                     Examples.gen = Ok (m, g1) /\
    S4Model.in_eval_mode m = false /\
    exists y, forall g, exists g',
      S4Model.forward m (repeat (repeat (repeat 1 16) 3) 2) g = Ok (y, g').
Proof.
  destruct (S4Model_init_ok (fun v => v) 3 16 5 4 4 2 0 false 0.001 0.1
              None Examples.gen) as (m & g1 & Hinit); [lra | lra | lra |].
  exists m, g1. split; [exact Hinit|].
  destruct (zero_dropout_forward_deterministic _ _ _ _ _ _ _ _ _ _ _ _ _ _
              Hinit) as [Hmode Hdet].
  split; [apply Hmode; lia | apply Hdet].
Defined.

(** ** Two edge kernels *)

(** X20. Convolving with the unit impulse returns the input: if every
    channel of a kernel of shape [(H, L)] is [1, 0, ..., 0], the
    convolution stage of [S4D.forward] (the two [rfft], the product, the
    [irfft] and the truncation) gives back, as a tensor, any input of
    shape [(B, H, L)]. *)
Theorem convolution_unit_kernel (L : nat) (k : Tensor2) (u : Tensor3)
        (B H : nat) :
  shape2 k H L -> shape3 u B H L ->
  (forall h, (h < H)%nat -> at2 k h 0 = 1) ->
  (forall h s, (h < H)%nat -> (0 < s)%nat -> at2 k h s = 0) ->
  S4D.convolution L k u = u.
Proof.
  intros Hk Hu H0 Hrest.
  apply (tensor3_ext 0 _ _ B H L);
    [now apply convolution_shape | assumption |].
  intros b h t Hb Hh Ht.
  change (at3 (S4D.convolution L k u) b h t = at3 u b h t).
  rewrite (convolution_entry L k u B H) by assumption.
  unfold ConvSpec.direct.
  rewrite (Rsum_n_single _ (S t) 0).
  - rewrite H0 by assumption. rewrite Nat.sub_0_r. ring.
  - lia.
  - intros s Hs Hne. rewrite Hrest by (assumption || lia). ring.
Qed.

Lemma convolution_unit_kernel_witness :
  S4D.convolution 2 [[1; 0]] [[[3; 4]]] = [[[3; 4]]].
Proof.
  apply (convolution_unit_kernel 2 [[1; 0]] [[[3; 4]]] 1 1).
  - split; [reflexivity|]. repeat constructor.
  - split; [reflexivity|]. repeat constructor.
  - intros h Hh. now replace h with 0%nat by lia.
  - intros h [|[|[|s]]] Hh Hs; replace h with 0%nat by lia;
      (lia || reflexivity).
Defined.

(** X21. With [d_state < 2] the floor division [N // 2] leaves no mode:
    the kernel a constructed [S4DKernel] generates is identically zero,
    of shape [(d_model, length)], and the convolution and skip stage on it
    returns [D[h] * u[b,h,t]]. *)
Theorem kernel_without_modes (d_model length N : nat) (dt_min dt_max : R)
        (lr : option R) (g g' : Generator) (k : S4DKernel.t) :
  (N < 2)%nat ->
  S4DKernel.__init__ d_model length N dt_min dt_max lr g = Ok (k, g') ->
  shape2 (S4DKernel.forward k) d_model length /\
  (forall h t, (h < d_model)%nat -> (t < length)%nat ->
     at2 (S4DKernel.forward k) h t = 0) /\
  forall (D : Tensor1) (u : Tensor3) (B b h t : nat),
    Datatypes.length D = d_model -> shape3 u B d_model length ->
    (b < B)%nat -> (h < d_model)%nat -> (t < length)%nat ->
    at3 (S4D.convolution_skip length (S4DKernel.forward k) D u) b h t
    = nth h D 0 * at3 u b h t.
Proof.
  intros HN Hinit. apply kernel_init_inv in Hinit as (_ & _ & ->).
  destruct (kernel_built_shapes d_model length N dt_min dt_max lr g)
    as (Hdt & HC & Hre & Him & Hlen).
  destruct (kernel_forward_shape_entries _ d_model (N / 2) length
              Hdt HC Hre Him Hlen) as [Hshape Hentry].
  assert (Hzero : forall h t, (h < d_model)%nat -> (t < length)%nat ->
            at2 (S4DKernel.forward
                   (kernel_built d_model length N dt_min dt_max lr g)) h t
            = 0).
  { intros h t Hh Ht. rewrite Hentry by assumption.
    unfold KernelSpec.kernel.
    replace (N / 2)%nat with 0%nat
      by (symmetry; apply Nat.div_small; exact HN).
    simpl. ring. }
  split; [exact Hshape|]. split; [exact Hzero|].
  intros D u B b h t HD Hu Hb Hh Ht.
  rewrite (convolution_skip_entry length _ D u B d_model) by assumption.
  unfold ConvSpec.direct.
  rewrite Rsum_n_all_zero
    by (intros s Hs; rewrite Hzero by (assumption || lia); ring).
  ring.
Qed.

Lemma kernel_without_modes_witness :
  exists k g',
    S4DKernel.__init__ 2 4 1 0.001 0.1 None Examples.gen = Ok (k, g') /\
    at2 (S4DKernel.forward k) 1 3 = 0.
Proof.
  destruct (kernel_init_ok 2 4 1 0.001 0.1 None Examples.gen)
    as [g' Hinit]; [lra | lra |].
  eexists. exists g'. split; [exact Hinit|].
  destruct (kernel_without_modes 2 4 1 0.001 0.1 None Examples.gen g' _
              ltac:(lia) Hinit) as (_ & Hzero & _).
  apply Hzero; lia.
Defined.
